(** * Log Analyzer X: detection and scoring pipeline

    A shallow embedding of the rule-based security detectors
    ([analytics/security.py]), the rolling z-score anomaly engine
    ([analytics/anomaly.py]), the risk fusion engine ([ml/risk_scoring.py])
    and the alert generator ([alerts/alert_engine.py]), with the properties
    of the specification stated over it.

    Conventions of the embedding.
    - A pandas [DataFrame] is a list of typed rows together with the list of
      the column names it carries; reading a column that is absent raises
      [KeyError], as [df["col"]] does.
    - Timestamps are integers: nanoseconds since the epoch, the value pandas
      stores in a [Timestamp].
    - Scores and rates are exact rationals ([Q]); the z-score, which needs a
      square root, is a real number ([R]).  Binary floating-point rounding
      error is not modelled.
    - [sort_values] is modelled by a stable insertion sort. *)

From Stdlib Require Import Lqa.
From Stdlib Require Import Reals Lra.
From Stdlib Require Import String Ascii ZArith QArith Qround Qreals Bool Lia List.
From Stdlib Require Import Permutation Sorted DecimalString DecimalNat.
Import ListNotations.

Open Scope Z_scope.

(* ================================================================== *)
(** * Errors *)

Inductive exn : Type :=
| KeyError (col : string).

Inductive result (A : Type) : Type :=
| Ok (a : A)
| Raise (e : exn).

Arguments Ok {A} a.
Arguments Raise {A} e.

Definition bind {A B : Type} (m : result A) (f : A -> result B) : result B :=
  match m with
  | Ok a => f a
  | Raise e => Raise e
  end.

Notation "x <- m ;; k" := (bind m (fun x => k))
  (at level 61, m at next level, right associativity).

(* ================================================================== *)
(** * Column operations shared by the analyzers *)

Section Columns.
Context {K : Type}.
Variable eqb : K -> K -> bool.
Variable leb : K -> K -> bool.

(** [Series.unique()]: distinct values in order of first appearance. *)
Fixpoint unique (l : list K) : list K :=
  match l with
  | [] => []
  | x :: r => x :: filter (fun y => negb (eqb x y)) (unique r)
  end.

(** [Series.nunique()]. *)
Definition nunique (l : list K) : nat := length (unique l).

Fixpoint insert_sorted (x : K) (l : list K) : list K :=
  match l with
  | [] => [x]
  | y :: r => if leb x y then x :: l else y :: insert_sorted x r
  end.

(** Ascending sort. *)
Definition sort (l : list K) : list K := fold_right insert_sorted [] l.

Definition count_of (x : K) (l : list K) : nat :=
  length (filter (eqb x) l).

(** [Series.mode().iloc[0]]: the most frequent value, the smallest one
    on a tie ([mode()] is sorted).  [None] on an empty column. *)
Definition mode_first (l : list K) : option K :=
  fold_left
    (fun best k =>
       match best with
       | None => Some k
       | Some b => if (count_of b l <? count_of k l)%nat then Some k else best
       end)
    (sort (unique l)) None.

(** [df.groupby(key)]: one group per distinct key, keys ascending, rows of
    a group in their original order. *)
Definition groupby {A : Type} (key : A -> K) (rows : list A)
  : list (K * list A) :=
  map (fun k => (k, filter (fun r => eqb (key r) k) rows))
      (sort (unique (map key rows))).
End Columns.

(** [sort_values(col)] on rows, stable. *)
Section SortRows.
Context {A : Type}.
Variable before : A -> A -> bool.

Fixpoint insert_row (x : A) (l : list A) : list A :=
  match l with
  | [] => [x]
  | y :: r => if before x y then x :: l else y :: insert_row x r
  end.

Definition sort_rows (l : list A) : list A := fold_right insert_row [] l.
End SortRows.

(** [range(0, n, step)] for a positive step. *)
Definition range_step (n step : nat) : list nat :=
  map (fun k => (k * step)%nat) (seq 0 ((n + step - 1) / step)).

Definition Qleb (a b : Q) : bool := Qle_bool a b.
Definition Qltb (a b : Q) : bool := negb (Qle_bool b a).
Definition Qeqb (a b : Q) : bool := Qeq_bool a b.

(** [Series.clip(lo, hi)]. *)
Definition clip (lo hi x : Q) : Q :=
  if Qltb x lo then lo else if Qltb hi x then hi else x.

(** Round half to even to an integer, as [numpy.rint]. *)
Definition rint (x : Q) : Z :=
  let n := Qfloor x in
  let frac := (x - inject_Z n)%Q in
  if Qltb frac (1 # 2) then n
  else if Qltb (1 # 2) frac then n + 1
  else if Z.even n then n else n + 1.

(** [Series.round(d)] for d = 1 and d = 2. *)
Definition round1 (x : Q) : Q := Qred (rint (x * 10) # 10).
Definition round2 (x : Q) : Q := Qred (rint (x * 100) # 100).

Definition Qsum (l : list Q) : Q := fold_right Qplus 0%Q l.

Definition Qnat (n : nat) : Q := inject_Z (Z.of_nat n).

(** [Series.quantile(p)], linear interpolation between order statistics. *)
Definition quantile (p : Q) (xs : list Q) : Q :=
  let s := sort Qleb xs in
  let pos := (p * (Qnat (length s) - 1))%Q in
  let lo := Z.to_nat (Qfloor pos) in
  let frac := (pos - inject_Z (Qfloor pos))%Q in
  let a := nth lo s 0%Q in
  let b := nth (S lo) s a in
  Qred (a + frac * (b - a))%Q.

(** [pd.cut(x, bins, labels)]: the label of the right-closed bin
    (b_i, b_{i+1}] holding [x]; [None] (NaN) when no bin holds it. *)
Fixpoint cut {L : Type} (bins : list Q) (labels : list L) (x : Q) : option L :=
  match bins, labels with
  | lo :: ((hi :: _) as rest), lab :: labels' =>
      if Qltb lo x && Qleb x hi then Some lab else cut rest labels' x
  | _, _ => None
  end.

(** [str.lower()] on ASCII letters. *)
Definition lower_ascii (c : ascii) : ascii :=
  let n := nat_of_ascii c in
  if ((65 <=? n) && (n <=? 90))%nat then ascii_of_nat (n + 32) else c.

Fixpoint lower (s : string) : string :=
  match s with
  | EmptyString => EmptyString
  | String c r => String (lower_ascii c) (lower r)
  end.

(** Python's [needle in haystack] on strings. *)
Fixpoint contains (needle hay : string) : bool :=
  String.prefix needle hay ||
  match hay with
  | EmptyString => false
  | String _ r => contains needle r
  end.

(* ================================================================== *)
(** * The normalized Event Table *)

Record Event : Type := mkEvent {
  timestamp : Z;
  user_id : string;
  ip_address : string;
  endpoint : string;
  service : string;
  country : string;
  session_id : string;
  is_failure : bool;
  hour_bucket : Z;
  latency_ms : Q
}.

Record DataFrame : Type := mkDataFrame {
  columns : list string;
  rows : list Event
}.

Definition has_col (c : string) (df : DataFrame) : bool :=
  existsb (String.eqb c) (columns df).

(** [df[c]] for the boolean column [is_failure]. *)
Definition col_is_failure (df : DataFrame) : result (Event -> bool) :=
  if has_col "is_failure" df then Ok is_failure
  else Raise (KeyError "is_failure").

Definition minute : Z := 60 * 1000000000.
Definition day : Z := 1440 * minute.

(* ================================================================== *)
(** * config/settings.py *)

Record SecurityConfig : Type := mkSecurityConfig {
  brute_force_threshold : Z;
  brute_force_window_min : Z;
  credential_stuffing_threshold : Z;
  credential_stuffing_window_min : Z;
  high_risk_score : Z;
  critical_risk_score : Z
}.

Definition SECURITY : SecurityConfig :=
  {| brute_force_threshold := 5;
     brute_force_window_min := 10;
     credential_stuffing_threshold := 3;
     credential_stuffing_window_min := 5;
     high_risk_score := 70;
     critical_risk_score := 85 |}.

Record MitreEntry : Type := mkMitre {
  technique_id : string;
  technique_name : string;
  tactic : string
}.

Definition MITRE_brute_force : MitreEntry :=
  mkMitre "T1110" "Brute Force" "Credential Access".
Definition MITRE_credential_stuffing : MitreEntry :=
  mkMitre "T1110.004" "Credential Stuffing" "Credential Access".
Definition MITRE_valid_accounts : MitreEntry :=
  mkMitre "T1078" "Valid Accounts" "Defense Evasion / Initial Access".

Record MLConfig : Type := mkMLConfig {
  zscore_window : nat;
  zscore_threshold : Q
}.

Definition ML_CONFIG : MLConfig :=
  {| zscore_window := 20; zscore_threshold := 5 # 2 |}.

Inductive Tier : Type := Low | Medium | High | Critical.

(* ================================================================== *)
(** * analytics/security.py *)

Module Security.

Record BruteForceDetection : Type := mkBruteForce {
  bf_detection_type : string;
  bf_ip_address : string;
  bf_timestamp : Z;
  attempt_count : Z;
  targeted_users : list string;
  bf_mitre_technique : string;
  bf_mitre_name : string;
  bf_severity : string;
  bf_country : string
}.

Record CredentialStuffingDetection : Type := mkCredentialStuffing {
  cs_detection_type : string;
  cs_ip_address : string;
  cs_timestamp : Z;
  unique_users_targeted : Z;
  total_attempts : Z;
  cs_mitre_technique : string;
  cs_mitre_name : string;
  cs_severity : string;
  cs_country : string
}.

Record IpReputation : Type := mkIpReputation {
  rep_ip_address : string;
  rep_total_requests : Z;
  rep_failure_count : Z;
  rep_failure_ratio : Q;
  rep_unique_users : Z;
  reputation_score : Q;
  rep_risk_tier : option Tier
}.

Record GeoAnomaly : Type := mkGeoAnomaly {
  geo_user_id : string;
  geo_countries : list string;
  num_countries : Z;
  primary_country : string;
  geo_severity : string;
  anomaly_type : string
}.

Record MitreRecord : Type := mkMitreRecord {
  mr_technique_id : string;
  mr_technique_name : string;
  mr_tactic : string;
  mr_detection_source : string;
  mr_severity : string;
  mr_timestamp : Z;
  mr_ip_address : string
}.

Record SecurityResults : Type := mkSecurityResults {
  brute_force : list BruteForceDetection;
  credential_stuffing : list CredentialStuffingDetection;
  ip_reputation : list IpReputation;
  geo_anomalies : list GeoAnomaly;
  mitre_mapping : list MitreRecord;
  risk_index : Z;
  total_threats : Z;
  high_risk_ips : Z;
  failure_rate : Q
}.

Definition len {A : Type} (l : list A) : Z := Z.of_nat (List.length l).

Definition login_endpoints : list string :=
  ["/login"; "/auth"; "/signin"; "/authenticate"; "/token"]%string.

Definition isin (s : string) (l : list string) : bool :=
  existsb (String.eqb s) l.

Definition by_timestamp (a b : Event) : bool := timestamp a <=? timestamp b.

(** The country of a window: [window_data["country"].mode().iloc[0]] when
    the column exists and the window is not empty, else ["Unknown"]. *)
Definition window_country (df : DataFrame) (window_data : list Event) : string :=
  if has_col "country" df && (0 <? len window_data) then
    match mode_first String.eqb String.leb (map country window_data) with
    | Some c => c
    | None => "Unknown"
    end
  else "Unknown".

(** [group.resample(window).size()] on a group indexed by ascending
    timestamps: consecutive bins of length [w], the first one anchored on
    midnight of the first row's day (pandas' default origin, "start_day"),
    up to the bin of the last row; each bin [start, start + w) with the
    number of rows in it. *)
Definition resample_size (w : Z) (group : list Event) : list (Z * Z) :=
  match group with
  | [] => []
  | first :: _ =>
      let t_first := timestamp first in
      let t_last := timestamp (last group first) in
      let origin := (t_first / day) * day in
      let first_bin := origin + ((t_first - origin) / w) * w in
      let nbins := Z.to_nat ((t_last - first_bin) / w + 1) in
      map (fun k =>
             let start := first_bin + Z.of_nat k * w in
             (start,
              len (filter (fun e => (start <=? timestamp e)
                                    && (timestamp e <? start + w)) group)))
          (seq 0 nbins)
  end.

(** [group.loc[ts : ts + Timedelta(window)]] on the timestamp index: label
    slicing keeps both end points. *)
Definition loc_slice (lo hi : Z) (group : list Event) : list Event :=
  filter (fun e => (lo <=? timestamp e) && (timestamp e <=? hi)) group.

Definition brute_force_record (cfg : SecurityConfig) (df : DataFrame)
    (ip : string) (group : list Event) (breach : Z * Z) : BruteForceDetection :=
  let window := brute_force_window_min cfg * minute in
  let threshold := brute_force_threshold cfg in
  let '(ts, count) := breach in
  let window_data := loc_slice ts (ts + window) group in
  let users :=
    if has_col "user_id" df then unique String.eqb (map user_id window_data)
    else [] in
  {| bf_detection_type := "brute_force";
     bf_ip_address := ip;
     bf_timestamp := ts;
     attempt_count := count;
     targeted_users := firstn 5 users;
     bf_mitre_technique := technique_id MITRE_brute_force;
     bf_mitre_name := technique_name MITRE_brute_force;
     bf_severity := if threshold * 2 <=? count then "CRITICAL" else "WARNING";
     bf_country := window_country df window_data |}.

(** The body of the loop over [failures.groupby("ip_address")]. *)
Definition brute_force_of_ip (cfg : SecurityConfig) (df : DataFrame)
    (ip : string) (group : list Event) : list BruteForceDetection :=
  let window := brute_force_window_min cfg * minute in
  let threshold := brute_force_threshold cfg in
  let group := sort_rows by_timestamp group in
  let rolling_count := resample_size window group in
  let breaches := filter (fun b => threshold <=? snd b) rolling_count in
  map (brute_force_record cfg df ip group) breaches.

Definition detect_brute_force (cfg : SecurityConfig) (df : DataFrame)
  : result (list BruteForceDetection) :=
  if negb (has_col "timestamp" df) || negb (has_col "ip_address" df) then Ok []
  else
    failed <- col_is_failure df ;;
    let auth_mask e :=
      if has_col "endpoint" df
      then failed e && isin (lower (endpoint e)) login_endpoints
      else failed e in
    let failures := filter auth_mask (rows df) in
    match failures with
    | [] => Ok []
    | _ =>
        Ok (flat_map (fun g => brute_force_of_ip cfg df (fst g) (snd g))
                     (groupby String.eqb String.leb ip_address failures))
    end.

(** The rows of a group inside the closed window that starts at [ts]:
    [group[(group["timestamp"] >= ts) & (group["timestamp"] <= window_end)]]. *)
Definition stuffing_window (cfg : SecurityConfig) (group : list Event) (ts : Z)
  : list Event :=
  let window_end := ts + credential_stuffing_window_min cfg * minute in
  filter (fun e => (ts <=? timestamp e) && (timestamp e <=? window_end)) group.

Definition window_users (cfg : SecurityConfig) (group : list Event) (ts : Z) : Z :=
  Z.of_nat (nunique String.eqb (map user_id (stuffing_window cfg group ts))).

Definition stuffing_record (cfg : SecurityConfig) (df : DataFrame)
    (ip : string) (group : list Event) (ts : Z) : CredentialStuffingDetection :=
  let window_data := stuffing_window cfg group ts in
  {| cs_detection_type := "credential_stuffing";
     cs_ip_address := ip;
     cs_timestamp := ts;
     unique_users_targeted := window_users cfg group ts;
     total_attempts := len window_data;
     cs_mitre_technique := technique_id MITRE_credential_stuffing;
     cs_mitre_name := technique_name MITRE_credential_stuffing;
     cs_severity := "CRITICAL";
     cs_country := window_country df window_data |}.

(** The loop [for i in range(0, len(group), stride)] over its start
    points: the first one whose window holds enough distinct users yields
    the record and ends the loop ([break]). *)
Fixpoint credential_stuffing_scan (cfg : SecurityConfig) (df : DataFrame)
    (ip : string) (group : list Event) (starts : list nat)
  : list CredentialStuffingDetection :=
  match starts with
  | [] => []
  | i :: later =>
      match nth_error group i with
      | None => []
      | Some row =>
          let ts := timestamp row in
          if credential_stuffing_threshold cfg <=? window_users cfg group ts
          then [stuffing_record cfg df ip group ts]
          else credential_stuffing_scan cfg df ip group later
      end
  end.

Definition start_points (n : nat) : list nat :=
  range_step n (Nat.max 1 (n / 20)).

Definition credential_stuffing_of_ip (cfg : SecurityConfig) (df : DataFrame)
    (ip : string) (group : list Event) : list CredentialStuffingDetection :=
  let group := sort_rows by_timestamp group in
  credential_stuffing_scan cfg df ip group (start_points (List.length group)).

(** The failures of one IP in the order the credential-stuffing loop scans
    them: the group of [auth_failures.groupby("ip_address")] for that IP,
    sorted by timestamp. *)
Definition failures_of_ip (df : DataFrame) (ip : string) : list Event :=
  sort_rows by_timestamp
    (filter (fun e => String.eqb (ip_address e) ip)
            (filter is_failure (rows df))).

Definition detect_credential_stuffing (cfg : SecurityConfig) (df : DataFrame)
  : result (list CredentialStuffingDetection) :=
  if negb (has_col "timestamp" df) || negb (has_col "ip_address" df)
     || negb (has_col "user_id" df) then Ok []
  else
    failed <- col_is_failure df ;;
    let auth_failures := filter failed (rows df) in
    match auth_failures with
    | [] => Ok []
    | _ =>
        Ok (flat_map (fun g => credential_stuffing_of_ip cfg df (fst g) (snd g))
                     (groupby String.eqb String.leb ip_address auth_failures))
    end.

Definition by_reputation_desc (a b : IpReputation) : bool :=
  Qleb (reputation_score b) (reputation_score a).

Definition reputation_bins : list Q := [-1; 25; 50; 70; 100]%Q.
Definition tier_labels : list Tier := [Low; Medium; High; Critical].

Definition calculate_ip_reputation (df : DataFrame)
  : result (list IpReputation) :=
  if negb (has_col "ip_address" df) then Ok []
  else
    failed <- col_is_failure df ;;
    let groups := groupby String.eqb String.leb ip_address (rows df) in
    let total g := len (snd g) in
    let p95 := quantile (95 # 100) (map (fun g => inject_Z (total g)) groups) in
    let stats g :=
      let total_requests := total g in
      let failure_count := len (filter failed (snd g)) in
      let unique_users :=
        if has_col "user_id" df
        then Z.of_nat (nunique String.eqb (map user_id (snd g)))
        else total_requests in
      let failure_ratio := (inject_Z failure_count / inject_Z total_requests)%Q in
      let score_failure := clip 0 100 (failure_ratio * 100) in
      let score_volume :=
        if Qltb p95 (inject_Z total_requests) then 80%Q
        else (inject_Z total_requests / p95 * 40)%Q in
      let score_user_spread :=
        clip 0 100 (if 5 <? unique_users
                    then inject_Z (60 + (unique_users - 5) * 4) else 0%Q) in
      let score :=
        round1 (clip 0 100 (score_failure * (50 # 100)
                            + score_volume * (20 # 100)
                            + score_user_spread * (30 # 100))) in
      {| rep_ip_address := fst g;
         rep_total_requests := total_requests;
         rep_failure_count := failure_count;
         rep_failure_ratio := Qred failure_ratio;
         rep_unique_users := unique_users;
         reputation_score := score;
         rep_risk_tier := cut reputation_bins tier_labels score |} in
    Ok (sort_rows by_reputation_desc (map stats groups)).

Definition detect_geo_anomalies (df : DataFrame) : result (list GeoAnomaly) :=
  if negb (has_col "user_id" df) || negb (has_col "country" df) then Ok []
  else
    let user_countries :=
      map (fun g =>
             let cs := map country (snd g) in
             (fst g, unique String.eqb cs,
              Z.of_nat (nunique String.eqb cs),
              match mode_first String.eqb String.leb cs with
              | Some c => c
              | None => "Unknown"%string
              end))
          (groupby String.eqb String.leb user_id (rows df)) in
    let anomalies :=
      filter (fun u => match u with (_, _, n, _) => 3 <=? n end) user_countries in
    Ok (map (fun u =>
               match u with
               | (user, cs, n, primary) =>
                   {| geo_user_id := user;
                      geo_countries := cs;
                      num_countries := n;
                      primary_country := primary;
                      geo_severity := if 5 <=? n then "CRITICAL" else "WARNING";
                      anomaly_type := "geo_deviation" |}
               end) anomalies).

(** [map_mitre_techniques] on the two detection tables handed over by
    [run_security_analysis]; every row carries its [detection_type], which
    is a key of the MITRE table. *)
Definition map_mitre_techniques (bf : list BruteForceDetection)
    (cs : list CredentialStuffingDetection) : list MitreRecord :=
  map (fun r =>
         {| mr_technique_id := technique_id MITRE_brute_force;
            mr_technique_name := technique_name MITRE_brute_force;
            mr_tactic := tactic MITRE_brute_force;
            mr_detection_source := "brute_force";
            mr_severity := bf_severity r;
            mr_timestamp := bf_timestamp r;
            mr_ip_address := bf_ip_address r |}) bf
  ++
  map (fun r =>
         {| mr_technique_id := technique_id MITRE_credential_stuffing;
            mr_technique_name := technique_name MITRE_credential_stuffing;
            mr_tactic := tactic MITRE_credential_stuffing;
            mr_detection_source := "credential_stuffing";
            mr_severity := cs_severity r;
            mr_timestamp := cs_timestamp r;
            mr_ip_address := cs_ip_address r |}) cs.

Definition is_high_risk (cfg : SecurityConfig) (r : IpReputation) : bool :=
  Qleb (inject_Z (high_risk_score cfg)) (reputation_score r).

(** The security risk index of [run_security_analysis], as the statement
    sequence of the source: four capped increments, then the overall cap. *)
Definition security_risk_index (cfg : SecurityConfig)
    (bf : list BruteForceDetection) (cs : list CredentialStuffingDetection)
    (geo : list GeoAnomaly) (rep : list IpReputation) : Z :=
  let risk_score := 0 in
  let risk_score := risk_score + Z.min (len bf * 5) 30 in
  let risk_score := risk_score + Z.min (len cs * 10) 30 in
  let risk_score := risk_score + Z.min (len geo * 3) 20 in
  let risk_score :=
    match rep with
    | [] => risk_score
    | _ =>
        let high := len (filter (is_high_risk cfg) rep) in
        risk_score + Z.min (high * 2) 20
    end in
  Z.min risk_score 100.

Definition run_security_analysis (cfg : SecurityConfig) (df : DataFrame)
  : result SecurityResults :=
  bf <- detect_brute_force cfg df ;;
  cs <- detect_credential_stuffing cfg df ;;
  rep <- calculate_ip_reputation df ;;
  geo <- detect_geo_anomalies df ;;
  let mitre_map := map_mitre_techniques bf cs in
  let risk_score := security_risk_index cfg bf cs geo rep in
  let total := len (rows df) in
  let failure_count :=
    if has_col "is_failure" df then len (filter is_failure (rows df)) else 0 in
  let rate :=
    if 0 <? total
    then (inject_Z failure_count / inject_Z total * 100)%Q else 0%Q in
  Ok {| brute_force := bf;
        credential_stuffing := cs;
        ip_reputation := rep;
        geo_anomalies := geo;
        mitre_mapping := mitre_map;
        risk_index := risk_score;
        total_threats := len bf + len cs;
        high_risk_ips :=
          match rep with
          | [] => 0
          | _ => len (filter (is_high_risk cfg) rep)
          end;
        failure_rate := round2 rate |}.

End Security.

(* ================================================================== *)
(** * analytics/anomaly.py *)

Module Anomaly.

Definition Rsum (l : list R) : R := fold_right Rplus 0%R l.

(** Mean of the observations of a window; NaN ([None]) below
    [min_periods = 1]. *)
Definition mean (l : list R) : option R :=
  match l with
  | [] => None
  | _ => Some (Rsum l / INR (List.length l))%R
  end.

(** Sample standard deviation (pandas' [ddof = 1]); NaN with fewer than two
    observations. *)
Definition std (l : list R) : option R :=
  match mean l with
  | Some m =>
      if (2 <=? List.length l)%nat
      then Some (sqrt (Rsum (map (fun x => (x - m) * (x - m))%R l)
                       / INR (List.length l - 1)))
      else None
  | None => None
  end.

(** The rows of [series.rolling(window)] seen from position [i]: the last
    [window] values up to and including [i]. *)
Definition window_at (window : nat) (series : list R) (i : nat) : list R :=
  skipn (S i - window) (firstn (S i) series).

Definition fillna (d : R) (x : option R) : R :=
  match x with
  | Some v => v
  | None => d
  end.

(** [Series.replace(0, 1)] on one value. *)
Definition replace_zero (x : R) : R :=
  if Req_dec_T x 0%R then 1%R else x.

Definition zscore_at (series : list R) (window : nat) (i : nat) : option R :=
  let w := window_at window series i in
  let rolling_mean := mean w in
  let rolling_std := replace_zero (fillna 1%R (std w)) in
  match nth_error series i, rolling_mean with
  | Some x, Some m => Some ((x - m) / rolling_std)%R
  | _, _ => None
  end.

(** [rolling_zscore(series, window)]; a NaN z-score is [None]. *)
Definition rolling_zscore (series : list R) (window : nat) : list (option R) :=
  map (zscore_at series window) (seq 0 (List.length series)).

Definition Rgtb (a b : R) : bool := if Rlt_dec b a then true else false.

(** [x > t] on a possibly-NaN [x]: comparisons with NaN are false. *)
Definition nan_gt (x : option R) (t : R) : bool :=
  match x with
  | Some v => Rgtb v t
  | None => false
  end.

Definition nan_lt (x : option R) (t : R) : bool :=
  match x with
  | Some v => Rgtb t v
  | None => false
  end.

Definition nan_abs (x : option R) : option R := option_map Rabs x.

(** The columns [detect_spikes] can aggregate and bucket by, read from the
    typed event row. *)
Definition metric_of (metric_col : string) (e : Event) : R :=
  if String.eqb metric_col "latency_ms" then Q2R (latency_ms e)
  else if String.eqb metric_col "is_failure"
       then (if is_failure e then 1%R else 0%R)
  else 0%R.

Definition time_of (time_col : string) (e : Event) : Z :=
  if String.eqb time_col "timestamp" then timestamp e else hour_bucket e.

Record SpikeRow : Type := mkSpikeRow {
  sp_bucket : Z;
  avg_value : option R;
  std_value : option R;
  sp_count : nat;
  sp_zscore : option R;
  sp_is_spike : bool;
  spike_direction : string;
  sp_severity : string
}.

(** The [time_series] table of [detect_spikes] with its [zscore],
    [is_spike] and [spike_direction] columns, before the spikes are
    selected.  [severity] is filled in on the selected rows. *)
Definition spike_table (cfg : MLConfig) (df : DataFrame)
    (metric_col time_col : string) (threshold : R) : list SpikeRow :=
  let groups := groupby Z.eqb Z.leb (time_of time_col) (rows df) in
  let avg g := (Rsum (map (metric_of metric_col) (snd g))
                / INR (List.length (snd g)))%R in
  let zs := rolling_zscore (map avg groups) (zscore_window cfg) in
  map (fun gz =>
         let '(g, z) := gz in
         {| sp_bucket := fst g;
            avg_value := mean (map (metric_of metric_col) (snd g));
            std_value := std (map (metric_of metric_col) (snd g));
            sp_count := List.length (snd g);
            sp_zscore := z;
            sp_is_spike := nan_gt (nan_abs z) threshold;
            spike_direction :=
              if nan_gt z threshold then "HIGH"
              else if nan_lt z (- threshold)%R then "LOW" else "NORMAL";
            sp_severity := "" |})
      (combine groups zs).

Definition with_severity (threshold : R) (r : SpikeRow) : SpikeRow :=
  {| sp_bucket := sp_bucket r;
     avg_value := avg_value r;
     std_value := std_value r;
     sp_count := sp_count r;
     sp_zscore := sp_zscore r;
     sp_is_spike := sp_is_spike r;
     spike_direction := spike_direction r;
     sp_severity :=
       if nan_gt (nan_abs (sp_zscore r)) (threshold * 1.5)%R
       then "CRITICAL" else "WARNING" |}.

(** [if threshold is None: threshold = ML_CONFIG["zscore_threshold"]]. *)
Definition effective_threshold (cfg : MLConfig) (threshold : option R) : R :=
  match threshold with
  | Some t => t
  | None => Q2R (zscore_threshold cfg)
  end.

(** [detect_spikes(df, metric_col, time_col, threshold)]. *)
Definition detect_spikes (cfg : MLConfig) (df : DataFrame)
    (metric_col time_col : string) (threshold : option R) : list SpikeRow :=
  if negb (has_col metric_col df) || negb (has_col time_col df) then []
  else
    let threshold := effective_threshold cfg threshold in
    let time_series := spike_table cfg df metric_col time_col threshold in
    let spikes := filter sp_is_spike time_series in
    map (with_severity threshold) spikes.

Record ErrorRateRow : Type := mkErrorRateRow {
  er_bucket : Z;
  er_total : Z;
  er_errors : Z;
  error_rate : Q;
  er_zscore : option R;
  er_is_spike : bool
}.

Definition error_rate_of (g : Z * list Event) : Q :=
  round2 (inject_Z (Z.of_nat (List.length (filter is_failure (snd g))))
          / inject_Z (Z.of_nat (List.length (snd g))) * 100)%Q.

(** [detect_error_rate_spikes(df, time_col)]. *)
Definition detect_error_rate_spikes (cfg : MLConfig) (df : DataFrame)
    (time_col : string) : list ErrorRateRow :=
  if negb (has_col "is_failure" df) || negb (has_col time_col df) then []
  else
    let groups := groupby Z.eqb Z.leb (time_of time_col) (rows df) in
    let zs := rolling_zscore (map (fun g => Q2R (error_rate_of g)) groups)
                             (zscore_window cfg) in
    map (fun gz =>
           let '(g, z) := gz in
           {| er_bucket := fst g;
              er_total := Z.of_nat (List.length (snd g));
              er_errors := Z.of_nat (List.length (filter is_failure (snd g)));
              error_rate := error_rate_of g;
              er_zscore := z;
              er_is_spike := nan_gt z (Q2R (zscore_threshold cfg)) |})
        (combine groups zs).

Record AnomalyResults : Type := mkAnomalyResults {
  latency_spikes : list SpikeRow;
  error_spikes : list ErrorRateRow;
  service_anomalies : list (string * list SpikeRow);
  total_latency_spikes : Z;
  total_error_spikes : Z
}.

Definition run_anomaly_analysis (cfg : MLConfig) (df : DataFrame)
  : AnomalyResults :=
  let latency := detect_spikes cfg df "latency_ms" "hour_bucket" None in
  let errors := detect_error_rate_spikes cfg df "hour_bucket" in
  let per_service :=
    if has_col "service" df then
      flat_map
        (fun svc =>
           let svc_df :=
             mkDataFrame (columns df)
                         (filter (fun e => String.eqb (service e) svc) (rows df)) in
           match detect_spikes cfg svc_df "latency_ms" "hour_bucket" None with
           | [] => []
           | svc_spikes => [(svc, svc_spikes)]
           end)
        (unique String.eqb (map service (rows df)))
    else [] in
  {| latency_spikes := latency;
     error_spikes := errors;
     service_anomalies := per_service;
     total_latency_spikes := Z.of_nat (List.length latency);
     total_error_spikes :=
       Z.of_nat (List.length (filter er_is_spike errors)) |}.

End Anomaly.

(* ================================================================== *)
(** * ml/risk_scoring.py *)

Module RiskScoring.

(** The externally supplied ML signals.  A table is kept with a flag for
    the one column whose presence the fusion tests. *)
Record IsolationForestRow : Type := mkIFRow {
  if_session_id : string;
  anomaly_score : Q
}.

Record IsolationForestResults : Type := mkIFResults {
  if_has_anomaly_score : bool;
  if_results : list IsolationForestRow
}.

Record KMeansRow : Type := mkKMRow {
  km_user_id : string;
  cluster_label : string
}.

Record KMeansResults : Type := mkKMResults {
  km_has_cluster_label : bool;
  km_results : list KMeansRow
}.

Record MLResults : Type := mkMLResults {
  isolation_forest : option IsolationForestResults;
  kmeans : option KMeansResults
}.

Record UserRisk : Type := mkUserRisk {
  ur_user_id : string;
  ur_total_requests : Z;
  ur_failure_rate : Q;
  ur_unique_ips : Z;
  ur_unique_countries : Z;
  ur_avg_latency : Q;
  score_failure : Q;
  score_anomaly : Q;
  score_geo : Q;
  score_cluster : Q;
  score_volume : Q;
  score_ip_rep : Q;
  risk_score : Q;
  risk_tier : option Tier
}.

Definition Qmean (l : list Q) : Q := Qred (Qsum l / Qnat (List.length l)).

Definition bool_Q (b : bool) : Q := if b then 1%Q else 0%Q.

Definition risk_bins : list Q := [-1; 25; 50; 75; 100]%Q.
Definition risk_labels : list Tier := [Low; Medium; High; Critical].

(** [df[["session_id", "user_id"]].drop_duplicates()]. *)
Definition session_user (df : DataFrame) : list (string * string) :=
  unique (fun a b => String.eqb (fst a) (fst b) && String.eqb (snd a) (snd b))
         (map (fun e => (session_id e, user_id e)) (rows df)).

(** [if_results.merge(session_user, on="session_id", how="left")], keeping
    the rows that found a user (the later [groupby("user_id")] drops the
    others). *)
Definition if_with_user (df : DataFrame) (ifr : list IsolationForestRow)
  : list (string * Q) :=
  flat_map
    (fun r =>
       map (fun su => (snd su, anomaly_score r))
           (filter (fun su => String.eqb (fst su) (if_session_id r))
                   (session_user df)))
    ifr.

(** [user_anomaly] looked up at one user: the mean anomaly score of the
    user's sessions, NaN ([None]) when the join gave the user no row. *)
Definition avg_anomaly_score (df : DataFrame) (ifr : list IsolationForestRow)
    (user : string) : option Q :=
  match map snd (filter (fun p => String.eqb (fst p) user) (if_with_user df ifr)) with
  | [] => None
  | scores => Some (Qmean scores)
  end.

Definition fillna (d : Q) (x : option Q) : Q :=
  match x with
  | Some v => v
  | None => d
  end.

(** Component 2 for one user. *)
Definition anomaly_component (df : DataFrame) (ml_results : option MLResults)
    (user : string) : Q :=
  match ml_results with
  | Some ml =>
      match isolation_forest ml with
      | Some iso =>
          match if_results iso with
          | [] => 0%Q
          | ifr =>
              if has_col "session_id" df && has_col "user_id" df then
                if if_has_anomaly_score iso then
                  Qred (clip 0 100
                          ((0 - fillna 0 (avg_anomaly_score df ifr user)) * 50 + 50))
                else 0%Q
              else 0%Q
          end
      | None => 0%Q
      end
  | None => 0%Q
  end.

(** The isolation-forest signal is there and is used: its table has rows
    and the [anomaly_score] column, and the events carry the join keys. *)
Definition signal_used (df : DataFrame) (iso : IsolationForestResults)
  : Prop :=
  if_results iso <> []
  /\ has_col "session_id" df = true
  /\ has_col "user_id" df = true
  /\ if_has_anomaly_score iso = true.

Definition geo_component (unique_countries : Z) : Q :=
  if 5 <=? unique_countries then 100%Q
  else if 3 <=? unique_countries then 60%Q
  else if 2 <=? unique_countries then 30%Q
  else 0%Q.

Definition cluster_score (label : string) : Q :=
  if contains "Suspicious" label then 80%Q
  else if contains "Power" label then 20%Q else 0%Q.

Definition set_cluster (u : UserRisk) (s : Q) : UserRisk :=
  {| ur_user_id := ur_user_id u; ur_total_requests := ur_total_requests u;
     ur_failure_rate := ur_failure_rate u; ur_unique_ips := ur_unique_ips u;
     ur_unique_countries := ur_unique_countries u;
     ur_avg_latency := ur_avg_latency u;
     score_failure := score_failure u; score_anomaly := score_anomaly u;
     score_geo := score_geo u; score_cluster := s;
     score_volume := score_volume u; score_ip_rep := score_ip_rep u;
     risk_score := risk_score u; risk_tier := risk_tier u |}.

Definition set_volume (u : UserRisk) (s : Q) : UserRisk :=
  {| ur_user_id := ur_user_id u; ur_total_requests := ur_total_requests u;
     ur_failure_rate := ur_failure_rate u; ur_unique_ips := ur_unique_ips u;
     ur_unique_countries := ur_unique_countries u;
     ur_avg_latency := ur_avg_latency u;
     score_failure := score_failure u; score_anomaly := score_anomaly u;
     score_geo := score_geo u; score_cluster := score_cluster u;
     score_volume := s; score_ip_rep := score_ip_rep u;
     risk_score := risk_score u; risk_tier := risk_tier u |}.

Definition set_ip_rep (u : UserRisk) (s : Q) : UserRisk :=
  {| ur_user_id := ur_user_id u; ur_total_requests := ur_total_requests u;
     ur_failure_rate := ur_failure_rate u; ur_unique_ips := ur_unique_ips u;
     ur_unique_countries := ur_unique_countries u;
     ur_avg_latency := ur_avg_latency u;
     score_failure := score_failure u; score_anomaly := score_anomaly u;
     score_geo := score_geo u; score_cluster := score_cluster u;
     score_volume := score_volume u; score_ip_rep := s;
     risk_score := risk_score u; risk_tier := risk_tier u |}.

(** The composite of the six components and its tier. *)
Definition composite (u : UserRisk) : Q :=
  round1 (clip 0 100 (score_failure u * (25 # 100)
                      + score_anomaly u * (25 # 100)
                      + score_geo u * (15 # 100)
                      + score_cluster u * (15 # 100)
                      + score_volume u * (10 # 100)
                      + score_ip_rep u * (10 # 100))).

Definition user_tier (score : Q) : option Tier := cut risk_bins risk_labels score.

Definition set_risk (u : UserRisk) : UserRisk :=
  {| ur_user_id := ur_user_id u; ur_total_requests := ur_total_requests u;
     ur_failure_rate := ur_failure_rate u; ur_unique_ips := ur_unique_ips u;
     ur_unique_countries := ur_unique_countries u;
     ur_avg_latency := ur_avg_latency u;
     score_failure := score_failure u; score_anomaly := score_anomaly u;
     score_geo := score_geo u; score_cluster := score_cluster u;
     score_volume := score_volume u; score_ip_rep := score_ip_rep u;
     risk_score := composite u; risk_tier := user_tier (composite u) |}.

(** The base metrics of one user group with components 1 to 3; the other
    components start at their default 0. *)
Definition base_user (df : DataFrame) (ml_results : option MLResults)
    (g : string * list Event) : UserRisk :=
  let failure_rate :=
    if has_col "is_failure" df
    then Qmean (map (fun e => bool_Q (is_failure e)) (snd g)) else 0%Q in
  let unique_countries :=
    if has_col "country" df
    then Z.of_nat (nunique String.eqb (map country (snd g))) else 1 in
  {| ur_user_id := fst g;
     ur_total_requests := Z.of_nat (List.length (snd g));
     ur_failure_rate := failure_rate;
     ur_unique_ips :=
       if has_col "ip_address" df
       then Z.of_nat (nunique String.eqb (map ip_address (snd g))) else 1;
     ur_unique_countries := unique_countries;
     ur_avg_latency :=
       if has_col "latency_ms" df then Qmean (map latency_ms (snd g)) else 0%Q;
     score_failure := Qred (clip 0 100 (failure_rate * 100));
     score_anomaly := anomaly_component df ml_results (fst g);
     score_geo := geo_component unique_countries;
     score_cluster := 0%Q;
     score_volume := 0%Q;
     score_ip_rep := 0%Q;
     risk_score := 0%Q;
     risk_tier := None |}.

(** What the later stages keep of a user row: its key and its anomaly
    component, set once from the ML signal. *)
Definition keeps_anomaly (df : DataFrame) (ml : option MLResults)
    (u : UserRisk) : Prop :=
  score_anomaly u = anomaly_component df ml (ur_user_id u).

(** Component 4: the left merge with the cluster table, one output row per
    matching cluster row, the user's own row when none matches. *)
Definition merge_cluster (ml_results : option MLResults) (users : list UserRisk)
  : list UserRisk :=
  match ml_results with
  | Some ml =>
      match kmeans ml with
      | Some km =>
          match km_results km with
          | [] => users
          | kmr =>
              if km_has_cluster_label km then
                flat_map
                  (fun u =>
                     match filter (fun r => String.eqb (km_user_id r) (ur_user_id u)) kmr with
                     | [] => [u]
                     | matches =>
                         map (fun r => set_cluster u (cluster_score (cluster_label r)))
                             matches
                     end)
                  users
              else users
          end
      | None => users
      end
  | None => users
  end.

(** Component 5. *)
Definition volume_scores (users : list UserRisk) : list UserRisk :=
  let counts := map (fun u => inject_Z (ur_total_requests u)) users in
  let q99 := quantile (99 # 100) counts in
  let q95 := quantile (95 # 100) counts in
  map (fun u =>
         set_volume u
           (if Qltb q99 (inject_Z (ur_total_requests u)) then 70%Q
            else if Qltb q95 (inject_Z (ur_total_requests u)) then 40%Q
            else 0%Q))
      users.

(** Component 6: the reputation of the user's most frequent IP. *)
Definition merge_ip_rep (df : DataFrame)
    (security_results : option Security.SecurityResults)
    (users : list UserRisk) : result (list UserRisk) :=
  match security_results with
  | Some sr =>
      match Security.ip_reputation sr with
      | [] => Ok users
      | ip_rep =>
          if has_col "ip_address" df then
            let user_ips :=
              flat_map
                (fun g =>
                   let primary_ip :=
                     match mode_first String.eqb String.leb (map ip_address (snd g)) with
                     | Some ip => ip
                     | None => "unknown"%string
                     end in
                   match filter (fun r => String.eqb (Security.rep_ip_address r) primary_ip)
                                ip_rep with
                   | [] => [(fst g, None)]
                   | matches =>
                       map (fun r => (fst g, Some (Security.reputation_score r))) matches
                   end)
                (groupby String.eqb String.leb user_id (rows df)) in
            Ok (flat_map
                  (fun u =>
                     match filter (fun p => String.eqb (fst p) (ur_user_id u)) user_ips with
                     | [] => [set_ip_rep u 0%Q]
                     | matches => map (fun p => set_ip_rep u (fillna 0 (snd p))) matches
                     end)
                  users)
          else Raise (KeyError "ip_address")
      end
  | None => Ok users
  end.

Definition by_risk_desc (a b : UserRisk) : bool :=
  Qleb (risk_score b) (risk_score a).

Definition calculate_user_risk_scores (df : DataFrame)
    (security_results : option Security.SecurityResults)
    (ml_results : option MLResults) : result (list UserRisk) :=
  if negb (has_col "user_id" df) then Ok []
  else
    let users :=
      map (base_user df ml_results)
          (groupby String.eqb String.leb user_id (rows df)) in
    let users := merge_cluster ml_results users in
    let users := volume_scores users in
    users <- merge_ip_rep df security_results users ;;
    Ok (sort_rows by_risk_desc (map set_risk users)).

Record IpRisk : Type := mkIpRisk {
  ir_ip_address : string;
  ir_total_requests : Z;
  ir_failure_rate : Q;
  ir_unique_users : Z;
  ir_unique_countries : Z;
  ir_risk_score : Q;
  ir_risk_tier : option Tier
}.

Definition by_ip_risk_desc (a b : IpRisk) : bool :=
  Qleb (ir_risk_score b) (ir_risk_score a).

Definition calculate_ip_risk_scores (df : DataFrame) : list IpRisk :=
  if negb (has_col "ip_address" df) then []
  else
    let groups := groupby String.eqb String.leb ip_address (rows df) in
    let q95 :=
      quantile (95 # 100)
               (map (fun g => inject_Z (Z.of_nat (List.length (snd g)))) groups) in
    sort_rows by_ip_risk_desc
      (map (fun g =>
              let total := Z.of_nat (List.length (snd g)) in
              let failure_rate :=
                if has_col "is_failure" df
                then Qmean (map (fun e => bool_Q (is_failure e)) (snd g)) else 0%Q in
              let unique_users :=
                if has_col "user_id" df
                then Z.of_nat (nunique String.eqb (map user_id (snd g))) else 1 in
              let score :=
                round1 (clip 0 100
                  (clip 0 100 (failure_rate * 100) * (40 # 100)
                   + clip 0 100 (if 5 <? unique_users then 60%Q
                                 else inject_Z (unique_users * 10)) * (30 # 100)
                   + (if Qltb q95 (inject_Z total) then 70%Q else 20%Q) * (30 # 100))) in
              {| ir_ip_address := fst g;
                 ir_total_requests := total;
                 ir_failure_rate := failure_rate;
                 ir_unique_users := unique_users;
                 ir_unique_countries :=
                   if has_col "country" df
                   then Z.of_nat (nunique String.eqb (map country (snd g))) else 1;
                 ir_risk_score := score;
                 ir_risk_tier := cut risk_bins risk_labels score |})
           groups).

Record RiskSummary : Type := mkRiskSummary {
  total_users_scored : Z;
  total_ips_scored : Z;
  critical_users : Z;
  high_risk_users : Z;
  critical_ips : Z
}.

Definition is_tier (t : Tier) (x : option Tier) : bool :=
  match x, t with
  | Some Low, Low | Some Medium, Medium | Some High, High
  | Some Critical, Critical => true
  | _, _ => false
  end.

Definition get_risk_summary (user_risks : list UserRisk) (ip_risks : list IpRisk)
  : RiskSummary :=
  {| total_users_scored := Z.of_nat (List.length user_risks);
     total_ips_scored := Z.of_nat (List.length ip_risks);
     critical_users :=
       Z.of_nat (List.length (filter (fun u => is_tier Critical (risk_tier u)) user_risks));
     high_risk_users :=
       Z.of_nat (List.length (filter (fun u => is_tier High (risk_tier u)) user_risks));
     critical_ips :=
       Z.of_nat (List.length (filter (fun r => is_tier Critical (ir_risk_tier r)) ip_risks)) |}.

End RiskScoring.

(* ================================================================== *)
(** * alerts/alert_engine.py *)

Module AlertEngine.

(** An alert; the templated free text ([description], [details]) and the
    wall-clock [timestamp] are left out of the record. *)
Record Alert : Type := mkAlert {
  id : string;
  title : string;
  severity : string;
  category : string;
  source : string
}.

Record SlaBreach : Type := mkSlaBreach {
  sla_service : string;
  sla_severity : string
}.

Record Bottleneck : Type := mkBottleneck {
  bn_service : string;
  bn_severity : string
}.

Record PerformanceResults : Type := mkPerformanceResults {
  sla_breaches : list SlaBreach;
  bottlenecks : list Bottleneck
}.

Fixpoint zeros (n : nat) : string :=
  match n with
  | O => EmptyString
  | S m => String "0" (zeros m)
  end.

(** The format [{n:04d}] of a natural number: decimal digits, padded with
    zeros on the left to four characters. *)
Definition fmt04d (n : nat) : string :=
  let digits := NilEmpty.string_of_uint (Nat.to_uint n) in
  (zeros (4 - String.length digits) ++ digits)%string.

(** [alerts.append(a)] where [a] is built from the current [alerts]. *)
Definition append (mk : list Alert -> Alert) (alerts : list Alert) : list Alert :=
  alerts ++ [mk alerts].

Definition next_number (alerts : list Alert) : nat := List.length alerts + 1.

Definition security_alerts (security_results : option Security.SecurityResults)
    (alerts : list Alert) : list Alert :=
  match security_results with
  | None => alerts
  | Some sr =>
      let alerts :=
        fold_left
          (fun alerts row =>
             append (fun alerts =>
               {| id := "SEC-BF-" ++ fmt04d (next_number alerts);
                  title := "Brute Force Attack Detected";
                  severity := Security.bf_severity row;
                  category := "Security";
                  source := "security_engine" |}) alerts)
          (Security.brute_force sr) alerts in
      let alerts :=
        fold_left
          (fun alerts (row : Security.CredentialStuffingDetection) =>
             append (fun alerts =>
               {| id := "SEC-CS-" ++ fmt04d (next_number alerts);
                  title := "Credential Stuffing Pattern";
                  severity := "CRITICAL";
                  category := "Security";
                  source := "security_engine" |}) alerts)
          (Security.credential_stuffing sr) alerts in
      if 0 <? Security.high_risk_ips sr then
        append (fun alerts =>
          {| id := "SEC-IP-" ++ fmt04d (next_number alerts);
             title := "High-Risk IPs Detected";
             severity := "WARNING";
             category := "Security";
             source := "ip_reputation" |}) alerts
      else alerts
  end.

Definition performance_alerts (performance_results : option PerformanceResults)
    (alerts : list Alert) : list Alert :=
  match performance_results with
  | None => alerts
  | Some pr =>
      let alerts :=
        fold_left
          (fun alerts row =>
             append (fun alerts =>
               {| id := "PERF-SLA-" ++ fmt04d (next_number alerts);
                  title := "SLA Breach: " ++ sla_service row;
                  severity := sla_severity row;
                  category := "Performance";
                  source := "sla_monitor" |}) alerts)
          (sla_breaches pr) alerts in
      fold_left
        (fun alerts bn =>
           append (fun alerts =>
             {| id := "PERF-BN-" ++ fmt04d (next_number alerts);
                title := "Bottleneck: " ++ bn_service bn;
                severity := bn_severity bn;
                category := "Performance";
                source := "bottleneck_detector" |}) alerts)
        (bottlenecks pr) alerts
  end.

Definition anomaly_alerts (anomaly_results : option Anomaly.AnomalyResults)
    (alerts : list Alert) : list Alert :=
  match anomaly_results with
  | None => alerts
  | Some ar =>
      let latency_spikes := Anomaly.total_latency_spikes ar in
      let alerts :=
        if 0 <? latency_spikes then
          append (fun alerts =>
            {| id := "ANOM-LAT-" ++ fmt04d (next_number alerts);
               title := "Latency Anomalies Detected";
               severity := if latency_spikes <? 5 then "WARNING" else "CRITICAL";
               category := "Anomaly";
               source := "anomaly_engine" |}) alerts
        else alerts in
      let error_spikes := Anomaly.total_error_spikes ar in
      if 0 <? error_spikes then
        append (fun alerts =>
          {| id := "ANOM-ERR-" ++ fmt04d (next_number alerts);
             title := "Error Rate Anomalies";
             severity := if 3 <? error_spikes then "CRITICAL" else "WARNING";
             category := "Anomaly";
             source := "anomaly_engine" |}) alerts
      else alerts
  end.

Definition risk_alerts (risk_results : option RiskScoring.RiskSummary)
    (alerts : list Alert) : list Alert :=
  match risk_results with
  | None => alerts
  | Some rr =>
      if 0 <? RiskScoring.critical_users rr then
        append (fun alerts =>
          {| id := "RISK-USR-" ++ fmt04d (next_number alerts);
             title := "Critical-Risk Users Identified";
             severity := "CRITICAL";
             category := "Risk";
             source := "risk_scoring" |}) alerts
      else alerts
  end.

Definition severity_order (s : string) : nat :=
  if String.eqb s "CRITICAL" then 0
  else if String.eqb s "WARNING" then 1
  else if String.eqb s "INFO" then 2
  else 3.

Definition by_severity (a b : Alert) : bool :=
  (severity_order (severity a) <=? severity_order (severity b))%nat.

(** The alerts in the order they are appended, before the final sort. *)
Definition emitted_alerts
    (security_results : option Security.SecurityResults)
    (performance_results : option PerformanceResults)
    (anomaly_results : option Anomaly.AnomalyResults)
    (risk_results : option RiskScoring.RiskSummary) : list Alert :=
  let alerts := [] in
  let alerts := security_alerts security_results alerts in
  let alerts := performance_alerts performance_results alerts in
  let alerts := anomaly_alerts anomaly_results alerts in
  risk_alerts risk_results alerts.

Definition generate_alerts
    (security_results : option Security.SecurityResults)
    (performance_results : option PerformanceResults)
    (anomaly_results : option Anomaly.AnomalyResults)
    (risk_results : option RiskScoring.RiskSummary) : list Alert :=
  sort_rows by_severity
    (emitted_alerts security_results performance_results anomaly_results
                    risk_results).

(** The detection-source prefixes of the ids. *)
Definition source_prefixes : list string :=
  ["SEC-BF"; "SEC-CS"; "SEC-IP"; "PERF-SLA"; "PERF-BN"; "ANOM-LAT";
   "ANOM-ERR"; "RISK-USR"]%string.

(** The alert at 0-based position [k] of the emission order carries the
    number [k + 1] behind one of the source prefixes. *)
Definition numbered_in_emission_order (alerts : list Alert) : Prop :=
  forall k a,
    nth_error alerts k = Some a ->
    exists prefix,
      In prefix source_prefixes
      /\ id a = (prefix ++ "-" ++ fmt04d (S k))%string.

(** Reading an alert id back: the text after its last dash, and the
    number it spells. *)
Fixpoint has_dash (s : string) : bool :=
  match s with
  | EmptyString => false
  | String c r => Ascii.eqb c "-" || has_dash r
  end.

Fixpoint id_suffix (s : string) : string :=
  match s with
  | EmptyString => EmptyString
  | String c r =>
      if has_dash r then id_suffix r
      else if Ascii.eqb c "-" then r else s
  end.

(** The source prefix of an id: the text before its last dash. *)
Fixpoint id_prefix (s : string) : string :=
  match s with
  | EmptyString => EmptyString
  | String c r => if has_dash r then String c (id_prefix r) else EmptyString
  end.

Definition id_number (s : string) : option nat :=
  option_map Nat.of_uint (NilEmpty.uint_of_string (id_suffix s)).

(** The numbers carried by the alerts of one source prefix, in list
    order. *)
Definition numbers_of_prefix (prefix : string) (alerts : list Alert)
  : list (option nat) :=
  map (fun a => id_number (id a))
      (filter (fun a => String.eqb (id_prefix (id a)) prefix) alerts).

End AlertEngine.

(* ================================================================== *)
(** * The detectors and the columns they test for *)

Module Detectors.

Inductive Detector : Type :=
| BruteForce
| CredentialStuffing
| IpReputationScorer
| GeoAnomalyDetector
| SpikeDetection (metric_col time_col : string)
| ErrorRateSpikes (time_col : string).

(** The columns each detector tests for in its opening guard
    ([if "..." not in df.columns ...: return pd.DataFrame()]). *)
Definition guarded_columns (d : Detector) : list string :=
  match d with
  | BruteForce => ["timestamp"; "ip_address"]
  | CredentialStuffing => ["timestamp"; "ip_address"; "user_id"]
  | IpReputationScorer => ["ip_address"]
  | GeoAnomalyDetector => ["user_id"; "country"]
  | SpikeDetection metric_col time_col => [metric_col; time_col]
  | ErrorRateSpikes time_col => ["is_failure"; time_col]
  end%string.

(** The columns each detector reads on every table that gets past its
    guard: those of the guard and, for the three detectors that index it
    directly ([df["is_failure"] == True] in the brute-force and the
    credential-stuffing detector, [("is_failure", "sum")] in the
    reputation scorer), the derived column [is_failure].  The columns
    read behind an [if "..." in df.columns] of their own ([endpoint],
    [country], [user_id] where it is optional) are not required. *)
Definition required_columns (d : Detector) : list string :=
  match d with
  | BruteForce | CredentialStuffing | IpReputationScorer =>
      guarded_columns d ++ ["is_failure"%string]
  | GeoAnomalyDetector | SpikeDetection _ _ | ErrorRateSpikes _ =>
      guarded_columns d
  end.

(** The table has every column of the detector's opening guard. *)
Definition passes_guard (d : Detector) (df : DataFrame) : bool :=
  forallb (fun c => has_col c df) (guarded_columns d).

(** The detector returns normally, with no rows. *)
Definition returns_empty (cfg : SecurityConfig) (ml : MLConfig)
    (d : Detector) (df : DataFrame) : Prop :=
  match d with
  | BruteForce => Security.detect_brute_force cfg df = Ok []
  | CredentialStuffing => Security.detect_credential_stuffing cfg df = Ok []
  | IpReputationScorer => Security.calculate_ip_reputation df = Ok []
  | GeoAnomalyDetector => Security.detect_geo_anomalies df = Ok []
  | SpikeDetection metric_col time_col =>
      forall threshold,
        Anomaly.detect_spikes ml df metric_col time_col threshold = []
  | ErrorRateSpikes time_col =>
      Anomaly.detect_error_rate_spikes ml df time_col = []
  end.

(** The detector does not return: it fails with a [KeyError] on the
    column [col].  The two anomaly detectors never index a column they
    have not tested for. *)
Definition raises_key_error (cfg : SecurityConfig) (ml : MLConfig)
    (d : Detector) (df : DataFrame) (col : string) : Prop :=
  match d with
  | BruteForce => Security.detect_brute_force cfg df = Raise (KeyError col)
  | CredentialStuffing =>
      Security.detect_credential_stuffing cfg df = Raise (KeyError col)
  | IpReputationScorer =>
      Security.calculate_ip_reputation df = Raise (KeyError col)
  | GeoAnomalyDetector => Security.detect_geo_anomalies df = Raise (KeyError col)
  | SpikeDetection _ _ | ErrorRateSpikes _ => False
  end.

End Detectors.

(* ================================================================== *)
(** * Sample tables *)

Module Samples.

Definition all_columns : list string :=
  ["timestamp"; "user_id"; "ip_address"; "status"; "method"; "endpoint";
   "service"; "latency_ms"; "country"; "user_agent"; "session_id";
   "bytes_sent"; "status_category"; "is_failure"; "hour"; "day_of_week";
   "date"; "hour_bucket"]%string.

Definition hour : Z := 60 * minute.

(** A request to [/login]. *)
Definition login (t : Z) (user ip ctry session : string) (failed : bool)
  : Event :=
  {| timestamp := t; user_id := user; ip_address := ip;
     endpoint := "/login"; service := "auth"; country := ctry;
     session_id := session; is_failure := failed;
     hour_bucket := (t / hour) * hour; latency_ms := 100 |}.

(** Five failed logins of one IP at the start of a ten-minute bucket and a
    sixth, for another user, exactly ten minutes after the bucket start. *)
Definition boundary_table : DataFrame :=
  {| columns := all_columns;
     rows := [ login 0 "u1" "1.2.3.4" "US" "s1" true;
               login 1 "u1" "1.2.3.4" "US" "s1" true;
               login 2 "u1" "1.2.3.4" "US" "s1" true;
               login 3 "u1" "1.2.3.4" "US" "s1" true;
               login 4 "u1" "1.2.3.4" "US" "s1" true;
               login (10 * minute) "u2" "1.2.3.4" "US" "s2" true ] |}.





(** One IP failing against four users within a minute. *)
Definition stuffing_table : DataFrame :=
  {| columns := all_columns;
     rows := [ login 0 "u1" "9.9.9.9" "US" "s1" true;
               login (10 * 1000000000) "u2" "9.9.9.9" "US" "s2" true;
               login (20 * 1000000000) "u3" "9.9.9.9" "US" "s3" true;
               login (30 * 1000000000) "u4" "9.9.9.9" "US" "s4" true ] |}.

(** The same table without its [timestamp] column. *)
Definition no_timestamp_table : DataFrame :=
  {| columns := ["user_id"; "ip_address"; "country"; "is_failure"]%string;
     rows := rows stuffing_table |}.

(** The same table without its derived [is_failure] column. *)
Definition no_is_failure_table : DataFrame :=
  {| columns := ["timestamp"; "user_id"; "ip_address"; "country"]%string;
     rows := rows stuffing_table |}.

(** Two users; only alice's session was scored by the isolation forest. *)
Definition fusion_table : DataFrame :=
  {| columns := all_columns;
     rows := [ login 0 "alice" "1.2.3.4" "US" "s1" true;
               login 1 "alice" "1.2.3.4" "FR" "s1" true;
               login 2 "alice" "1.2.3.4" "DE" "s1" true;
               login 3 "bob" "5.6.7.8" "US" "s2" false ] |}.

Definition fusion_ml : RiskScoring.MLResults :=
  {| RiskScoring.isolation_forest :=
       Some {| RiskScoring.if_has_anomaly_score := true;
               RiskScoring.if_results :=
                 [ {| RiskScoring.if_session_id := "s1";
                      RiskScoring.anomaly_score := - (44 # 100) |} ] |};
     RiskScoring.kmeans :=
       Some {| RiskScoring.km_has_cluster_label := true;
               RiskScoring.km_results :=
                 [ {| RiskScoring.km_user_id := "alice";
                      RiskScoring.cluster_label := "Suspicious Actors" |} ] |} |}.

(** Nine hourly buckets of one request each: eight failures, then a
    success. *)
Definition error_rate_table : DataFrame :=
  {| columns := all_columns;
     rows := [ login (0 * hour) "u" "1.1.1.1" "US" "s" true;
               login (1 * hour) "u" "1.1.1.1" "US" "s" true;
               login (2 * hour) "u" "1.1.1.1" "US" "s" true;
               login (3 * hour) "u" "1.1.1.1" "US" "s" true;
               login (4 * hour) "u" "1.1.1.1" "US" "s" true;
               login (5 * hour) "u" "1.1.1.1" "US" "s" true;
               login (6 * hour) "u" "1.1.1.1" "US" "s" true;
               login (7 * hour) "u" "1.1.1.1" "US" "s" true;
               login (8 * hour) "u" "1.1.1.1" "US" "s" false ] |}.

(** The error-rate series of that table, in percent. *)
Definition error_rate_series : list R :=
  [100; 100; 100; 100; 100; 100; 100; 100; 0]%R.

(** A security bundle with one brute-force and one credential-stuffing
    detection. *)
Definition two_detections : Security.SecurityResults :=
  {| Security.brute_force :=
       [ {| Security.bf_detection_type := "brute_force";
            Security.bf_ip_address := "1.2.3.4";
            Security.bf_timestamp := 0;
            Security.attempt_count := 5;
            Security.targeted_users := ["u1"%string];
            Security.bf_mitre_technique := "T1110";
            Security.bf_mitre_name := "Brute Force";
            Security.bf_severity := "WARNING";
            Security.bf_country := "US" |} ];
     Security.credential_stuffing :=
       [ {| Security.cs_detection_type := "credential_stuffing";
            Security.cs_ip_address := "9.9.9.9";
            Security.cs_timestamp := 0;
            Security.unique_users_targeted := 4;
            Security.total_attempts := 4;
            Security.cs_mitre_technique := "T1110.004";
            Security.cs_mitre_name := "Credential Stuffing";
            Security.cs_severity := "CRITICAL";
            Security.cs_country := "US" |} ];
     Security.ip_reputation := [];
     Security.geo_anomalies := [];
     Security.mitre_mapping := [];
     Security.risk_index := 15;
     Security.total_threats := 2;
     Security.high_risk_ips := 0;
     Security.failure_rate := 100 |}.

End Samples.

(* ================================================================== *)
(** * utils/helpers.py: status classification *)

Module Helpers.

(** A raw status value as [classify_status] sees it: either [int(...)]
    succeeds and gives the code, or it raises and the value is read as
    text through [str(...)]. *)
Inductive StatusCode : Type :=
| Numeric (code : Z)
| Text (s : string).

Definition success_words : list string :=
  ["success"; "ok"; "200"; "201"; "204"]%string.
Definition failure_words : list string :=
  ["fail"; "failed"; "error"; "denied"; "403"; "401"; "500"]%string.

Definition classify_status (status_code : StatusCode) : string :=
  match status_code with
  | Text t =>
      let s := lower t in
      if Security.isin s success_words then "success"
      else if Security.isin s failure_words then "failure"
      else "other"
  | Numeric code =>
      if (200 <=? code) && (code <? 300) then "success"
      else if (400 <=? code) && (code <? 500) then "client_error"
      else if (500 <=? code) && (code <? 600) then "server_error"
      else if (300 <=? code) && (code <? 400) then "redirect"
      else "other"
  end.

Definition is_failure (status_code : StatusCode) : bool :=
  Security.isin (classify_status status_code)
                ["failure"; "client_error"; "server_error"]%string.

(** [safe_divide(numerator, denominator, default)]. *)
Definition safe_divide (numerator denominator default : Q) : Q :=
  if Qeqb denominator 0 then default else (numerator / denominator)%Q.

End Helpers.

(* ================================================================== *)
(** * analytics/performance.py *)

Module Performance.

Record SlaThresholds : Type := mkSlaThresholds {
  latency_p95_ms : Q;
  latency_p99_ms : Q;
  error_rate_pct : Q;
  availability_pct : Q
}.

Definition SLA_THRESHOLDS : SlaThresholds :=
  {| latency_p95_ms := 500;
     latency_p99_ms := 1000;
     error_rate_pct := 5;
     availability_pct := 995 # 10 |}.

(** [np.percentile(x, p)], linear interpolation. *)
Definition percentile (xs : list Q) (p : Q) : Q := quantile (p / 100) xs.

(** The entries of [service_breaches]; the message text of each is left
    out. *)
Inductive Breach : Type :=
| LatencyP95
| LatencyP99
| ErrorRate
| Availability.

Record SlaBreachRow : Type := mkSlaBreachRow {
  sb_service : string;
  sb_breaches : list Breach;
  breach_count : Z;
  p95_latency : Q;
  p99_latency : Q;
  sb_error_rate_pct : Q;
  sb_availability_pct : Q;
  sb_severity : string
}.

Record ServiceMetrics : Type := mkServiceMetrics {
  sm_service : string;
  sm_total_requests : Z;
  sm_error_count : Z;
  sm_p95_latency : Q;
  sm_p99_latency : Q;
  sm_error_rate_pct : Q;
  sm_availability_pct : Q
}.

(** One row of [service_metrics]. *)
Definition service_metrics_row (df : DataFrame) (g : string * list Event)
  : ServiceMetrics :=
  let total_requests := Security.len (snd g) in
  let error_count :=
    if has_col "is_failure" df
    then Security.len (filter is_failure (snd g)) else 0 in
  let error_rate :=
    round2 (inject_Z error_count / inject_Z total_requests * 100)%Q in
  {| sm_service := fst g;
     sm_total_requests := total_requests;
     sm_error_count := error_count;
     sm_p95_latency :=
       if has_col "latency_ms" df
       then percentile (map latency_ms (snd g)) 95 else 0%Q;
     sm_p99_latency :=
       if has_col "latency_ms" df
       then percentile (map latency_ms (snd g)) 99 else 0%Q;
     sm_error_rate_pct := error_rate;
     sm_availability_pct := round2 (100 - error_rate)%Q |}.

(** The four threshold tests on a row, in source order. *)
Definition service_breaches (sla : SlaThresholds) (row : ServiceMetrics)
  : list Breach :=
  (if Qltb (latency_p95_ms sla) (sm_p95_latency row) then [LatencyP95] else [])
  ++ (if Qltb (latency_p99_ms sla) (sm_p99_latency row) then [LatencyP99] else [])
  ++ (if Qltb (error_rate_pct sla) (sm_error_rate_pct row) then [ErrorRate] else [])
  ++ (if Qltb (sm_availability_pct row) (availability_pct sla)
      then [Availability] else []).

Definition detect_sla_breaches (sla : SlaThresholds) (df : DataFrame)
  : list SlaBreachRow :=
  if negb (has_col "service" df) then []
  else
    flat_map
      (fun g =>
         let row := service_metrics_row df g in
         match service_breaches sla row with
         | [] => []
         | found =>
             [ {| sb_service := sm_service row;
                  sb_breaches := found;
                  breach_count := Security.len found;
                  p95_latency := sm_p95_latency row;
                  p99_latency := sm_p99_latency row;
                  sb_error_rate_pct := sm_error_rate_pct row;
                  sb_availability_pct := sm_availability_pct row;
                  sb_severity :=
                    if 2 <=? Security.len found then "CRITICAL" else "WARNING" |} ]
         end)
      (groupby String.eqb String.leb service (rows df)).

Record ServiceHealth : Type := mkServiceHealth {
  sh_service : string;
  sh_total_requests : Z;
  sh_error_count : Z;
  sh_avg_latency : Q;
  sh_error_rate : Q;
  score_errors : Q;
  score_latency : Q;
  health_score : Q;
  rag_status : string
}.

(** [get_rag(score)] with the thresholds 0.85 and 0.60 of [RAG_STATUS]. *)
Definition get_rag (score : Q) : string :=
  if Qleb ((85 # 100) * 100) score then "GREEN"
  else if Qleb ((60 # 100) * 100) score then "AMBER"
  else "RED".

Definition by_health (a b : ServiceHealth) : bool :=
  Qleb (health_score a) (health_score b).

Definition service_health_row (df : DataFrame) (g : string * list Event)
  : ServiceHealth :=
  let total_requests := Security.len (snd g) in
  let error_count :=
    if has_col "is_failure" df
    then Security.len (filter is_failure (snd g)) else 0 in
  let avg_latency :=
    if has_col "latency_ms" df
    then RiskScoring.Qmean (map latency_ms (snd g)) else 0%Q in
  let error_rate := (inject_Z error_count / inject_Z total_requests)%Q in
  let s_errors := round1 ((1 - clip 0 (1 # 10) error_rate / (1 # 10)) * 100)%Q in
  let s_latency :=
    round1 (clip 0 1 (1 - (clip 0 2000 avg_latency - 200) / 1800) * 100)%Q in
  let score := round1 (s_errors * (6 # 10) + s_latency * (4 # 10))%Q in
  {| sh_service := fst g;
     sh_total_requests := total_requests;
     sh_error_count := error_count;
     sh_avg_latency := avg_latency;
     sh_error_rate := Qred error_rate;
     score_errors := s_errors;
     score_latency := s_latency;
     health_score := score;
     rag_status := get_rag score |}.

Definition calculate_service_health (df : DataFrame) : list ServiceHealth :=
  if negb (has_col "service" df) then []
  else
    sort_rows by_health
      (map (service_health_row df)
           (groupby String.eqb String.leb service (rows df))).

End Performance.

(* ================================================================== *)
(** * alerts/alert_engine.py: the summary *)

Module AlertSummary.

Record Summary : Type := mkSummary {
  total : nat;
  critical : nat;
  warning : nat;
  info : nat;
  by_category : list (string * nat)
}.

Definition with_severity (s : string) (alerts : list AlertEngine.Alert)
  : list AlertEngine.Alert :=
  filter (fun a => String.eqb (AlertEngine.severity a) s) alerts.

(** [df["category"].value_counts().to_dict()]: each category that occurs
    with its number of alerts.  The order of the keys carries no meaning
    in the dictionary; here it is the order of first appearance. *)
Definition value_counts (l : list string) : list (string * nat) :=
  map (fun k => (k, count_of String.eqb k l)) (unique String.eqb l).

Definition get_alert_summary (alerts : list AlertEngine.Alert) : Summary :=
  match alerts with
  | [] => {| total := 0; critical := 0; warning := 0; info := 0;
             by_category := [] |}
  | _ =>
      {| total := List.length alerts;
         critical := List.length (with_severity "CRITICAL" alerts);
         warning := List.length (with_severity "WARNING" alerts);
         info := List.length (with_severity "INFO" alerts);
         by_category := value_counts (map AlertEngine.category alerts) |}
  end.

End AlertSummary.

(* ================================================================== *)
(** * Readings of the brute-force detector *)

Module BruteForceWindows.

(** The input filter of [detect_brute_force]: a failure, on a login
    endpoint when the table has endpoints. *)
Definition auth_failure (df : DataFrame) (e : Event) : bool :=
  if has_col "endpoint" df
  then is_failure e
       && Security.isin (lower (endpoint e)) Security.login_endpoints
  else is_failure e.

(** The filtered failures of one IP inside the half-open window
    [start, start + w). *)
Definition window_failures (df : DataFrame) (ip : string) (start w : Z)
  : list Event :=
  filter (fun e => (start <=? timestamp e) && (timestamp e <? start + w))
         (filter (fun e => String.eqb (ip_address e) ip)
                 (filter (auth_failure df) (rows df))).

End BruteForceWindows.

(* ================================================================== *)
(** * Readings of the credential-stuffing detector *)

Module StuffingWindows.

(** The failures of one IP whose timestamp lies in the closed window
    [start, start + w], in table order. *)
Definition closed_window_failures (df : DataFrame) (ip : string)
    (start w : Z) : list Event :=
  filter (fun e => (start <=? timestamp e) && (timestamp e <=? start + w))
         (filter (fun e => String.eqb (ip_address e) ip)
                 (filter is_failure (rows df))).

(** The number of distinct user ids among them. *)
Definition distinct_window_users (df : DataFrame) (ip : string)
    (start w : Z) : Z :=
  Z.of_nat (List.length
              (nodup string_dec
                     (map user_id (closed_window_failures df ip start w)))).

End StuffingWindows.

(* ================================================================== *)
(** * Facts about the column operations *)

Section ColumnFacts.
Context {K : Type}.
Variable eqb : K -> K -> bool.
Variable leb : K -> K -> bool.
Hypothesis eqb_eq : forall x y, eqb x y = true <-> x = y.

Lemma unique_in (x : K) (l : list K) : In x (unique eqb l) <-> In x l.
Proof.
  clear leb.
  induction l as [|y r IH]; simpl; [tauto|].
  rewrite filter_In, IH. split.
  - intros [H | [H _]]; auto.
  - intros [H | H]; auto.
    destruct (eqb y x) eqn:E.
    + left. now apply eqb_eq.
    + right. split; auto.
Qed.

Lemma unique_nodup (l : list K) : NoDup (unique eqb l).
Proof.
  induction l as [|y r IH]; simpl; constructor.
  - rewrite filter_In. intros [_ H].
    assert (E : eqb y y = true) by now apply eqb_eq.
    rewrite E in H. discriminate.
  - now apply NoDup_filter.
Qed.

Lemma insert_sorted_perm (x : K) (l : list K) :
  Permutation (insert_sorted leb x l) (x :: l).
Proof.
  induction l as [|y r IH]; simpl; auto.
  destruct (leb x y); auto.
  rewrite IH. apply perm_swap.
Qed.

Lemma sort_perm (l : list K) : Permutation (sort leb l) l.
Proof.
  induction l as [|y r IH]; simpl; auto.
  rewrite insert_sorted_perm. now constructor.
Qed.

Lemma groupby_keys {A : Type} (key : A -> K) (rows : list A) :
  map fst (groupby eqb leb key rows) = sort leb (unique eqb (map key rows)).
Proof.
  unfold groupby. rewrite map_map. simpl. apply map_id.
Qed.

Lemma groupby_keys_nodup {A : Type} (key : A -> K) (rows : list A) :
  NoDup (map fst (groupby eqb leb key rows)).
Proof.
  rewrite groupby_keys.
  apply (Permutation_NoDup (Permutation_sym (sort_perm _))).
  apply unique_nodup.
Qed.

Lemma groupby_group {A : Type} (key : A -> K) (rows : list A)
      (g : K * list A) :
  In g (groupby eqb leb key rows) ->
  snd g = filter (fun r => eqb (key r) (fst g)) rows
  /\ In (fst g) (map key rows).
Proof.
  unfold groupby. rewrite in_map_iff. intros [k [<- Hk]]. simpl. split; auto.
  apply unique_in. eapply Permutation_in; [apply sort_perm | exact Hk].
Qed.

Lemma groupby_nil {A : Type} (key : A -> K) :
  groupby eqb leb key (@nil A) = [].
Proof. reflexivity. Qed.
End ColumnFacts.

Lemma insert_row_perm {A : Type} (before : A -> A -> bool) (x : A) (l : list A) :
  Permutation (insert_row before x l) (x :: l).
Proof.
  induction l as [|y r IH]; simpl; auto.
  destruct (before x y); auto.
  rewrite IH. apply perm_swap.
Qed.

Lemma sort_rows_perm {A : Type} (before : A -> A -> bool) (l : list A) :
  Permutation (sort_rows before l) l.
Proof.
  induction l as [|y r IH]; simpl; auto.
  rewrite insert_row_perm. now constructor.
Qed.

Lemma sort_rows_in {A : Type} (before : A -> A -> bool) (l : list A) (x : A) :
  In x (sort_rows before l) <-> In x l.
Proof.
  split; apply Permutation_in;
    [apply sort_rows_perm | apply Permutation_sym, sort_rows_perm].
Qed.

Lemma string_eqb_eq (x y : string) : String.eqb x y = true <-> x = y.
Proof. apply String.eqb_eq. Qed.

(** A loop over groups with distinct keys that emits at most one record
    per group, tagged with the group's key, emits distinct tags. *)
Lemma flat_map_nodup_tags {G R T : Type} (f : G -> list R) (key : G -> T)
      (tag : R -> T) (groups : list G) :
  NoDup (map key groups) ->
  (forall g, In g groups -> (List.length (f g) <= 1)%nat) ->
  (forall g r, In g groups -> In r (f g) -> tag r = key g) ->
  NoDup (map tag (flat_map f groups)).
Proof.
  induction groups as [|g gs IH]; simpl; intros Hnd Hlen Htag; [constructor|].
  inversion Hnd as [|? ? Hnotin Hnd']; subst.
  rewrite map_app.
  assert (Hrest : NoDup (map tag (flat_map f gs))).
  { apply IH; eauto. }
  assert (Hg := Hlen g (or_introl eq_refl)).
  destruct (f g) as [|r [|r' rs]] eqn:Eg; simpl in *; [assumption| |lia].
  constructor; auto.
  intros Hin. apply in_map_iff in Hin. destruct Hin as [r2 [Er2 Hr2]].
  apply in_flat_map in Hr2. destruct Hr2 as [g2 [Hg2 Hr2]].
  apply Hnotin. apply in_map_iff. exists g2. split; auto.
  rewrite <- (Htag g2 r2) by auto.
  rewrite Er2. apply Htag; auto. rewrite Eg. now left.
Qed.

(* ================================================================== *)
(** * The security detectors *)

Section SecurityTheorems.
Import Security.

Lemma col_is_failure_present (df : DataFrame) :
  has_col "is_failure" df = true -> col_is_failure df = Ok is_failure.
Proof. unfold col_is_failure. now intros ->. Qed.

Lemma detect_brute_force_returns (cfg : SecurityConfig) (df : DataFrame) :
  has_col "is_failure" df = true ->
  exists ds, detect_brute_force cfg df = Ok ds.
Proof.
  intros H. unfold detect_brute_force.
  destruct (negb (has_col "timestamp" df) || negb (has_col "ip_address" df));
    [now eexists|].
  rewrite (col_is_failure_present df H). cbn [bind].
  destruct (filter _ (rows df)); now eexists.
Qed.

Lemma detect_credential_stuffing_returns (cfg : SecurityConfig) (df : DataFrame) :
  has_col "is_failure" df = true ->
  exists ds, detect_credential_stuffing cfg df = Ok ds.
Proof.
  intros H. unfold detect_credential_stuffing.
  destruct (negb (has_col "timestamp" df) || negb (has_col "ip_address" df)
            || negb (has_col "user_id" df)); [now eexists|].
  rewrite (col_is_failure_present df H). cbn [bind].
  destruct (filter _ (rows df)); now eexists.
Qed.

Lemma calculate_ip_reputation_returns (df : DataFrame) :
  has_col "is_failure" df = true ->
  exists rs, calculate_ip_reputation df = Ok rs.
Proof.
  intros H. unfold calculate_ip_reputation.
  destruct (negb (has_col "ip_address" df)); [now eexists|].
  rewrite (col_is_failure_present df H). cbn [bind]. now eexists.
Qed.

Lemma detect_geo_anomalies_returns (df : DataFrame) :
  exists gs, detect_geo_anomalies df = Ok gs.
Proof.
  unfold detect_geo_anomalies.
  destruct (negb (has_col "user_id" df) || negb (has_col "country" df));
    now eexists.
Qed.

Lemma len_nonneg {A : Type} (l : list A) : 0 <= len l.
Proof. unfold len. lia. Qed.

(** The statement sequence of the risk index is the closed formula. *)
Lemma security_risk_index_formula (cfg : SecurityConfig)
      (bf : list BruteForceDetection) (cs : list CredentialStuffingDetection)
      (geo : list GeoAnomaly) (rep : list IpReputation) :
  security_risk_index cfg bf cs geo rep
  = Z.min 100 (Z.min (5 * len bf) 30 + Z.min (10 * len cs) 30
               + Z.min (3 * len geo) 20
               + Z.min (2 * len (filter (is_high_risk cfg) rep)) 20).
Proof.
  unfold security_risk_index.
  destruct rep as [|r rep'].
  - simpl filter. change (len (@nil IpReputation)) with 0. lia.
  - lia.
Qed.

(** C5.  On a table that carries [is_failure], the security bundle is
    produced and its risk index is
    min(100, min(5B,30) + min(10C,30) + min(3G,20) + min(2H,20)), with B,
    C, G the numbers of brute-force, credential-stuffing and geo-anomaly
    records of the bundle and H the number of IPs of its reputation
    table whose score is at least [high_risk_score]; the index lies in
    [0,100]. *)
Theorem risk_index_is_capped_weighted_count
        (cfg : SecurityConfig) (df : DataFrame) :
  has_col "is_failure" df = true ->
  exists r,
    run_security_analysis cfg df = Ok r
    /\ detect_brute_force cfg df = Ok (brute_force r)
    /\ detect_credential_stuffing cfg df = Ok (credential_stuffing r)
    /\ detect_geo_anomalies df = Ok (geo_anomalies r)
    /\ calculate_ip_reputation df = Ok (ip_reputation r)
    /\ risk_index r
       = Z.min 100
           (Z.min (5 * len (brute_force r)) 30
            + Z.min (10 * len (credential_stuffing r)) 30
            + Z.min (3 * len (geo_anomalies r)) 20
            + Z.min (2 * len (filter (is_high_risk cfg) (ip_reputation r))) 20)
    /\ 0 <= risk_index r <= 100.
Proof.
  intros H.
  destruct (detect_brute_force_returns cfg df H) as [bf Hbf].
  destruct (detect_credential_stuffing_returns cfg df H) as [cs Hcs].
  destruct (calculate_ip_reputation_returns df H) as [rep Hrep].
  destruct (detect_geo_anomalies_returns df) as [geo Hgeo].
  unfold run_security_analysis. rewrite Hbf, Hcs, Hrep, Hgeo.
  cbn [bind].
  eexists. split; [reflexivity|].
  cbn [brute_force credential_stuffing geo_anomalies ip_reputation risk_index].
  repeat (split; [reflexivity|]).
  rewrite security_risk_index_formula.
  pose proof (len_nonneg bf). pose proof (len_nonneg cs).
  pose proof (len_nonneg geo).
  pose proof (len_nonneg (filter (is_high_risk cfg) rep)).
  repeat split; lia.
Qed.

(** ** Credential stuffing *)

Lemma range_step_bound (n step i : nat) :
  (1 <= step)%nat -> In i (range_step n step) -> (i < n)%nat.
Proof.
  intros Hs Hi. unfold range_step in Hi.
  apply in_map_iff in Hi. destruct Hi as [k [<- Hk]].
  apply in_seq in Hk.
  pose proof (Nat.Div0.mul_div_le (n + step - 1) step) as Hq.
  nia.
Qed.

Lemma start_points_bound (n i : nat) : In i (start_points n) -> (i < n)%nat.
Proof. apply range_step_bound. lia. Qed.

Lemma scan_length (cfg : SecurityConfig) (df : DataFrame) (ip : string)
      (group : list Event) (starts : list nat) :
  (List.length (credential_stuffing_scan cfg df ip group starts) <= 1)%nat.
Proof.
  induction starts as [|i later IH]; simpl; [lia|].
  destruct (nth_error group i); simpl; [|lia].
  destruct (credential_stuffing_threshold cfg <=? _); simpl; lia.
Qed.

(** What the loop emits is the record of the first start point that
    meets the threshold; every start point before it was evaluated and
    fell short. *)
Lemma scan_first_hit (cfg : SecurityConfig) (df : DataFrame) (ip : string)
      (group : list Event) (starts : list nat) (d : CredentialStuffingDetection) :
  In d (credential_stuffing_scan cfg df ip group starts) ->
  exists pre i post row,
    starts = pre ++ i :: post
    /\ nth_error group i = Some row
    /\ d = stuffing_record cfg df ip group (timestamp row)
    /\ credential_stuffing_threshold cfg <= window_users cfg group (timestamp row)
    /\ forall j, In j pre ->
         exists rj, nth_error group j = Some rj
                    /\ window_users cfg group (timestamp rj)
                       < credential_stuffing_threshold cfg.
Proof.
  induction starts as [|i later IH]; simpl; [tauto|].
  destruct (nth_error group i) as [row|] eqn:Erow; [|simpl; tauto].
  destruct (credential_stuffing_threshold cfg <=? window_users cfg group (timestamp row))
    eqn:Ehit.
  - intros [<- | []]. exists [], i, later, row.
    repeat split; auto. now apply Z.leb_le. intros j [].
  - intros Hd. destruct (IH Hd) as (pre & k & post & rk & -> & Hk & Hrec & Hge & Hpre).
    exists (i :: pre), k, post, rk. repeat split; auto.
    intros j [<- | Hj]; auto.
    exists row. split; auto. now apply Z.leb_gt.
Qed.

(** Conversely a start point that meets the threshold makes the loop
    emit. *)
Lemma scan_emits (cfg : SecurityConfig) (df : DataFrame) (ip : string)
      (group : list Event) (starts : list nat) (i : nat) (row : Event) :
  (forall j, In j starts -> (j < List.length group)%nat) ->
  In i starts ->
  nth_error group i = Some row ->
  credential_stuffing_threshold cfg <= window_users cfg group (timestamp row) ->
  exists d, credential_stuffing_scan cfg df ip group starts = [d].
Proof.
  induction starts as [|k later IH]; simpl; intros Hb Hi Hrow Hge; [tauto|].
  destruct (nth_error group k) as [rk|] eqn:Ek.
  - destruct (credential_stuffing_threshold cfg <=? window_users cfg group (timestamp rk))
      eqn:Ehit; [now eexists|].
    destruct Hi as [-> | Hi]; auto.
    rewrite Hrow in Ek. injection Ek as <-.
    apply Z.leb_gt in Ehit. lia.
  - apply nth_error_None in Ek. specialize (Hb k (or_introl eq_refl)). lia.
Qed.

Lemma stuffing_record_fields (cfg : SecurityConfig) (df : DataFrame)
      (ip : string) (group : list Event) (ts : Z) :
  cs_ip_address (stuffing_record cfg df ip group ts) = ip
  /\ cs_timestamp (stuffing_record cfg df ip group ts) = ts
  /\ cs_severity (stuffing_record cfg df ip group ts) = "CRITICAL"%string
  /\ unique_users_targeted (stuffing_record cfg df ip group ts)
     = window_users cfg group ts.
Proof. repeat split. Qed.

Lemma detect_credential_stuffing_cases (cfg : SecurityConfig) (df : DataFrame)
      (ds : list CredentialStuffingDetection) :
  detect_credential_stuffing cfg df = Ok ds ->
  ds = flat_map (fun g => credential_stuffing_of_ip cfg df (fst g) (snd g))
                (groupby String.eqb String.leb ip_address
                         (filter is_failure (rows df)))
  \/ ds = [].
Proof.
  unfold detect_credential_stuffing.
  destruct (negb (has_col "timestamp" df) || negb (has_col "ip_address" df)
            || negb (has_col "user_id" df)).
  { intros [= <-]. now right. }
  unfold col_is_failure.
  destruct (has_col "is_failure" df); cbn [bind]; [|discriminate].
  destruct (filter is_failure (rows df)) as [|e es].
  - intros [= <-]. now right.
  - intros [= <-]. now left.
Qed.

(** What a run of the credential-stuffing detector returns, in terms of
    its scan: at most one record per IP, each CRITICAL, the record of an
    IP being that of the first start point of its scan that meets the
    threshold. *)
Lemma credential_stuffing_scan_outcome
        (cfg : SecurityConfig) (df : DataFrame)
        (ds : list CredentialStuffingDetection) :
  detect_credential_stuffing cfg df = Ok ds ->
  NoDup (map cs_ip_address ds)
  /\ Forall (fun d => cs_severity d = "CRITICAL"%string) ds
  /\ forall d, In d ds ->
       let group := failures_of_ip df (cs_ip_address d) in
       exists pre i post row,
         start_points (List.length group) = pre ++ i :: post
         /\ nth_error group i = Some row
         /\ d = stuffing_record cfg df (cs_ip_address d) group (timestamp row)
         /\ credential_stuffing_threshold cfg
            <= window_users cfg group (timestamp row)
         /\ forall j, In j pre ->
              exists rj, nth_error group j = Some rj
                         /\ window_users cfg group (timestamp rj)
                            < credential_stuffing_threshold cfg.
Proof.
  intros Hrun.
  destruct (detect_credential_stuffing_cases cfg df ds Hrun) as [-> | ->];
    [|repeat split; [constructor | constructor | intros d []]].
  set (groups := groupby String.eqb String.leb ip_address
                         (filter is_failure (rows df))).
  assert (Hrec : forall g d, In g groups ->
            In d (credential_stuffing_of_ip cfg df (fst g) (snd g)) ->
            cs_ip_address d = fst g
            /\ cs_severity d = "CRITICAL"%string
            /\ sort_rows by_timestamp (snd g) = failures_of_ip df (fst g)).
  { intros g d Hg Hd. unfold credential_stuffing_of_ip in Hd.
    apply scan_first_hit in Hd.
    destruct Hd as (pre & i & post & row & _ & _ & -> & _).
    repeat split.
    unfold failures_of_ip.
    now rewrite (proj1 (groupby_group String.eqb String.leb string_eqb_eq
                                      ip_address _ g Hg)). }
  repeat split.
  - apply flat_map_nodup_tags with (key := fst).
    + apply groupby_keys_nodup, string_eqb_eq.
    + intros g _. apply scan_length.
    + intros g r Hg Hr. now apply (Hrec g r).
  - apply Forall_forall. intros d Hd.
    apply in_flat_map in Hd. destruct Hd as [g [Hg Hd]].
    now apply (Hrec g d).
  - intros d Hd group.
    apply in_flat_map in Hd. destruct Hd as [g [Hg Hd]].
    destruct (Hrec g d Hg Hd) as (Hip & _ & Hgroup).
    unfold credential_stuffing_of_ip in Hd.
    rewrite Hgroup, <- Hip in Hd.
    now apply scan_first_hit.
Qed.

(** The other direction of the first-hit rule: an IP with a qualifying
    start point does get its record. *)
Lemma credential_stuffing_emits (cfg : SecurityConfig) (df : DataFrame)
      (e : Event) (i : nat) (row : Event) :
  has_col "timestamp" df = true -> has_col "ip_address" df = true ->
  has_col "user_id" df = true -> has_col "is_failure" df = true ->
  In e (rows df) -> is_failure e = true ->
  let group := failures_of_ip df (ip_address e) in
  In i (start_points (List.length group)) ->
  nth_error group i = Some row ->
  credential_stuffing_threshold cfg <= window_users cfg group (timestamp row) ->
  exists ds d,
    detect_credential_stuffing cfg df = Ok ds
    /\ In d ds /\ cs_ip_address d = ip_address e.
Proof.
  intros Ht Hi Hu Hf He Hfail group Hstart Hrow Hge.
  unfold detect_credential_stuffing, col_is_failure.
  rewrite Ht, Hi, Hu, Hf. cbn [negb orb bind].
  assert (Hin : In e (filter is_failure (rows df))) by (apply filter_In; auto).
  set (failures := filter is_failure (rows df)) in *.
  assert (Hk : In (ip_address e)
                  (map fst (groupby String.eqb String.leb ip_address failures))).
  { rewrite groupby_keys.
    eapply Permutation_in; [apply Permutation_sym, sort_perm|].
    apply (unique_in String.eqb string_eqb_eq). now apply in_map. }
  apply in_map_iff in Hk. destruct Hk as [[k rows_k] [Hkey Hg]].
  pose proof (groupby_group String.eqb String.leb string_eqb_eq
                            ip_address failures _ Hg) as [Hsnd _].
  cbn [fst snd] in Hkey, Hsnd. subst k.
  destruct (scan_emits cfg df (ip_address e) group
                       (start_points (List.length group))
                       i row (start_points_bound _) Hstart Hrow Hge) as [d Hd].
  exists (flat_map (fun g => credential_stuffing_of_ip cfg df (fst g) (snd g))
                   (groupby String.eqb String.leb ip_address failures)), d.
  assert (Hd' : In d (credential_stuffing_scan cfg df (ip_address e) group
                        (start_points (List.length group))))
    by (rewrite Hd; now left).
  split; [|split].
  - destruct failures; [destruct Hin | reflexivity].
  - apply in_flat_map. exists (ip_address e, rows_k). split; auto.
    unfold credential_stuffing_of_ip. cbn [fst snd]. rewrite Hsnd.
    exact Hd'.
  - apply scan_first_hit in Hd'.
    destruct Hd' as (_ & _ & _ & r & _ & _ & -> & _). reflexivity.
Qed.

(** ** Brute force *)

(** The window-scoped subset of a detection is closed at both ends. *)
Lemma loc_slice_in (lo hi : Z) (group : list Event) (e : Event) :
  In e (loc_slice lo hi group)
  <-> In e group /\ lo <= timestamp e <= hi.
Proof.
  unfold loc_slice. rewrite filter_In, andb_true_iff, !Z.leb_le. tauto.
Qed.





(** C4.  On the sample table the bucket [0, 10 min) of IP 1.2.3.4 counts
    five failures and yields one detection, and its targeted-user list
    holds "u2", whose only event carries the timestamp bucket start +
    window: the subset behind the user list is the closed interval
    [bucket_start, bucket_start + window], not the half-open one. *)
Theorem brute_force_subset_keeps_boundary_event :
  let w := brute_force_window_min SECURITY * minute in
  exists d,
    detect_brute_force SECURITY Samples.boundary_table = Ok [d]
    /\ bf_timestamp d = 0
    /\ attempt_count d = 5
    /\ targeted_users d = ["u1"; "u2"]%string
    /\ forall e, In e (rows Samples.boundary_table) ->
                 user_id e = "u2"%string ->
                 timestamp e = bf_timestamp d + w.
Proof.
  eexists. split; [vm_compute; reflexivity|].
  repeat split.
  intros e He Hu. cbn in He.
  repeat (destruct He as [<- | He]; [try discriminate Hu|]);
    [reflexivity | destruct He].
Qed.


(** Witness of C5 on the credential-stuffing sample. *)
Lemma risk_index_is_capped_weighted_count_witness :
  has_col "is_failure" Samples.stuffing_table = true
  /\ exists r,
      run_security_analysis SECURITY Samples.stuffing_table = Ok r
      /\ detect_brute_force SECURITY Samples.stuffing_table = Ok (brute_force r)
      /\ detect_credential_stuffing SECURITY Samples.stuffing_table
         = Ok (credential_stuffing r)
      /\ detect_geo_anomalies Samples.stuffing_table = Ok (geo_anomalies r)
      /\ calculate_ip_reputation Samples.stuffing_table = Ok (ip_reputation r)
      /\ risk_index r
         = Z.min 100
             (Z.min (5 * len (brute_force r)) 30
              + Z.min (10 * len (credential_stuffing r)) 30
              + Z.min (3 * len (geo_anomalies r)) 20
              + Z.min (2 * len (filter (is_high_risk SECURITY) (ip_reputation r))) 20)
      /\ 0 <= risk_index r <= 100.
Proof.
  split; [reflexivity|].
  apply (risk_index_is_capped_weighted_count SECURITY Samples.stuffing_table).
  reflexivity.
Defined.

End SecurityTheorems.

(* ================================================================== *)
(** * The anomaly engine *)

Section AnomalyTheorems.
Import Anomaly.
Local Open Scope R_scope.

Lemma Rgtb_true (a b : R) : Rgtb a b = true <-> a > b.
Proof. unfold Rgtb. destruct (Rlt_dec b a); split; intros; lra || discriminate || auto. Qed.

Lemma Rgtb_false (a b : R) : Rgtb a b = false <-> a <= b.
Proof. unfold Rgtb. destruct (Rlt_dec b a); split; intros; lra || discriminate || auto. Qed.

Lemma window_at_first (w : nat) (x : R) (xs : list R) :
  (1 <= w)%nat -> window_at w (x :: xs) 0 = [x].
Proof.
  intros H. unfold window_at.
  replace (1 - w)%nat with 0%nat by lia. reflexivity.
Qed.

Lemma mean_singleton (x : R) : mean [x] = Some x.
Proof.
  unfold mean, Rsum. cbn [fold_right List.length INR]. f_equal. field.
Qed.

Lemma std_singleton (x : R) : std [x] = None.
Proof. unfold std. rewrite mean_singleton. reflexivity. Qed.

Lemma zscore_first (w : nat) (x : R) (xs : list R) :
  (1 <= w)%nat -> zscore_at (x :: xs) w 0 = Some 0.
Proof.
  intros H. unfold zscore_at. rewrite window_at_first by assumption.
  rewrite mean_singleton, std_singleton. cbn [nth_error fillna].
  unfold replace_zero. destruct (Req_dec_T 1 0); f_equal; field.
Qed.

Lemma rolling_zscore_nth (series : list R) (w i : nat) :
  (i < List.length series)%nat ->
  nth_error (rolling_zscore series w) i = Some (zscore_at series w i).
Proof.
  intros H. unfold rolling_zscore.
  rewrite nth_error_map, nth_error_nth' with (d := 0%nat)
    by now rewrite length_seq.
  now rewrite seq_nth.
Qed.

Lemma rolling_zscore_length (series : list R) (w : nat) :
  List.length (rolling_zscore series w) = List.length series.
Proof. unfold rolling_zscore. now rewrite length_map, length_seq. Qed.

Lemma rolling_zscore_cons (x : R) (xs : list R) (w : nat) :
  (1 <= w)%nat ->
  exists zs, rolling_zscore (x :: xs) w = Some 0 :: zs.
Proof.
  intros H. unfold rolling_zscore. cbn [List.length seq map].
  rewrite zscore_first by assumption. now eexists.
Qed.

Lemma groupby_nonempty {K A : Type} (eqb leb : K -> K -> bool)
      (key : A -> K) (l : list A) :
  l <> [] -> groupby eqb leb key l <> [].
Proof.
  intros Hl Hg. apply (f_equal (@List.length _)) in Hg.
  unfold groupby in Hg. rewrite length_map in Hg.
  rewrite (Permutation_length (sort_perm leb _)) in Hg.
  destruct l; [now apply Hl | discriminate Hg].
Qed.

(** The two engines differ in their spike test: [detect_spikes] compares
    the magnitude of the z-score, [detect_error_rate_spikes] the z-score
    itself. *)
Lemma spike_table_is_spike (cfg : MLConfig) (df : DataFrame)
      (metric_col time_col : string) (t : R) (r : SpikeRow) :
  In r (spike_table cfg df metric_col time_col t) ->
  (sp_is_spike r = true <-> exists z, sp_zscore r = Some z /\ Rabs z > t).
Proof.
  unfold spike_table. intros Hr. apply in_map_iff in Hr.
  destruct Hr as [[g z] [<- _]]. cbn [sp_is_spike sp_zscore].
  destruct z as [z|]; cbn [nan_abs option_map nan_gt].
  - rewrite Rgtb_true. split.
    + intros H. now exists z.
    + intros [z' [[= <-] H]]. exact H.
  - split; [discriminate | intros [z' [[=] _]]].
Qed.

Lemma error_rate_is_spike (cfg : MLConfig) (df : DataFrame)
      (time_col : string) (r : ErrorRateRow) :
  In r (detect_error_rate_spikes cfg df time_col) ->
  (er_is_spike r = true
   <-> exists z, er_zscore r = Some z /\ z > Q2R (zscore_threshold cfg)).
Proof.
  unfold detect_error_rate_spikes.
  destruct (negb (has_col "is_failure" df) || negb (has_col time_col df));
    [intros []|].
  intros Hr. apply in_map_iff in Hr.
  destruct Hr as [[g z] [<- _]]. cbn [er_is_spike er_zscore].
  destruct z as [z|]; cbn [nan_gt].
  - rewrite Rgtb_true. split.
    + intros H. now exists z.
    + intros [z' [[= <-] H]]. exact H.
  - split; [discriminate | intros [z' [[=] _]]].
Qed.

(** C10.  With a rolling window of at least one bucket and a strictly
    positive threshold, the first bucket of a non-empty series has
    rolling mean equal to its own value, an undefined rolling standard
    deviation that is replaced by 1, and z-score exactly 0; it is not a
    spike, its direction is NORMAL, and it is absent from what
    [detect_spikes] returns. *)
Theorem first_bucket_is_never_a_spike
        (cfg : MLConfig) (df : DataFrame) (metric_col time_col : string)
        (threshold : option R) :
  (1 <= zscore_window cfg)%nat ->
  0 < effective_threshold cfg threshold ->
  rows df <> [] ->
  has_col metric_col df = true ->
  has_col time_col df = true ->
  (forall x xs,
      mean (window_at (zscore_window cfg) (x :: xs) 0) = Some x
      /\ std (window_at (zscore_window cfg) (x :: xs) 0) = None
      /\ replace_zero (fillna 1 None) = 1
      /\ exists zs, rolling_zscore (x :: xs) (zscore_window cfg) = Some 0 :: zs)
  /\ exists first rest,
      spike_table cfg df metric_col time_col (effective_threshold cfg threshold)
      = first :: rest
      /\ sp_zscore first = Some 0
      /\ sp_is_spike first = false
      /\ spike_direction first = "NORMAL"%string
      /\ detect_spikes cfg df metric_col time_col threshold
         = map (with_severity (effective_threshold cfg threshold))
               (filter sp_is_spike rest).
Proof.
  intros Hw Ht Hrows Hm Htc. split.
  { intros x xs. rewrite window_at_first by assumption.
    rewrite mean_singleton, std_singleton. repeat split.
    - cbn [fillna]. unfold replace_zero. now destruct (Req_dec_T 1 0).
    - now apply rolling_zscore_cons. }
  unfold detect_spikes. rewrite Hm, Htc. cbn [negb orb].
  set (t := effective_threshold cfg threshold) in *.
  unfold spike_table.
  pose proof (groupby_nonempty Z.eqb Z.leb (time_of time_col) (rows df) Hrows)
    as Hg.
  destruct (groupby Z.eqb Z.leb (time_of time_col) (rows df)) as [|g gs];
    [now destruct Hg|].
  cbn [map].
  match goal with
  | |- context [rolling_zscore (?x :: ?xs) _] =>
      destruct (rolling_zscore_cons x xs (zscore_window cfg) Hw) as [zs ->]
  end.
  cbn [combine map].
  assert (Hns : nan_gt (nan_abs (Some 0)) t = false).
  { cbn [nan_abs option_map nan_gt]. apply Rgtb_false.
    rewrite Rabs_R0. lra. }
  do 2 eexists. split; [reflexivity|].
  cbn [sp_zscore sp_is_spike spike_direction].
  split; [reflexivity|]. split; [exact Hns|]. split.
  - cbn [nan_gt nan_lt].
    replace (Rgtb 0 t) with false by (symmetry; apply Rgtb_false; lra).
    replace (Rgtb (- t) 0) with false by (symmetry; apply Rgtb_false; lra).
    reflexivity.
  - cbn [filter sp_is_spike]. rewrite Hns. reflexivity.
Qed.

(** Witness of C10: the nine-bucket sample under the shipped settings. *)
Lemma first_bucket_is_never_a_spike_witness :
  exists first rest,
    spike_table ML_CONFIG Samples.error_rate_table "latency_ms" "hour_bucket"
                (effective_threshold ML_CONFIG None)
    = first :: rest
    /\ sp_zscore first = Some 0
    /\ sp_is_spike first = false.
Proof.
  assert (Hw : (1 <= zscore_window ML_CONFIG)%nat) by (cbv; lia).
  assert (Ht : 0 < effective_threshold ML_CONFIG None).
  { change (0 < Q2R (5 # 2)). unfold Q2R. cbn [Qnum Qden]. lra. }
  assert (Hrows : rows Samples.error_rate_table <> []) by discriminate.
  destruct (first_bucket_is_never_a_spike
              ML_CONFIG Samples.error_rate_table "latency_ms" "hour_bucket" None
              Hw Ht Hrows eq_refl eq_refl)
    as [_ (first & rest & H1 & H2 & H3 & _)].
  exists first, rest. split; [exact H1 | split; [exact H2 | exact H3]].
Defined.

(** The error-rate engine on its first bucket. *)
Lemma error_rate_first_bucket_not_spike
      (cfg : MLConfig) (df : DataFrame) (time_col : string) :
  (1 <= zscore_window cfg)%nat ->
  0 < Q2R (zscore_threshold cfg) ->
  rows df <> [] ->
  has_col "is_failure" df = true ->
  has_col time_col df = true ->
  exists first rest,
    detect_error_rate_spikes cfg df time_col = first :: rest
    /\ er_zscore first = Some 0
    /\ er_is_spike first = false.
Proof.
  intros Hw Ht Hrows Hf Htc.
  unfold detect_error_rate_spikes. rewrite Hf, Htc. cbn [negb orb].
  pose proof (groupby_nonempty Z.eqb Z.leb (time_of time_col) (rows df) Hrows)
    as Hg.
  destruct (groupby Z.eqb Z.leb (time_of time_col) (rows df)) as [|g gs];
    [now destruct Hg|].
  cbn [map].
  match goal with
  | |- context [rolling_zscore (?x :: ?xs) _] =>
      destruct (rolling_zscore_cons x xs (zscore_window cfg) Hw) as [zs ->]
  end.
  cbn [combine map]. do 2 eexists. split; [reflexivity|].
  cbn [er_zscore er_is_spike nan_gt]. split; [reflexivity|].
  apply Rgtb_false. lra.
Qed.

(** Row [i] of the error-rate table carries the rolling z-score of the
    rounded error-rate series at [i] and the one-sided test on it. *)
Lemma error_rate_rows_nth (cfg : MLConfig) (df : DataFrame) (time_col : string)
      (i : nat) (g : Z * list Event) :
  has_col "is_failure" df = true ->
  has_col time_col df = true ->
  let groups := groupby Z.eqb Z.leb (time_of time_col) (rows df) in
  let series := map (fun g => Q2R (error_rate_of g)) groups in
  nth_error groups i = Some g ->
  exists row,
    nth_error (detect_error_rate_spikes cfg df time_col) i = Some row
    /\ error_rate row = error_rate_of g
    /\ er_zscore row = zscore_at series (zscore_window cfg) i
    /\ er_is_spike row
       = nan_gt (zscore_at series (zscore_window cfg) i)
                (Q2R (zscore_threshold cfg)).
Proof.
  intros Hf Ht groups series Hg.
  unfold detect_error_rate_spikes. rewrite Hf, Ht. cbn [negb orb].
  fold groups. fold series.
  assert (Hi : (i < List.length groups)%nat)
    by (apply nth_error_Some; rewrite Hg; discriminate).
  assert (Hz : nth_error (rolling_zscore series (zscore_window cfg)) i
               = Some (zscore_at series (zscore_window cfg) i)).
  { apply rolling_zscore_nth. unfold series. now rewrite length_map. }
  assert (Hc : nth_error (combine groups
                            (rolling_zscore series (zscore_window cfg))) i
               = Some (g, zscore_at series (zscore_window cfg) i)).
  { revert Hg Hz. generalize (rolling_zscore series (zscore_window cfg)).
    generalize (zscore_at series (zscore_window cfg) i).
    clear. revert i.
    induction groups as [|a l IH]; intros [|i] z zs Hg Hz;
      try discriminate; destruct zs as [|z0 zs]; try discriminate;
      cbn [combine nth_error] in *.
    - congruence.
    - now apply IH. }
  rewrite nth_error_map, Hc. cbn [option_map].
  eexists. split; [reflexivity|]. repeat split.
Qed.

Lemma sample_zscore_of_last_bucket :
  zscore_at Samples.error_rate_series 20 8 = Some (-8 / 3).
Proof.
  unfold zscore_at, Samples.error_rate_series, window_at.
  cbn [Nat.sub skipn firstn nth_error].
  assert (Hm : mean [100; 100; 100; 100; 100; 100; 100; 100; 0]
               = Some (800 / 9)).
  { unfold mean, Rsum. cbn [fold_right List.length]. rewrite INR_IZR_INZ.
    cbn [Z.of_nat Pos.of_succ_nat Pos.succ]. f_equal. field. }
  assert (Hs : std [100; 100; 100; 100; 100; 100; 100; 100; 0]
               = Some (100 / 3)).
  { unfold std. rewrite Hm. cbn [Nat.leb List.length Nat.sub map].
    unfold Rsum. cbn [fold_right]. rewrite INR_IZR_INZ.
    cbn [Z.of_nat Pos.of_succ_nat Pos.succ].
    f_equal. apply sqrt_lem_1; [lra | lra | field]. }
  rewrite Hm, Hs. cbn [fillna]. unfold replace_zero.
  destruct (Req_dec_T (100 / 3) 0); [lra|]. f_equal. field.
Qed.

Lemma sample_error_rate_series :
  map (fun g => Q2R (error_rate_of g))
      (groupby Z.eqb Z.leb (time_of "hour_bucket")
               (rows Samples.error_rate_table))
  = Samples.error_rate_series.
Proof.
  rewrite <- (map_map error_rate_of Q2R).
  replace (map error_rate_of _)
    with [100; 100; 100; 100; 100; 100; 100; 100; 0]%Q
    by (vm_compute; reflexivity).
  unfold Samples.error_rate_series, Q2R. cbn [map Qnum Qden].
  repeat f_equal; lra.
Qed.

(** C3.  On the sample table (error rate 100% in eight hourly buckets,
    then 0%) the last bucket has rolling z-score -8/3, so |z| exceeds
    the configured threshold 2.5 and z < -2.5, yet the error-rate engine
    leaves [is_spike] false: it tests z > threshold, not
    |z| > threshold. *)
Theorem error_rate_drop_is_not_flagged :
  exists last z,
    nth_error (detect_error_rate_spikes ML_CONFIG Samples.error_rate_table
                                        "hour_bucket") 8 = Some last
    /\ error_rate last = 0%Q
    /\ er_zscore last = Some z
    /\ Rabs z > Q2R (zscore_threshold ML_CONFIG)
    /\ z < - Q2R (zscore_threshold ML_CONFIG)
    /\ er_is_spike last = false.
Proof.
  assert (Hg : exists g,
             nth_error (groupby Z.eqb Z.leb (time_of "hour_bucket")
                                (rows Samples.error_rate_table)) 8 = Some g
             /\ error_rate_of g = 0%Q).
  { eexists. split; vm_compute; reflexivity. }
  destruct Hg as [g [Hg Hrate]].
  destruct (error_rate_rows_nth ML_CONFIG Samples.error_rate_table
                                "hour_bucket" 8 g eq_refl eq_refl Hg)
    as (row & Hrow & Hr & Hz & Hs).
  rewrite sample_error_rate_series in Hz, Hs.
  change (zscore_window ML_CONFIG) with 20%nat in Hz, Hs.
  rewrite sample_zscore_of_last_bucket in Hz, Hs.
  assert (Ht : Q2R (zscore_threshold ML_CONFIG) = 5 / 2).
  { change (Q2R (5 # 2) = 5 / 2). unfold Q2R. cbn [Qnum Qden]. lra. }
  exists row, (-8 / 3). rewrite Ht.
  split; [exact Hrow|]. split; [congruence|]. split; [exact Hz|].
  split; [|split].
  - rewrite Rabs_left; lra.
  - lra.
  - rewrite Hs. cbn [nan_gt]. apply Rgtb_false. rewrite Ht. lra.
Qed.
End AnomalyTheorems.

(* ================================================================== *)
(** * The risk fusion engine *)

Section RiskTheorems.
Import RiskScoring.
Local Open Scope Q_scope.

Lemma Qleb_le (a b : Q) : Qleb a b = true <-> a <= b.
Proof. apply Qle_bool_iff. Qed.

Lemma Qltb_lt (a b : Q) : Qltb a b = true <-> a < b.
Proof.
  unfold Qltb. rewrite negb_true_iff. split.
  - intros H. apply Qnot_le_lt. intros Hle.
    apply Qle_bool_iff in Hle. congruence.
  - intros H. destruct (Qle_bool b a) eqn:E; auto.
    apply Qle_bool_iff in E. apply Qlt_not_le in H. contradiction.
Qed.

Lemma Qltb_ge (a b : Q) : Qltb a b = false <-> b <= a.
Proof. unfold Qltb. rewrite negb_false_iff. apply Qle_bool_iff. Qed.

Lemma clip_range (x : Q) : 0 <= clip 0 100 x <= 100.
Proof.
  unfold clip. destruct (Qltb x 0) eqn:E1; [Lqa.lra|].
  destruct (Qltb 100 x) eqn:E2; [Lqa.lra|].
  apply Qltb_ge in E1. apply Qltb_ge in E2. Lqa.lra.
Qed.

Lemma rint_range (y : Q) (n : Z) :
  (0 <= n)%Z -> 0 <= y <= inject_Z n -> (0 <= rint y <= n)%Z.
Proof.
  intros Hn [H0 H1]. unfold rint.
  pose proof (Qfloor_le y) as Hfl.
  assert (Hf0 : (0 <= Qfloor y)%Z).
  { change 0%Z with (Qfloor 0). now apply Qfloor_resp_le. }
  assert (Hf1 : (Qfloor y <= n)%Z).
  { rewrite <- (Qfloor_Z n). now apply Qfloor_resp_le. }
  destruct (Qltb (y - inject_Z (Qfloor y)) (1 # 2)) eqn:E1; [lia|].
  apply Qltb_ge in E1.
  assert (Hne : (Qfloor y < n)%Z).
  { destruct (Z.eq_dec (Qfloor y) n) as [Heq|]; [|lia].
    rewrite Heq in E1. Lqa.lra. }
  destruct (Qltb (1 # 2) (y - inject_Z (Qfloor y))); [lia|].
  destruct (Z.even (Qfloor y)); lia.
Qed.

(** Rounding to one decimal keeps a score inside [0,100]. *)
Lemma round1_range (x : Q) : 0 <= x <= 100 -> 0 <= round1 x <= 100.
Proof.
  intros H. unfold round1. rewrite Qred_correct.
  destruct (rint_range (x * 10) 1000) as [Ha Hb]; [lia | |].
  - change (inject_Z 1000) with 1000. Lqa.lra.
  - unfold Qle. cbn [Qnum Qden]. lia.
Qed.

(** The bins of [pd.cut] in the risk fusion, read off a score in
    [0,100]. *)
Lemma user_tier_bins (s : Q) :
  0 <= s <= 100 ->
  (s <= 25 -> user_tier s = Some Low)
  /\ (25 < s -> s <= 50 -> user_tier s = Some Medium)
  /\ (50 < s -> s <= 75 -> user_tier s = Some High)
  /\ (75 < s -> user_tier s = Some Critical).
Proof.
  intros [H0 H100]. unfold user_tier, risk_bins, risk_labels. cbn [cut].
  assert (L : forall a b, a < b -> Qltb a b = true)
    by (intros; now apply Qltb_lt).
  assert (M : forall a b, a <= b -> Qleb a b = true)
    by (intros; now apply Qleb_le).
  assert (M' : forall a b, b < a -> Qleb a b = false).
  { intros a b Hab. destruct (Qleb a b) eqn:E; auto.
    apply Qleb_le in E. Lqa.lra. }
  repeat split; intros.
  - rewrite (L (-1) s), (M s 25); auto. Lqa.lra.
  - rewrite (M' s 25), andb_false_r, (L 25 s), (M s 50); auto.
  - rewrite (M' s 25), andb_false_r, (M' s 50), andb_false_r,
      (L 50 s), (M s 75); auto; Lqa.lra.
  - rewrite (M' s 25), andb_false_r, (M' s 50), andb_false_r,
      (M' s 75), andb_false_r, (L 75 s), (M s 100); auto; Lqa.lra.
Qed.

Lemma merge_cluster_keeps (df : DataFrame) (ml : option MLResults)
      (users : list UserRisk) :
  Forall (keeps_anomaly df ml) users ->
  Forall (keeps_anomaly df ml) (merge_cluster ml users).
Proof.
  intros H. unfold merge_cluster.
  destruct ml as [m|]; auto. destruct (kmeans m) as [km|]; auto.
  destruct (km_results km) as [|r kmr] eqn:Ekm; auto.
  destruct (km_has_cluster_label km); auto.
  apply Forall_forall. intros u Hu. apply in_flat_map in Hu.
  destruct Hu as [u0 [Hu0 Hu]].
  rewrite Forall_forall in H. specialize (H u0 Hu0).
  destruct (filter _ (r :: kmr)) as [|m1 ms].
  - destruct Hu as [<- | []]. exact H.
  - apply in_map_iff in Hu. destruct Hu as [x [<- _]]. exact H.
Qed.

Lemma volume_scores_keeps (df : DataFrame) (ml : option MLResults)
      (users : list UserRisk) :
  Forall (keeps_anomaly df ml) users ->
  Forall (keeps_anomaly df ml) (volume_scores users).
Proof.
  intros H. unfold volume_scores. apply Forall_forall. intros u Hu.
  apply in_map_iff in Hu. destruct Hu as [u0 [<- Hu0]].
  rewrite Forall_forall in H. exact (H u0 Hu0).
Qed.

Lemma merge_ip_rep_keeps (df : DataFrame) (ml : option MLResults)
      (sr : option Security.SecurityResults) (users merged : list UserRisk) :
  merge_ip_rep df sr users = Ok merged ->
  Forall (keeps_anomaly df ml) users ->
  Forall (keeps_anomaly df ml) merged.
Proof.
  unfold merge_ip_rep. intros Hm H.
  destruct sr as [s|]; [|injection Hm as <-; exact H].
  destruct (Security.ip_reputation s) as [|r rep];
    [injection Hm as <-; exact H|].
  destruct (has_col "ip_address" df); [|discriminate Hm].
  injection Hm as <-.
  apply Forall_forall. intros u Hu. apply in_flat_map in Hu.
  destruct Hu as [u0 [Hu0 Hu]].
  rewrite Forall_forall in H. specialize (H u0 Hu0).
  destruct (filter _ _) as [|m1 ms] in Hu.
  - destruct Hu as [<- | []]. exact H.
  - destruct Hu as [<- | Hu]; [exact H|].
    apply in_map_iff in Hu. destruct Hu as [x [<- _]]. exact H.
Qed.

(** Every record of the per-user fusion is a row of the pipeline with
    its composite and tier filled in by [set_risk]. *)
Lemma user_risk_record (df : DataFrame)
      (sr : option Security.SecurityResults) (ml : option MLResults)
      (us : list UserRisk) (u : UserRisk) :
  calculate_user_risk_scores df sr ml = Ok us -> In u us ->
  exists u0, u = set_risk u0 /\ keeps_anomaly df ml u0.
Proof.
  unfold calculate_user_risk_scores. intros Hrun Hu.
  destruct (negb (has_col "user_id" df)).
  { injection Hrun as <-. destruct Hu. }
  match type of Hrun with
  | bind (merge_ip_rep df sr ?users) _ = _ =>
      assert (Hk : Forall (keeps_anomaly df ml) users)
  end.
  { apply volume_scores_keeps, merge_cluster_keeps.
    apply Forall_forall. intros x Hx. apply in_map_iff in Hx.
    destruct Hx as [g [<- _]]. reflexivity. }
  destruct (merge_ip_rep df sr _) as [merged|e] eqn:Em;
    cbn [bind] in Hrun; [|discriminate Hrun].
  injection Hrun as <-.
  apply sort_rows_in in Hu. apply in_map_iff in Hu.
  destruct Hu as [u0 [<- Hu0]]. exists u0. split; auto.
  pose proof (merge_ip_rep_keeps df ml sr _ _ Em Hk) as Hall.
  rewrite Forall_forall in Hall. now apply Hall.
Qed.

(** C1 (as amended).  Every record of the per-user fusion has its
    composite in [0,100] and its tier cut from it by the bins (-1,25] =
    Low, (25,50] = Medium, (50,75] = High, (75,100] = Critical; every
    composite above 75 is Critical. *)
Theorem user_risk_tier_follows_risk_bins
        (df : DataFrame) (sr : option Security.SecurityResults)
        (ml : option MLResults) (us : list UserRisk) (u : UserRisk) :
  calculate_user_risk_scores df sr ml = Ok us ->
  In u us ->
  risk_tier u = cut [-1; 25; 50; 75; 100] [Low; Medium; High; Critical]
                    (risk_score u)
  /\ 0 <= risk_score u <= 100
  /\ (risk_score u <= 25 -> risk_tier u = Some Low)
  /\ (25 < risk_score u -> risk_score u <= 50 -> risk_tier u = Some Medium)
  /\ (50 < risk_score u -> risk_score u <= 75 -> risk_tier u = Some High)
  /\ (75 < risk_score u -> risk_tier u = Some Critical).
Proof.
  intros Hrun Hu.
  destruct (user_risk_record df sr ml us u Hrun Hu) as [u0 [-> _]].
  cbn [set_risk risk_tier risk_score].
  assert (Hr : 0 <= composite u0 <= 100)
    by (unfold composite; apply round1_range, clip_range).
  split; [reflexivity|]. split; [exact Hr|].
  apply user_tier_bins, Hr.
Qed.

(** Witness of C1 (as amended): alice of the fusion sample scores 71 and
    is tiered High. *)
Lemma user_risk_tier_follows_risk_bins_witness :
  exists us u,
    calculate_user_risk_scores Samples.fusion_table None
                               (Some Samples.fusion_ml) = Ok us
    /\ In u us
    /\ risk_score u = 71
    /\ (50 < risk_score u -> risk_score u <= 75 -> risk_tier u = Some High).
Proof.
  assert (Hrun : exists a rest,
             calculate_user_risk_scores Samples.fusion_table None
                                        (Some Samples.fusion_ml)
             = Ok (a :: rest)
             /\ risk_score a = 71).
  { do 2 eexists. split; vm_compute; reflexivity. }
  destruct Hrun as (a & rest & Hrun & Hscore).
  exists (a :: rest), a.
  split; [exact Hrun|]. split; [left; reflexivity|]. split; [exact Hscore|].
  apply (user_risk_tier_follows_risk_bins
           Samples.fusion_table None (Some Samples.fusion_ml)
           (a :: rest) a Hrun (or_introl eq_refl)).
Defined.

(** C1, as stated, fails on the fusion sample: alice's composite 71 lies
    above 70, the reputation bins of the IP scorer put 71 in Critical,
    and the fusion tiers it High. *)
Lemma user_tier_is_not_reputation_tier :
  ~ (forall us u,
        calculate_user_risk_scores Samples.fusion_table None
                                   (Some Samples.fusion_ml) = Ok us ->
        In u us ->
        risk_tier u = cut Security.reputation_bins Security.tier_labels
                          (risk_score u)
        /\ (70 < risk_score u -> risk_tier u = Some Critical)).
Proof.
  intros Hclaim.
  assert (Hrun : exists a rest,
             calculate_user_risk_scores Samples.fusion_table None
                                        (Some Samples.fusion_ml)
             = Ok (a :: rest)
             /\ risk_tier a = Some High
             /\ cut Security.reputation_bins Security.tier_labels
                    (risk_score a) = Some Critical).
  { do 2 eexists. split; [vm_compute; reflexivity|].
    split; vm_compute; reflexivity. }
  destruct Hrun as (a & rest & Hrun & Hhigh & Hrep).
  destruct (Hclaim _ a Hrun (or_introl eq_refl)) as [Htier _].
  rewrite Hhigh, Hrep in Htier. discriminate Htier.
Qed.

(** ** The anomaly component *)

Lemma anomaly_component_no_ml (df : DataFrame) (user : string) :
  anomaly_component df None user = 0.
Proof. reflexivity. Qed.

Lemma anomaly_component_no_forest (df : DataFrame) (ml : MLResults)
      (user : string) :
  isolation_forest ml = None ->
  anomaly_component df (Some ml) user = 0.
Proof. unfold anomaly_component. now intros ->. Qed.

Lemma anomaly_component_no_join (df : DataFrame) (ml : MLResults)
      (iso : IsolationForestResults) (user : string) :
  isolation_forest ml = Some iso ->
  if_results iso = []
  \/ has_col "session_id" df = false
  \/ has_col "user_id" df = false
  \/ if_has_anomaly_score iso = false ->
  anomaly_component df (Some ml) user = 0.
Proof.
  unfold anomaly_component. intros -> H.
  destruct (if_results iso) as [|r rs]; [reflexivity|].
  destruct H as [H | [H | [H | H]]]; [discriminate H| | |]; rewrite H.
  - reflexivity.
  - now rewrite andb_false_r.
  - now destruct (has_col "session_id" df && has_col "user_id" df).
Qed.

Lemma anomaly_component_used (df : DataFrame) (ml : MLResults)
      (iso : IsolationForestResults) (user : string) :
  isolation_forest ml = Some iso ->
  signal_used df iso ->
  anomaly_component df (Some ml) user
  = Qred (clip 0 100
            ((0 - fillna 0 (avg_anomaly_score df (if_results iso) user)) * 50
             + 50)).
Proof.
  unfold anomaly_component, signal_used. intros -> (Hr & Hs & Hu & Ha).
  destruct (if_results iso) as [|r rs]; [now destruct Hr|].
  now rewrite Hs, Hu, Ha.
Qed.

(** With an average the component is the clipped transform of it. *)
Lemma anomaly_component_available (df : DataFrame) (ml : MLResults)
      (iso : IsolationForestResults) (user : string) (a : Q) :
  isolation_forest ml = Some iso ->
  signal_used df iso ->
  avg_anomaly_score df (if_results iso) user = Some a ->
  anomaly_component df (Some ml) user == clip 0 100 ((0 - a) * 50 + 50).
Proof.
  intros Hi Hs Ha. rewrite (anomaly_component_used df ml iso user Hi Hs), Ha.
  cbn [fillna]. apply Qred_correct.
Qed.

(** Without one, the missing average is filled with 0 before the
    transform, which then gives 50. *)
Lemma anomaly_component_unscored (df : DataFrame) (ml : MLResults)
      (iso : IsolationForestResults) (user : string) :
  isolation_forest ml = Some iso ->
  signal_used df iso ->
  avg_anomaly_score df (if_results iso) user = None ->
  anomaly_component df (Some ml) user = 50.
Proof.
  intros Hi Hs Ha. rewrite (anomaly_component_used df ml iso user Hi Hs), Ha.
  reflexivity.
Qed.

Lemma score_anomaly_is_component (df : DataFrame)
      (sr : option Security.SecurityResults) (ml : option MLResults)
      (us : list UserRisk) (u : UserRisk) :
  calculate_user_risk_scores df sr ml = Ok us -> In u us ->
  score_anomaly u = anomaly_component df ml (ur_user_id u).
Proof.
  intros Hrun Hu.
  destruct (user_risk_record df sr ml us u Hrun Hu) as [u0 [-> Hk]].
  exact Hk.
Qed.

(** C2.  On the fusion sample the isolation forest scored alice's session
    only.  The session-to-user join gives bob no anomaly score, and the
    fusion sets bob's [score_anomaly] to 50, not 0. *)
Theorem unscored_user_has_anomaly_component_50 :
  exists us bob iso,
    calculate_user_risk_scores Samples.fusion_table None
                               (Some Samples.fusion_ml) = Ok us
    /\ In bob us
    /\ ur_user_id bob = "bob"%string
    /\ isolation_forest Samples.fusion_ml = Some iso
    /\ avg_anomaly_score Samples.fusion_table (if_results iso) "bob" = None
    /\ score_anomaly bob = 50.
Proof.
  do 3 eexists. split; [vm_compute; reflexivity|].
  split; [right; left; reflexivity|].
  split; [reflexivity|]. split; [reflexivity|].
  split; vm_compute; reflexivity.
Qed.
End RiskTheorems.

(* ================================================================== *)
(** * The alert generator *)

Section AlertTheorems.
Import AlertEngine.
Local Open Scope string_scope.

Lemma has_dash_app (a b : string) :
  has_dash (a ++ b) = has_dash a || has_dash b.
Proof.
  induction a as [|c a IH]; simpl; [reflexivity|].
  now rewrite IH, orb_assoc.
Qed.

Lemma has_dash_zeros (k : nat) : has_dash (zeros k) = false.
Proof. induction k; simpl; auto. Qed.

Lemma has_dash_digits (d : Decimal.uint) :
  has_dash (NilEmpty.string_of_uint d) = false.
Proof. induction d; simpl; auto. Qed.

Lemma has_dash_fmt04d (n : nat) : has_dash (fmt04d n) = false.
Proof.
  unfold fmt04d. now rewrite has_dash_app, has_dash_zeros, has_dash_digits.
Qed.

Lemma id_suffix_app (p d : string) :
  has_dash d = false -> id_suffix (p ++ "-" ++ d) = d.
Proof.
  intros Hd. induction p as [|c p IH].
  - simpl. now rewrite Hd.
  - simpl. rewrite has_dash_app. simpl. rewrite orb_true_r. exact IH.
Qed.

Lemma id_prefix_app (p d : string) :
  has_dash d = false -> id_prefix (p ++ "-" ++ d) = p.
Proof.
  intros Hd. induction p as [|c p IH].
  - simpl. now rewrite Hd.
  - simpl. rewrite has_dash_app. simpl. rewrite orb_true_r.
    f_equal. exact IH.
Qed.

Lemma parse_zeros (k : nat) (d : Decimal.uint) :
  option_map Nat.of_uint
             (NilEmpty.uint_of_string (zeros k ++ NilEmpty.string_of_uint d))
  = Some (Nat.of_uint d).
Proof.
  induction k as [|k IH].
  - simpl. now rewrite NilEmpty.usu.
  - simpl.
    destruct (NilEmpty.uint_of_string (zeros k ++ NilEmpty.string_of_uint d))
      as [u|]; [|discriminate IH].
    simpl in IH |- *. injection IH as IH. f_equal. rewrite <- IH. reflexivity.
Qed.

(** The number printed by [{n:04d}] behind a prefix is read back. *)
Lemma id_number_fmt (p : string) (n : nat) :
  id_number (p ++ "-" ++ fmt04d n) = Some n.
Proof.
  unfold id_number. rewrite id_suffix_app by apply has_dash_fmt04d.
  unfold fmt04d. rewrite parse_zeros. f_equal. apply Unsigned.of_to.
Qed.

Lemma id_prefix_fmt (p : string) (n : nat) :
  id_prefix (p ++ "-" ++ fmt04d n) = p.
Proof. apply id_prefix_app, has_dash_fmt04d. Qed.

(** One [alerts.append] whose id is built from [len(alerts) + 1]. *)
Lemma append_numbered (mk : list Alert -> Alert) (alerts : list Alert)
      (prefix : string) :
  In prefix source_prefixes ->
  id (mk alerts) = prefix ++ "-" ++ fmt04d (next_number alerts) ->
  numbered_in_emission_order alerts ->
  numbered_in_emission_order (append mk alerts).
Proof.
  intros Hp Hid Hnum k a Hk. unfold append in Hk.
  destruct (Nat.lt_ge_cases k (List.length alerts)) as [Hlt | Hge].
  - rewrite nth_error_app1 in Hk by assumption. now apply Hnum.
  - rewrite nth_error_app2 in Hk by assumption.
    destruct (k - List.length alerts)%nat as [|m] eqn:Em;
      [|destruct m; discriminate Hk].
    injection Hk as <-. exists prefix. split; auto.
    rewrite Hid. unfold next_number.
    replace (List.length alerts + 1)%nat with (S k) by lia. reflexivity.
Qed.

(** A loop of such appends over the rows of a table. *)
Lemma loop_numbered {Row : Type} (mk : Row -> list Alert -> Alert)
      (prefix : string) (table : list Row) (alerts : list Alert) :
  In prefix source_prefixes ->
  (forall row alerts,
      id (mk row alerts) = prefix ++ "-" ++ fmt04d (next_number alerts)) ->
  numbered_in_emission_order alerts ->
  numbered_in_emission_order
    (fold_left (fun alerts row => append (mk row) alerts) table alerts).
Proof.
  intros Hp Hid. revert alerts.
  induction table as [|row table IH]; intros alerts Hnum; simpl; auto.
  apply IH. now apply append_numbered with (prefix := prefix).
Qed.

Ltac known_prefix := unfold source_prefixes; simpl; tauto.

Lemma security_alerts_numbered (sr : option Security.SecurityResults)
      (alerts : list Alert) :
  numbered_in_emission_order alerts ->
  numbered_in_emission_order (security_alerts sr alerts).
Proof.
  intros H. unfold security_alerts. destruct sr as [sr|]; auto.
  assert (H1 : numbered_in_emission_order
                 (fold_left
                    (fun alerts row =>
                       append (fun alerts =>
                         {| id := "SEC-BF-" ++ fmt04d (next_number alerts);
                            title := "Brute Force Attack Detected";
                            severity := Security.bf_severity row;
                            category := "Security";
                            source := "security_engine" |}) alerts)
                    (Security.brute_force sr) alerts)).
  { apply (loop_numbered _ "SEC-BF"); auto. known_prefix. }
  match goal with
  | |- context [fold_left ?f (Security.credential_stuffing sr) ?acc] =>
      assert (H2 : numbered_in_emission_order
                     (fold_left f (Security.credential_stuffing sr) acc))
  end.
  { apply (loop_numbered
             (fun (row : Security.CredentialStuffingDetection) alerts =>
                {| id := "SEC-CS-" ++ fmt04d (next_number alerts);
                   title := "Credential Stuffing Pattern";
                   severity := "CRITICAL";
                   category := "Security";
                   source := "security_engine" |}) "SEC-CS"); auto.
    known_prefix. }
  destruct (0 <? Security.high_risk_ips sr)%Z; auto.
  apply append_numbered with (prefix := "SEC-IP"); auto. known_prefix.
Qed.

Lemma performance_alerts_numbered (pr : option PerformanceResults)
      (alerts : list Alert) :
  numbered_in_emission_order alerts ->
  numbered_in_emission_order (performance_alerts pr alerts).
Proof.
  intros H. unfold performance_alerts. destruct pr as [pr|]; auto.
  apply (loop_numbered
           (fun bn alerts =>
              {| id := "PERF-BN-" ++ fmt04d (next_number alerts);
                 title := "Bottleneck: " ++ bn_service bn;
                 severity := bn_severity bn;
                 category := "Performance";
                 source := "bottleneck_detector" |}) "PERF-BN");
    [known_prefix | reflexivity |].
  apply (loop_numbered
           (fun row alerts =>
              {| id := "PERF-SLA-" ++ fmt04d (next_number alerts);
                 title := "SLA Breach: " ++ sla_service row;
                 severity := sla_severity row;
                 category := "Performance";
                 source := "sla_monitor" |}) "PERF-SLA");
    [known_prefix | reflexivity | exact H].
Qed.

Lemma anomaly_alerts_numbered (ar : option Anomaly.AnomalyResults)
      (alerts : list Alert) :
  numbered_in_emission_order alerts ->
  numbered_in_emission_order (anomaly_alerts ar alerts).
Proof.
  intros H. unfold anomaly_alerts. destruct ar as [ar|]; auto.
  match goal with
  | |- context [if (0 <? Anomaly.total_latency_spikes ar)%Z then ?a else ?b] =>
      assert (H1 : numbered_in_emission_order
                     (if (0 <? Anomaly.total_latency_spikes ar)%Z
                      then a else b))
  end.
  { destruct (0 <? Anomaly.total_latency_spikes ar)%Z; auto.
    apply append_numbered with (prefix := "ANOM-LAT"); auto. known_prefix. }
  destruct (0 <? Anomaly.total_error_spikes ar)%Z; auto.
  apply append_numbered with (prefix := "ANOM-ERR"); auto. known_prefix.
Qed.

Lemma risk_alerts_numbered (rr : option RiskScoring.RiskSummary)
      (alerts : list Alert) :
  numbered_in_emission_order alerts ->
  numbered_in_emission_order (risk_alerts rr alerts).
Proof.
  intros H. unfold risk_alerts. destruct rr as [rr|]; auto.
  destruct (0 <? RiskScoring.critical_users rr)%Z; auto.
  apply append_numbered with (prefix := "RISK-USR"); auto. known_prefix.
Qed.

Lemma emitted_alerts_numbered
      (sr : option Security.SecurityResults)
      (pr : option PerformanceResults)
      (ar : option Anomaly.AnomalyResults)
      (rr : option RiskScoring.RiskSummary) :
  numbered_in_emission_order (emitted_alerts sr pr ar rr).
Proof.
  unfold emitted_alerts.
  apply risk_alerts_numbered, anomaly_alerts_numbered,
    performance_alerts_numbered, security_alerts_numbered.
  intros k a Hk. destruct k; discriminate Hk.
Qed.

Lemma numbered_numbers (alerts : list Alert) :
  numbered_in_emission_order alerts ->
  map (fun a => id_number (id a)) alerts
  = map Some (seq 1 (List.length alerts)).
Proof.
  intros H. apply nth_error_ext. intros k.
  rewrite !nth_error_map, nth_error_seq.
  destruct (nth_error alerts k) as [a|] eqn:Ek.
  - destruct (H k a Ek) as [p [_ Hid]].
    assert (Hlt : (k < List.length alerts)%nat)
      by (apply nth_error_Some; rewrite Ek; discriminate).
    apply Nat.ltb_lt in Hlt. rewrite Hlt. simpl.
    now rewrite Hid, id_number_fmt.
  - apply nth_error_None in Ek.
    destruct (Nat.ltb_spec k (List.length alerts)); [lia | reflexivity].
Qed.

(** C9 (as amended).  The ids are numbered in one sequence over all
    source prefixes: the k-th alert appended carries the number k behind
    its source prefix, so the numbers of the alerts of a run are 1, 2,
    ..., n, each once, whatever their prefixes; the final sort by
    severity only reorders the alerts. *)
Theorem alert_ids_follow_one_global_sequence
        (sr : option Security.SecurityResults)
        (pr : option PerformanceResults)
        (ar : option Anomaly.AnomalyResults)
        (rr : option RiskScoring.RiskSummary) :
  numbered_in_emission_order (emitted_alerts sr pr ar rr)
  /\ Permutation (generate_alerts sr pr ar rr) (emitted_alerts sr pr ar rr)
  /\ Permutation
       (map (fun a => id_number (id a)) (generate_alerts sr pr ar rr))
       (map Some (seq 1 (List.length (generate_alerts sr pr ar rr))))
  /\ Forall (fun a => In (id_prefix (id a)) source_prefixes)
            (generate_alerts sr pr ar rr).
Proof.
  pose proof (emitted_alerts_numbered sr pr ar rr) as Hnum.
  assert (Hperm : Permutation (generate_alerts sr pr ar rr)
                              (emitted_alerts sr pr ar rr))
    by apply sort_rows_perm.
  split; [exact Hnum|]. split; [exact Hperm|]. split.
  - rewrite (Permutation_length Hperm), <- (numbered_numbers _ Hnum).
    now apply Permutation_map.
  - apply Forall_forall. intros a Ha.
    apply (Permutation_in _ Hperm) in Ha.
    apply In_nth_error in Ha. destruct Ha as [k Hk].
    destruct (Hnum k a Hk) as [p [Hp Hid]].
    now rewrite Hid, id_prefix_fmt.
Qed.

(** C9, as stated, fails: with one brute-force and one
    credential-stuffing detection the only SEC-CS alert carries the
    number 2, so the numbers behind that prefix do not start at 1. *)
Lemma alert_numbers_do_not_restart_per_prefix :
  ~ (forall prefix,
        In prefix source_prefixes ->
        let numbers :=
          numbers_of_prefix prefix
            (generate_alerts (Some Samples.two_detections) None None None) in
        Permutation numbers (map Some (seq 1 (List.length numbers)))).
Proof.
  intros Hclaim.
  assert (Hcs : In "SEC-CS" source_prefixes) by (right; left; reflexivity).
  specialize (Hclaim "SEC-CS" Hcs).
  assert (Hn : numbers_of_prefix "SEC-CS"
                 (generate_alerts (Some Samples.two_detections) None None None)
               = [Some 2%nat]) by (vm_compute; reflexivity).
  cbv zeta in Hclaim. rewrite Hn in Hclaim.
  apply Permutation_length_1_inv in Hclaim. discriminate Hclaim.
Qed.
End AlertTheorems.

(* ================================================================== *)
(** * Missing columns *)

Section ColumnGuards.
Import Detectors.

(** A table that lacks a column of a detector's opening guard gets the
    empty result from it. *)
Lemma missing_guarded_column_gives_empty_result
      (cfg : SecurityConfig) (ml : MLConfig) (d : Detector)
      (df : DataFrame) (c : string) :
  In c (guarded_columns d) ->
  has_col c df = false ->
  returns_empty cfg ml d df.
Proof.
  intros Hc Hmissing.
  destruct d as [ | | | | metric_col time_col | time_col];
    cbn [guarded_columns In] in Hc; cbn [returns_empty];
    repeat (destruct Hc as [<- | Hc]); try contradiction.
  - unfold Security.detect_brute_force. now rewrite Hmissing.
  - unfold Security.detect_brute_force. rewrite Hmissing.
    now rewrite orb_true_r.
  - unfold Security.detect_credential_stuffing. now rewrite Hmissing.
  - unfold Security.detect_credential_stuffing. rewrite Hmissing.
    cbn [negb]. now rewrite orb_true_r.
  - unfold Security.detect_credential_stuffing. rewrite Hmissing.
    now rewrite orb_true_r.
  - unfold Security.calculate_ip_reputation. now rewrite Hmissing.
  - unfold Security.detect_geo_anomalies. now rewrite Hmissing.
  - unfold Security.detect_geo_anomalies. rewrite Hmissing.
    now rewrite orb_true_r.
  - intros threshold. unfold Anomaly.detect_spikes. now rewrite Hmissing.
  - intros threshold. unfold Anomaly.detect_spikes. rewrite Hmissing.
    now rewrite orb_true_r.
  - unfold Anomaly.detect_error_rate_spikes. now rewrite Hmissing.
  - unfold Anomaly.detect_error_rate_spikes. rewrite Hmissing.
    now rewrite orb_true_r.
Qed.

Lemma passes_guard_columns (d : Detector) (df : DataFrame) :
  passes_guard d df = true <->
  forall c, In c (guarded_columns d) -> has_col c df = true.
Proof. unfold passes_guard. apply forallb_forall. Qed.

Lemma fails_guard_column (d : Detector) (df : DataFrame) :
  passes_guard d df = false ->
  exists c, In c (guarded_columns d) /\ has_col c df = false.
Proof.
  unfold passes_guard. induction (guarded_columns d) as [|c cs IH];
    cbn [forallb]; [discriminate|].
  destruct (has_col c df) eqn:E.
  - cbn [andb]. intros H. destruct (IH H) as [c' [Hin Hc']].
    exists c'. split; [now right | exact Hc'].
  - intros _. exists c. split; [now left | exact E].
Qed.

(** The derived column [is_failure] is not in the guards of the three
    detectors that read it: past the guard they index it directly. *)
Lemma is_failure_is_read_unguarded (cfg : SecurityConfig) (df : DataFrame) :
  has_col "timestamp" df = true ->
  has_col "ip_address" df = true ->
  has_col "is_failure" df = false ->
  Security.detect_brute_force cfg df = Raise (KeyError "is_failure")
  /\ Security.calculate_ip_reputation df = Raise (KeyError "is_failure").
Proof.
  intros Ht Hi Hf.
  unfold Security.detect_brute_force, Security.calculate_ip_reputation,
    col_is_failure.
  rewrite Ht, Hi, Hf. split; reflexivity.
Qed.

(** The whole security run fails with them: a table with IP addresses
    and without [is_failure] stops [run_security_analysis], although its
    own failure rate is computed behind
    [if "is_failure" in df.columns else 0]. *)
Lemma security_run_stops_without_is_failure
      (cfg : SecurityConfig) (df : DataFrame) :
  has_col "ip_address" df = true ->
  has_col "is_failure" df = false ->
  Security.run_security_analysis cfg df = Raise (KeyError "is_failure").
Proof.
  intros Hi Hf.
  unfold Security.run_security_analysis, Security.detect_brute_force,
    Security.detect_credential_stuffing, Security.calculate_ip_reputation,
    col_is_failure.
  rewrite Hi, Hf. cbn [negb orb].
  destruct (has_col "timestamp" df); cbn [negb orb bind]; [reflexivity|].
  destruct (has_col "user_id" df); reflexivity.
Qed.

(** C6.  What a detector (brute force, credential stuffing, IP
    reputation, geo anomaly, spike detection on a metric, error-rate
    spikes) does on a table that lacks one of the columns it requires:
    when a column of its opening guard is absent it returns normally
    with an empty result; when the guard passes, the absent column is
    [is_failure], the detector is one of the three that index it without
    a test, and it raises [KeyError] instead of returning. *)
Theorem missing_required_column_is_empty_or_key_error
        (cfg : SecurityConfig) (ml : MLConfig) (d : Detector)
        (df : DataFrame) (c : string) :
  In c (required_columns d) ->
  has_col c df = false ->
  (passes_guard d df = false -> returns_empty cfg ml d df)
  /\ (passes_guard d df = true ->
      c = "is_failure"%string
      /\ (d = BruteForce \/ d = CredentialStuffing \/ d = IpReputationScorer)
      /\ raises_key_error cfg ml d df "is_failure").
Proof.
  intros Hc Hmissing. split.
  - intros Hguard. destruct (fails_guard_column d df Hguard) as [g [Hg Hno]].
    exact (missing_guarded_column_gives_empty_result cfg ml d df g Hg Hno).
  - intros Hguard.
    pose proof (proj1 (passes_guard_columns d df) Hguard) as Hall.
    assert (Hnot : ~ In c (guarded_columns d)).
    { intros Hin. rewrite (Hall c Hin) in Hmissing. discriminate. }
    destruct d as [ | | | | metric_col time_col | time_col];
      cbn [required_columns] in Hc;
      try (exfalso; exact (Hnot Hc));
      apply in_app_or in Hc;
      (destruct Hc as [Hc | [<- | []]]; [exfalso; exact (Hnot Hc)|]);
      (split; [reflexivity|]); cbn [raises_key_error].
    + split; [now left|].
      unfold Security.detect_brute_force, col_is_failure.
      rewrite (Hall "timestamp"%string), (Hall "ip_address"%string), Hmissing
        by (cbn [guarded_columns In]; auto).
      reflexivity.
    + split; [right; now left|].
      unfold Security.detect_credential_stuffing, col_is_failure.
      rewrite (Hall "timestamp"%string), (Hall "ip_address"%string),
        (Hall "user_id"%string), Hmissing
        by (cbn [guarded_columns In]; auto).
      reflexivity.
    + split; [right; now right|].
      unfold Security.calculate_ip_reputation, col_is_failure.
      rewrite (Hall "ip_address"%string), Hmissing
        by (cbn [guarded_columns In]; auto).
      reflexivity.
Qed.

(** Witness of C6: the sample table without [is_failure] makes the
    brute-force detector raise, where the table without [timestamp] gets
    the empty result. *)
Lemma missing_required_column_is_empty_or_key_error_witness :
  Security.detect_brute_force SECURITY Samples.no_is_failure_table
  = Raise (KeyError "is_failure")
  /\ Security.detect_brute_force SECURITY Samples.no_timestamp_table = Ok [].
Proof.
  split.
  - apply (missing_required_column_is_empty_or_key_error
             SECURITY ML_CONFIG BruteForce Samples.no_is_failure_table
             "is_failure"%string).
    + right. right. left. reflexivity.
    + reflexivity.
    + reflexivity.
  - apply (missing_required_column_is_empty_or_key_error
             SECURITY ML_CONFIG BruteForce Samples.no_timestamp_table
             "timestamp"%string).
    + left. reflexivity.
    + reflexivity.
    + reflexivity.
Defined.
End ColumnGuards.

(* ================================================================== *)
(** * Sorting facts *)

Section SortRowsFacts.
Context {A : Type}.
Variable before : A -> A -> bool.
Hypothesis before_total : forall a b, before a b = true \/ before b a = true.
Hypothesis before_trans :
  forall a b c, before a b = true -> before b c = true -> before a c = true.

Let ordered (a b : A) : Prop := before a b = true.

Lemma insert_row_sorted (x : A) (l : list A) :
  StronglySorted ordered l -> StronglySorted ordered (insert_row before x l).
Proof.
  induction l as [|y r IH]; intros Hs; simpl.
  - constructor; constructor.
  - apply StronglySorted_inv in Hs. destruct Hs as [Hr Hy].
    destruct (before x y) eqn:E.
    + constructor. constructor; auto.
      constructor; auto.
      rewrite Forall_forall in *. intros z Hz. unfold ordered in *. eauto.
    + constructor; auto.
      rewrite Forall_forall in *. intros z Hz.
      apply (Permutation_in _ (insert_row_perm before x r)) in Hz.
      destruct Hz as [<- | Hz]; auto.
      unfold ordered. destruct (before_total x y) as [H|H]; congruence.
Qed.

Lemma sort_rows_sorted (l : list A) :
  StronglySorted ordered (sort_rows before l).
Proof.
  induction l as [|x r IH]; simpl; [constructor|].
  now apply insert_row_sorted.
Qed.
End SortRowsFacts.

Lemma filter_length_perm {A : Type} (f : A -> bool) (l l' : list A) :
  Permutation l l' -> List.length (filter f l) = List.length (filter f l').
Proof.
  induction 1; simpl; auto.
  - destruct (f x); simpl; auto.
  - destruct (f x), (f y); simpl; auto.
  - congruence.
Qed.

(** Stable: rows of one key class keep their order. *)
Lemma sort_rows_stable {A : Type} (key : A -> nat) (k : nat) (l : list A) :
  filter (fun a => Nat.eqb (key a) k)
         (sort_rows (fun a b => Nat.leb (key a) (key b)) l)
  = filter (fun a => Nat.eqb (key a) k) l.
Proof.
  induction l as [|x r IH]; simpl; auto.
  rewrite <- IH. generalize (sort_rows (fun a b => Nat.leb (key a) (key b)) r).
  intros s. induction s as [|y s IHs]; simpl; auto.
  destruct (Nat.leb (key x) (key y)) eqn:E; simpl; auto.
  rewrite IHs.
  destruct (Nat.eqb (key x) k) eqn:Ex; auto.
  destruct (Nat.eqb (key y) k) eqn:Ey; auto.
  apply Nat.eqb_eq in Ex, Ey. apply Nat.leb_gt in E. lia.
Qed.

(* ================================================================== *)
(** * More on the brute-force detector *)

Section BruteForceWindowFacts.
Import Security BruteForceWindows.

Lemma by_timestamp_total (a b : Event) :
  by_timestamp a b = true \/ by_timestamp b a = true.
Proof. unfold by_timestamp. rewrite !Z.leb_le. lia. Qed.

Lemma by_timestamp_trans (a b c : Event) :
  by_timestamp a b = true -> by_timestamp b c = true -> by_timestamp a c = true.
Proof. unfold by_timestamp. rewrite !Z.leb_le. lia. Qed.

Lemma sorted_head_least (x : Event) (l : list Event) (e : Event) :
  StronglySorted (fun a b => by_timestamp a b = true) (x :: l) ->
  In e (x :: l) -> timestamp x <= timestamp e.
Proof.
  intros Hs He. apply StronglySorted_inv in Hs. destruct Hs as [_ Hx].
  destruct He as [<- | He]; [lia|].
  rewrite Forall_forall in Hx. specialize (Hx e He).
  unfold by_timestamp in Hx. now apply Z.leb_le.
Qed.

Lemma sorted_last_greatest (l : list Event) (d e : Event) :
  StronglySorted (fun a b => by_timestamp a b = true) l ->
  In e l -> timestamp e <= timestamp (last l d).
Proof.
  revert e. induction l as [|x r IH]; intros e Hs He; [destruct He|].
  apply StronglySorted_inv in Hs. destruct Hs as [Hr Hx].
  destruct r as [|y r'].
  - destruct He as [<- | []]. simpl. lia.
  - change (last (x :: y :: r') d) with (last (y :: r') d).
    destruct He as [<- | He]; [|now apply IH].
    rewrite Forall_forall in Hx.
    assert (Hy : In y (y :: r')) by now left.
    pose proof (Hx y Hy) as Hxy. unfold by_timestamp in Hxy.
    apply Z.leb_le in Hxy.
    specialize (IH y Hr Hy). lia.
Qed.

(** The bins of [resample] on a sorted group, when the window divides the
    day: exactly the multiples of the window between the bin of the first
    and the bin of the last row, each with its half-open count. *)
Lemma resample_size_bins (w : Z) (group : list Event) (s c : Z) :
  0 < w -> day mod w = 0 ->
  StronglySorted (fun a b => by_timestamp a b = true) group ->
  In (s, c) (resample_size w group)
  <-> (s mod w = 0
       /\ c = len (filter (fun e => (s <=? timestamp e) && (timestamp e <? s + w)) group)
       /\ exists first, hd_error group = Some first
            /\ timestamp first / w * w <= s <= timestamp (last group first)).
Proof.
  intros Hw Hday Hs.
  destruct group as [|first rest]; [simpl; split; [tauto | intros (_ & _ & f & [=] & _)]|].
  apply Z.mod_divide in Hday; [|lia]. destruct Hday as [q Hq].
  set (tl := timestamp (last (first :: rest) first)).
  assert (Hfl : timestamp first <= tl)
    by (apply sorted_last_greatest; [exact Hs | now left]).
  assert (Hbin : timestamp first / day * day
                 + (timestamp first - timestamp first / day * day) / w * w
                 = timestamp first / w * w).
  { rewrite Hq.
    replace (timestamp first - timestamp first / (q * w) * (q * w))
      with (timestamp first + (- (timestamp first / (q * w) * q)) * w) by ring.
    rewrite Z.div_add by lia. ring. }
  unfold resample_size. fold tl. rewrite Hbin.
  set (fb := timestamp first / w * w).
  assert (Hfb : fb <= timestamp first < fb + w).
  { unfold fb. pose proof (Z.mul_div_le (timestamp first) w Hw).
    pose proof (Z.mul_succ_div_gt (timestamp first) w Hw). lia. }
  assert (Hfbm : fb mod w = 0) by (unfold fb; apply Z.mod_mul; lia).
  rewrite in_map_iff. split.
  - intros [k [[= <- <-] Hk]]. apply in_seq in Hk.
    split; [|split].
    + rewrite Z.add_mod, Hfbm, Z.mod_mul by lia. reflexivity.
    + reflexivity.
    + exists first. split; [reflexivity|].
      assert (Hk' : Z.of_nat k <= (tl - fb) / w).
      { assert (0 <= (tl - fb) / w) by (apply Z.div_pos; lia). lia. }
      pose proof (Z.mul_div_le (tl - fb) w Hw). nia.
  - intros (Hmod & -> & f & [= <-] & Hlo & Hhi).
    apply Z.mod_divide in Hmod; [|lia]. destruct Hmod as [m Hm].
    apply Z.mod_divide in Hfbm; [|lia]. destruct Hfbm as [m0 Hm0].
    assert (Hmm : m0 <= m) by nia.
    exists (Z.to_nat (m - m0)). split.
    + f_equal. 
      * rewrite Z2Nat.id by lia. rewrite Hm, Hm0. ring.
      * rewrite Z2Nat.id by lia. rewrite Hm, Hm0.
        replace (m0 * w + (m - m0) * w) with (m * w) by ring. reflexivity.
    + apply in_seq. split; [lia|]. simpl.
      assert (m - m0 <= (tl - fb) / w).
      { apply Z.div_le_lower_bound; [lia|]. rewrite Hm0. nia. }
      assert (0 <= (tl - fb) / w) by (apply Z.div_pos; lia).
      lia.
Qed.

Lemma detect_brute_force_unfold (cfg : SecurityConfig) (df : DataFrame) :
  has_col "timestamp" df = true -> has_col "ip_address" df = true ->
  has_col "is_failure" df = true ->
  detect_brute_force cfg df
  = Ok (flat_map (fun g => brute_force_of_ip cfg df (fst g) (snd g))
                 (groupby String.eqb String.leb ip_address
                          (filter (auth_failure df) (rows df)))).
Proof.
  intros Ht Hi Hf. unfold detect_brute_force, col_is_failure.
  rewrite Ht, Hi, Hf. cbn [negb orb bind].
  change (fun e : Event =>
            if has_col "endpoint" df
            then is_failure e && isin (lower (endpoint e)) login_endpoints
            else is_failure e) with (auth_failure df).
  destruct (filter (auth_failure df) (rows df)); reflexivity.
Qed.

Lemma group_of_ip (failures : list Event) (e : Event) :
  In e failures ->
  In (ip_address e,
      filter (fun r => String.eqb (ip_address r) (ip_address e)) failures)
     (groupby String.eqb String.leb ip_address failures).
Proof.
  intros He. unfold groupby. apply in_map_iff.
  exists (ip_address e). split; [reflexivity|].
  eapply Permutation_in; [apply Permutation_sym, sort_perm|].
  apply (unique_in String.eqb string_eqb_eq). now apply in_map.
Qed.

Lemma bin_count_of_group (df : DataFrame) (g : string * list Event) (s w : Z) :
  In g (groupby String.eqb String.leb ip_address
                (filter (auth_failure df) (rows df))) ->
  len (filter (fun e => (s <=? timestamp e) && (timestamp e <? s + w))
              (sort_rows by_timestamp (snd g)))
  = len (window_failures df (fst g) s w).
Proof.
  intros Hg. unfold len, window_failures. f_equal.
  rewrite (proj1 (groupby_group String.eqb String.leb string_eqb_eq
                                ip_address _ g Hg)).
  apply filter_length_perm, sort_rows_perm.
Qed.

(** What a record of a run says about its window, when the window length
    divides the day. *)
Lemma brute_force_record_of_window (cfg : SecurityConfig) (df : DataFrame)
      (d : BruteForceDetection) :
  let w := brute_force_window_min cfg * minute in
  let threshold := brute_force_threshold cfg in
  0 < brute_force_window_min cfg ->
  day mod w = 0 ->
  In d (flat_map (fun g => brute_force_of_ip cfg df (fst g) (snd g))
                 (groupby String.eqb String.leb ip_address
                          (filter (auth_failure df) (rows df)))) ->
  attempt_count d = len (window_failures df (bf_ip_address d) (bf_timestamp d) w)
  /\ threshold <= attempt_count d
  /\ bf_timestamp d mod w = 0
  /\ bf_severity d
     = if threshold * 2 <=? attempt_count d
       then "CRITICAL"%string else "WARNING"%string.
Proof.
  intros w threshold Hmin Hday Hd.
  assert (Hw : 0 < w) by (unfold w, minute; lia).
  apply in_flat_map in Hd. destruct Hd as [g [Hg Hd]].
  unfold brute_force_of_ip in Hd. apply in_map_iff in Hd.
  destruct Hd as [[s c] [<- Hb]].
  apply filter_In in Hb. destruct Hb as [Hb Hc]. cbn [snd] in Hc.
  apply Z.leb_le in Hc.
  assert (Hsorted : StronglySorted (fun a b => by_timestamp a b = true)
                                   (sort_rows by_timestamp (snd g))).
  { apply sort_rows_sorted.
    - apply by_timestamp_total.
    - apply by_timestamp_trans. }
  apply (resample_size_bins w _ s c Hw Hday Hsorted) in Hb.
  destruct Hb as (Hmod & Hcount & _).
  cbn [brute_force_record bf_ip_address attempt_count bf_timestamp bf_severity].
  rewrite (bin_count_of_group df g s w Hg) in Hcount.
  repeat split; auto.
Qed.

(** Conversely a clock-aligned window that holds the threshold of
    filtered failures of an IP is reported. *)
Lemma brute_force_window_is_reported (cfg : SecurityConfig) (df : DataFrame)
      (ip : string) (s : Z) :
  let w := brute_force_window_min cfg * minute in
  let threshold := brute_force_threshold cfg in
  0 < brute_force_window_min cfg ->
  day mod w = 0 ->
  1 <= threshold ->
  s mod w = 0 ->
  threshold <= len (window_failures df ip s w) ->
  exists d,
    In d (flat_map (fun g => brute_force_of_ip cfg df (fst g) (snd g))
                   (groupby String.eqb String.leb ip_address
                            (filter (auth_failure df) (rows df))))
    /\ bf_ip_address d = ip /\ bf_timestamp d = s.
Proof.
  intros w threshold Hmin Hday Hthr Hmod Hge.
  assert (Hw : 0 < w) by (unfold w, minute; lia).
  set (failures := filter (auth_failure df) (rows df)).
  destruct (window_failures df ip s w) as [|e es] eqn:Ewf;
    [unfold len in Hge; simpl in Hge; lia|].
  assert (He : In e (window_failures df ip s w)) by (rewrite Ewf; now left).
  unfold window_failures in He.
  apply filter_In in He. destruct He as [He Hin].
  apply filter_In in He. destruct He as [He Hip].
  apply String.eqb_eq in Hip.
  apply andb_true_iff in Hin. destruct Hin as [Hlo Hhi].
  apply Z.leb_le in Hlo. apply Z.ltb_lt in Hhi.
  pose proof (group_of_ip failures e He) as Hg. rewrite Hip in Hg.
  set (g := (ip, filter (fun r => String.eqb (ip_address r) ip) failures)) in *.
  set (sg := sort_rows by_timestamp (snd g)).
  assert (Hsorted : StronglySorted (fun a b => by_timestamp a b = true) sg).
  { apply sort_rows_sorted.
    - apply by_timestamp_total.
    - apply by_timestamp_trans. }
  assert (Hesg : In e sg).
  { apply sort_rows_in. cbn [g snd]. apply filter_In. split; auto.
    now apply String.eqb_eq. }
  assert (Hbin : In (s, len (filter (fun e => (s <=? timestamp e)
                                      && (timestamp e <? s + w)) sg))
                    (resample_size w sg)).
  { apply (resample_size_bins w sg _ _ Hw Hday Hsorted).
    split; [exact Hmod|]. split; [reflexivity|].
    destruct sg as [|first rest] eqn:Esg; [destruct Hesg|].
    exists first. split; [reflexivity|].
    pose proof (sorted_head_least first rest e Hsorted Hesg) as H1.
    pose proof (sorted_last_greatest (first :: rest) first e Hsorted Hesg) as H2.
    split; [|lia].
    apply Z.mod_divide in Hmod; [|lia]. destruct Hmod as [m Hm].
    assert (Hdiv : timestamp first / w <= timestamp e / w)
      by (apply Z.div_le_mono; lia).
    assert (Hem : timestamp e / w = m).
    { symmetry. apply (Z.div_unique _ _ _ (timestamp e - s)); lia. }
    rewrite Hm. nia. }
  exists (brute_force_record cfg df ip sg
            (s, len (filter (fun e => (s <=? timestamp e)
                              && (timestamp e <? s + w)) sg))).
  split; [|split; reflexivity].
  apply in_flat_map. exists g. split; [exact Hg|].
  unfold brute_force_of_ip. apply in_map_iff.
  eexists. split; [reflexivity|].
  apply filter_In. split; [exact Hbin|].
  cbn [snd]. apply Z.leb_le.
  unfold sg. rewrite (bin_count_of_group df g s w Hg). cbn [g fst].
  rewrite Ewf. exact Hge.
Qed.

(** X1.  When the window length divides the day, the brute-force detector
    reports exactly the clock-aligned windows that hold at least
    [brute_force_threshold] filtered failures of one IP: one record per such
    IP and window start, none otherwise.  The record's attempt count is the
    number of those failures in the half-open window, and its severity is
    CRITICAL from twice the threshold on, WARNING below. *)
Theorem brute_force_detects_exactly_full_windows
        (cfg : SecurityConfig) (df : DataFrame) :
  let w := brute_force_window_min cfg * minute in
  let threshold := brute_force_threshold cfg in
  0 < brute_force_window_min cfg ->
  day mod w = 0 ->
  1 <= threshold ->
  has_col "timestamp" df = true ->
  has_col "ip_address" df = true ->
  has_col "is_failure" df = true ->
  exists ds,
    detect_brute_force cfg df = Ok ds
    /\ (forall ip s,
           (exists d, In d ds /\ bf_ip_address d = ip /\ bf_timestamp d = s)
           <-> (s mod w = 0
                /\ threshold <= len (window_failures df ip s w)))
    /\ (forall d, In d ds ->
           attempt_count d
           = len (window_failures df (bf_ip_address d) (bf_timestamp d) w)
           /\ threshold <= attempt_count d
           /\ (bf_severity d = "CRITICAL"%string
               <-> threshold * 2 <= attempt_count d)
           /\ (bf_severity d = "WARNING"%string
               <-> attempt_count d < threshold * 2)).
Proof.
  intros w threshold Hmin Hday Hthr Ht Hi Hf.
  eexists. split; [apply detect_brute_force_unfold; assumption|].
  split.
  - intros ip s. split.
    + intros (d & Hd & Hip & Hs).
      destruct (brute_force_record_of_window cfg df d Hmin Hday Hd)
        as (Hc & Hge & Hmod & _).
      subst ip s. split; [exact Hmod|]. fold w in Hc. now rewrite <- Hc.
    + intros [Hmod Hge].
      exact (brute_force_window_is_reported cfg df ip s Hmin Hday Hthr
                                            Hmod Hge).
  - intros d Hd.
    destruct (brute_force_record_of_window cfg df d Hmin Hday Hd)
      as (Hc & Hge & _ & Hsev).
    fold w in Hc. fold threshold in Hge, Hsev.
    split; [exact Hc|]. split; [exact Hge|].
    rewrite Hsev.
    destruct (threshold * 2 <=? attempt_count d) eqn:E.
    + apply Z.leb_le in E. split; split; intros; auto; try lia; discriminate.
    + apply Z.leb_gt in E. split; split; intros; auto; try lia; discriminate.
Qed.
End BruteForceWindowFacts.

(* ================================================================== *)
(** * Clock alignment of the brute-force windows *)

Section ClockAlignment.
Import Security BruteForceWindows.







End ClockAlignment.

Section BruteForceRecordFacts.
Import Security BruteForceWindows.

(** Witness of X1: the boundary sample under the shipped settings. *)
Lemma brute_force_detects_exactly_full_windows_witness :
  exists ds,
    detect_brute_force SECURITY Samples.boundary_table = Ok ds
    /\ forall ip s,
        (exists d, In d ds /\ bf_ip_address d = ip /\ bf_timestamp d = s)
        <-> (s mod (brute_force_window_min SECURITY * minute) = 0
             /\ brute_force_threshold SECURITY
                <= len (window_failures Samples.boundary_table ip s
                          (brute_force_window_min SECURITY * minute))).
Proof.
  assert (Hthr : 1 <= brute_force_threshold SECURITY) by (cbv; discriminate).
  destruct (brute_force_detects_exactly_full_windows
              SECURITY Samples.boundary_table
              eq_refl eq_refl Hthr eq_refl eq_refl eq_refl)
    as (ds & Hrun & Hiff & _).
  exists ds. split; [exact Hrun | exact Hiff].
Defined.

Lemma firstn_in {A : Type} (n : nat) (l : list A) (x : A) :
  In x (firstn n l) -> In x l.
Proof.
  revert n. induction l as [|y r IH]; intros [|n]; simpl; try tauto.
  intros [H | H]; eauto.
Qed.

Lemma firstn_nodup {A : Type} (n : nat) (l : list A) :
  NoDup l -> NoDup (firstn n l).
Proof.
  revert n. induction l as [|y r IH]; intros [|n] H; simpl; try constructor.
  - inversion H; subst. intros Hin. apply firstn_in in Hin. contradiction.
  - inversion H; subst. now apply IH.
Qed.

(** X2.  The targeted-user list of a brute-force record holds at most five
    names, each once, and each is the user of a filtered failure of the
    record's IP whose timestamp lies between the window start and the
    window start plus the window length, both ends included. *)
Theorem brute_force_targeted_users_are_window_users
        (cfg : SecurityConfig) (df : DataFrame)
        (ds : list BruteForceDetection) (d : BruteForceDetection) :
  detect_brute_force cfg df = Ok ds ->
  In d ds ->
  (List.length (targeted_users d) <= 5)%nat
  /\ NoDup (targeted_users d)
  /\ forall u, In u (targeted_users d) ->
       exists e, In e (rows df)
                 /\ auth_failure df e = true
                 /\ ip_address e = bf_ip_address d
                 /\ user_id e = u
                 /\ bf_timestamp d <= timestamp e
                    <= bf_timestamp d + brute_force_window_min cfg * minute.
Proof.
  intros Hrun Hd.
  unfold detect_brute_force in Hrun.
  destruct (negb (has_col "timestamp" df) || negb (has_col "ip_address" df));
    [injection Hrun as <-; destruct Hd|].
  unfold col_is_failure in Hrun.
  destruct (has_col "is_failure" df); cbn [bind] in Hrun; [|discriminate Hrun].
  change (fun e : Event =>
            if has_col "endpoint" df
            then is_failure e && isin (lower (endpoint e)) login_endpoints
            else is_failure e) with (auth_failure df) in Hrun.
  assert (Hds : ds = flat_map (fun g => brute_force_of_ip cfg df (fst g) (snd g))
                       (groupby String.eqb String.leb ip_address
                                (filter (auth_failure df) (rows df)))).
  { destruct (filter (auth_failure df) (rows df)); now injection Hrun as <-. }
  clear Hrun. subst ds.
  apply in_flat_map in Hd. destruct Hd as [g [Hg Hd]].
  unfold brute_force_of_ip in Hd. apply in_map_iff in Hd.
  destruct Hd as [[s c] [<- _]].
  cbn [brute_force_record targeted_users bf_ip_address bf_timestamp].
  split; [apply firstn_le_length|].
  destruct (has_col "user_id" df).
  - split.
    + apply firstn_nodup, unique_nodup, string_eqb_eq.
    + intros u Hu. apply firstn_in in Hu.
      apply (proj1 (unique_in String.eqb string_eqb_eq _ _)) in Hu.
      apply in_map_iff in Hu. destruct Hu as [e [<- He]].
      unfold loc_slice in He. apply filter_In in He. destruct He as [He Hin].
      apply sort_rows_in in He.
      rewrite (proj1 (groupby_group String.eqb String.leb string_eqb_eq
                                    ip_address _ g Hg)) in He.
      apply filter_In in He. destruct He as [He Hip].
      apply filter_In in He. destruct He as [He Hauth].
      apply andb_true_iff in Hin. destruct Hin as [Hlo Hhi].
      apply Z.leb_le in Hlo. apply Z.leb_le in Hhi.
      exists e. repeat split; auto. now apply String.eqb_eq.
  - split; [rewrite firstn_nil; constructor | intros u Hu].
    rewrite firstn_nil in Hu. destruct Hu.
Qed.

(** Witness of X2 on the boundary sample. *)
Lemma brute_force_targeted_users_are_window_users_witness :
  exists ds d,
    detect_brute_force SECURITY Samples.boundary_table = Ok ds
    /\ In d ds
    /\ (List.length (targeted_users d) <= 5)%nat
    /\ NoDup (targeted_users d).
Proof.
  assert (Hrun : exists d, detect_brute_force SECURITY Samples.boundary_table
                           = Ok [d]).
  { eexists. vm_compute. reflexivity. }
  destruct Hrun as [d Hrun].
  exists [d], d. split; [exact Hrun|]. split; [left; reflexivity|].
  destruct (brute_force_targeted_users_are_window_users
              SECURITY Samples.boundary_table [d] d Hrun (or_introl eq_refl))
    as (H1 & H2 & _).
  split; [exact H1 | exact H2].
Defined.
End BruteForceRecordFacts.

(* ================================================================== *)
(** * More on the credential-stuffing detector *)

Section CredentialStuffingFacts.
Import Security StuffingWindows.

Lemma unique_length_le {K : Type} (eqb : K -> K -> bool) (l : list K) :
  (List.length (unique eqb l) <= List.length l)%nat.
Proof.
  induction l as [|x r IH]; simpl; [lia|].
  pose proof (filter_length_le (fun y => negb (eqb x y)) (unique eqb r)). lia.
Qed.

Lemma start_points_small (n : nat) : (n < 40)%nat -> start_points n = seq 0 n.
Proof.
  intros H. unfold start_points, range_step.
  assert (Hq : (n / 20 <= 1)%nat).
  { destruct (Nat.le_gt_cases (n / 20) 1) as [|Hgt]; auto.
    assert (2 <= n / 20)%nat by lia.
    pose proof (Nat.Div0.mul_div_le n 20). lia. }
  replace (Nat.max 1 (n / 20)) with 1%nat by lia.
  replace (n + 1 - 1)%nat with n by lia. rewrite Nat.div_1_r.
  rewrite <- (map_id (seq 0 n)) at 2. apply map_ext. intros k. lia.
Qed.

Lemma failures_of_ip_in (df : DataFrame) (ip : string) (e : Event) :
  In e (failures_of_ip df ip)
  <-> In e (rows df) /\ is_failure e = true /\ ip_address e = ip.
Proof.
  unfold failures_of_ip. rewrite sort_rows_in, !filter_In, String.eqb_eq.
  tauto.
Qed.

Lemma credential_stuffing_record (cfg : SecurityConfig) (df : DataFrame)
      (ds : list CredentialStuffingDetection) (d : CredentialStuffingDetection) :
  detect_credential_stuffing cfg df = Ok ds ->
  In d ds ->
  exists row,
    In row (failures_of_ip df (cs_ip_address d))
    /\ d = stuffing_record cfg df (cs_ip_address d)
             (failures_of_ip df (cs_ip_address d)) (timestamp row)
    /\ credential_stuffing_threshold cfg
       <= window_users cfg (failures_of_ip df (cs_ip_address d)) (timestamp row).
Proof.
  intros Hrun Hd.
  destruct (detect_credential_stuffing_cases cfg df ds Hrun) as [-> | ->];
    [|destruct Hd].
  apply in_flat_map in Hd. destruct Hd as [g [Hg Hd]].
  unfold credential_stuffing_of_ip in Hd.
  apply scan_first_hit in Hd.
  destruct Hd as (pre & i & post & row & _ & Hrow & -> & Hge & _).
  cbn [stuffing_record cs_ip_address].
  assert (Hgroup : sort_rows by_timestamp (snd g) = failures_of_ip df (fst g)).
  { unfold failures_of_ip.
    now rewrite (proj1 (groupby_group String.eqb String.leb string_eqb_eq
                                      ip_address _ g Hg)). }
  rewrite Hgroup in *.
  exists row. split; [now apply nth_error_In in Hrow|]. split; auto.
Qed.

(** [nunique] of a column is the number of entries of a duplicate-free
    copy of any column holding the same values. *)
Lemma nunique_counts_distinct (col col' : list string) :
  (forall u, In u col <-> In u col') ->
  nunique String.eqb col = List.length (nodup string_dec col').
Proof.
  intros Hsame. unfold nunique. apply Permutation_length.
  apply NoDup_Permutation.
  - apply (unique_nodup String.eqb string_eqb_eq).
  - apply NoDup_nodup.
  - intros u. rewrite (unique_in String.eqb string_eqb_eq), nodup_In.
    apply Hsame.
Qed.

(** The window the detector cuts out of the sorted group of an IP holds
    the failures of that IP between the start and the start plus the
    window length, both ends included. *)
Lemma stuffing_window_in (cfg : SecurityConfig) (df : DataFrame)
      (ip : string) (ts : Z) (e : Event) :
  In e (stuffing_window cfg (failures_of_ip df ip) ts)
  <-> In e (closed_window_failures df ip ts
              (credential_stuffing_window_min cfg * minute)).
Proof.
  unfold stuffing_window, closed_window_failures, failures_of_ip.
  rewrite !filter_In, sort_rows_in, !filter_In. tauto.
Qed.

Lemma stuffing_window_attempts (cfg : SecurityConfig) (df : DataFrame)
      (ip : string) (ts : Z) :
  len (stuffing_window cfg (failures_of_ip df ip) ts)
  = len (closed_window_failures df ip ts
           (credential_stuffing_window_min cfg * minute)).
Proof.
  unfold len, stuffing_window, closed_window_failures, failures_of_ip.
  f_equal. apply filter_length_perm, sort_rows_perm.
Qed.

Lemma window_users_reading (cfg : SecurityConfig) (df : DataFrame)
      (ip : string) (ts : Z) :
  window_users cfg (failures_of_ip df ip) ts
  = distinct_window_users df ip ts
      (credential_stuffing_window_min cfg * minute).
Proof.
  unfold window_users, distinct_window_users. f_equal.
  apply nunique_counts_distinct. intros u. rewrite !in_map_iff.
  split; intros [e [He Hin]]; exists e; (split; [exact He|]);
    now apply stuffing_window_in.
Qed.

(** The start points of a scan are the multiples of its stride, in
    ascending order. *)
Lemma multiples_split (step : nat) (pre post : list nat) (i a m : nat) :
  map (fun k => (k * step)%nat) (seq a m) = pre ++ i :: post ->
  i = ((a + List.length pre) * step)%nat
  /\ pre = map (fun k => (k * step)%nat) (seq a (List.length pre)).
Proof.
  revert a m. induction pre as [|p pre IH]; intros a m H.
  - destruct m as [|m]; [discriminate|]. cbn [seq map app] in H.
    injection H as H _. cbn [List.length]. rewrite Nat.add_0_r.
    split; [now symmetry | reflexivity].
  - destruct m as [|m]; [discriminate|]. cbn [seq map app] in H.
    injection H as Hp H. destruct (IH (S a) m H) as [Hi Hpre].
    cbn [List.length]. split.
    + rewrite Hi. f_equal. lia.
    + cbn [seq map]. rewrite Hp. f_equal. exact Hpre.
Qed.

Lemma start_points_prefix (n : nat) (pre post : list nat) (i : nat) :
  start_points n = pre ++ i :: post ->
  exists k, i = (k * Nat.max 1 (n / 20))%nat
            /\ forall j, (j < k)%nat -> In (j * Nat.max 1 (n / 20))%nat pre.
Proof.
  unfold start_points, range_step. intros H.
  apply multiples_split in H. destruct H as [Hi Hpre].
  exists (List.length pre). split; [exact Hi|].
  intros j Hj. rewrite Hpre. apply in_map_iff. exists j.
  split; [reflexivity|]. apply in_seq. lia.
Qed.

Lemma start_points_multiples (n k : nat) :
  (k * Nat.max 1 (n / 20) < n)%nat ->
  In (k * Nat.max 1 (n / 20))%nat (start_points n).
Proof.
  intros H. unfold start_points, range_step.
  set (s := Nat.max 1 (n / 20)) in *.
  assert (Hs : (1 <= s)%nat) by (unfold s; lia).
  apply in_map_iff. exists k. split; [reflexivity|]. apply in_seq.
  split; [lia|]. cbn [Nat.add].
  assert (Hk : (S k <= (n + s - 1) / s)%nat)
    by (apply Nat.div_le_lower_bound; nia).
  lia.
Qed.

(** A run on a table with the three guard columns went on to read
    [is_failure]. *)
Lemma credential_stuffing_read_is_failure (cfg : SecurityConfig)
      (df : DataFrame) (ds : list CredentialStuffingDetection) :
  detect_credential_stuffing cfg df = Ok ds ->
  has_col "timestamp" df = true -> has_col "ip_address" df = true ->
  has_col "user_id" df = true ->
  has_col "is_failure" df = true.
Proof.
  unfold detect_credential_stuffing, col_is_failure. intros Hrun Ht Hi Hu.
  rewrite Ht, Hi, Hu in Hrun. cbn [negb orb] in Hrun.
  destruct (has_col "is_failure" df); [reflexivity|].
  cbn [bind] in Hrun. discriminate.
Qed.

(** C8.  A run of the credential-stuffing detector emits at most one
    record per IP, each of severity CRITICAL.  The failures of an IP are
    scanned in timestamp order at the positions 0, stride, 2 stride, ...
    with stride max(1, n // 20); the record of an IP carries the
    timestamp of the first scanned failure whose closed window
    [event_time, event_time + window] holds at least
    [credential_stuffing_threshold] distinct users among the failures of
    that IP, every scanned failure before it falling short; and on a
    table with the guard columns an IP with such a scanned failure does
    get its record. *)
Theorem credential_stuffing_at_most_one_per_ip
        (cfg : SecurityConfig) (df : DataFrame)
        (ds : list CredentialStuffingDetection) :
  detect_credential_stuffing cfg df = Ok ds ->
  let w := credential_stuffing_window_min cfg * minute in
  let threshold := credential_stuffing_threshold cfg in
  NoDup (map cs_ip_address ds)
  /\ Forall (fun d => cs_severity d = "CRITICAL"%string) ds
  /\ (forall d, In d ds ->
        let ip := cs_ip_address d in
        let group := failures_of_ip df ip in
        let stride := Nat.max 1 (List.length group / 20) in
        exists k row,
          nth_error group (k * stride) = Some row
          /\ cs_timestamp d = timestamp row
          /\ threshold <= distinct_window_users df ip (timestamp row) w
          /\ forall j, (j < k)%nat ->
               exists earlier,
                 nth_error group (j * stride) = Some earlier
                 /\ distinct_window_users df ip (timestamp earlier) w
                    < threshold)
  /\ (has_col "timestamp" df = true -> has_col "ip_address" df = true ->
      has_col "user_id" df = true ->
      forall ip k row,
        let group := failures_of_ip df ip in
        let stride := Nat.max 1 (List.length group / 20) in
        nth_error group (k * stride) = Some row ->
        threshold <= distinct_window_users df ip (timestamp row) w ->
        exists d, In d ds /\ cs_ip_address d = ip).
Proof.
  intros Hrun w threshold.
  destruct (credential_stuffing_scan_outcome cfg df ds Hrun)
    as (Hnodup & Hcrit & Hfirst).
  split; [exact Hnodup|]. split; [exact Hcrit|]. split.
  - intros d Hd ip group stride.
    pose proof (Hfirst d Hd) as H. cbv zeta in H.
    destruct H as (pre & i & post & row & Hsplit & Hrow & Hrec & Hge & Hpre).
    destruct (start_points_prefix _ _ _ _ Hsplit) as (k & Hi & Hbefore).
    exists k, row. subst i.
    split; [exact Hrow|]. split; [rewrite Hrec; reflexivity|]. split.
    + unfold w, ip. rewrite <- window_users_reading. exact Hge.
    + intros j Hj.
      destruct (Hpre _ (Hbefore j Hj)) as (rj & Hrj & Hlt).
      exists rj. split; [exact Hrj|].
      unfold w, ip. rewrite <- window_users_reading. exact Hlt.
  - intros Ht Hi Hu ip k row group stride Hrow Hge.
    pose proof (credential_stuffing_read_is_failure cfg df ds Hrun Ht Hi Hu)
      as Hf.
    assert (Hin : In row group) by (eapply nth_error_In; exact Hrow).
    apply failures_of_ip_in in Hin. destruct Hin as (Hrows & Hfail & Hip).
    subst ip.
    destruct (credential_stuffing_emits cfg df row (k * stride) row
                Ht Hi Hu Hf Hrows Hfail) as (ds' & d & Hrun' & Hd & Hdip).
    + apply start_points_multiples. apply nth_error_Some.
      unfold stride, group in Hrow. rewrite Hrow. discriminate.
    + exact Hrow.
    + rewrite window_users_reading. exact Hge.
    + rewrite Hrun in Hrun'. injection Hrun' as <-. exists d. auto.
Qed.

(** Witness of C8: the sample IP fails against four users and gets its
    single record. *)
Lemma credential_stuffing_at_most_one_per_ip_witness :
  exists ds,
    detect_credential_stuffing SECURITY Samples.stuffing_table = Ok ds
    /\ List.length ds = 1%nat
    /\ NoDup (map cs_ip_address ds)
    /\ Forall (fun d => cs_severity d = "CRITICAL"%string) ds.
Proof.
  eexists. split; [vm_compute; reflexivity|]. split; [reflexivity|].
  pose proof (credential_stuffing_at_most_one_per_ip
                SECURITY Samples.stuffing_table _ eq_refl) as H.
  cbv zeta in H. destruct H as (H1 & H2 & _).
  split; [exact H1 | exact H2].
Defined.

(** X3.  Every credential-stuffing record starts at the timestamp of a
    failure of its IP, and its counts are those of the closed window
    opened there: [unique_users_targeted] is the number of distinct users
    among the failures of the IP from that timestamp to the timestamp
    plus the window length, both ends included, [total_attempts] the
    number of those failures.  The number of users is at least the
    threshold and at most the number of attempts, which is at most the
    number of failures of that IP. *)
Theorem credential_stuffing_counts_are_window_counts
        (cfg : SecurityConfig) (df : DataFrame)
        (ds : list CredentialStuffingDetection) (d : CredentialStuffingDetection) :
  detect_credential_stuffing cfg df = Ok ds ->
  In d ds ->
  let ip := cs_ip_address d in
  let ts := cs_timestamp d in
  let w := credential_stuffing_window_min cfg * minute in
  (exists row, In row (rows df) /\ is_failure row = true
               /\ ip_address row = ip /\ timestamp row = ts)
  /\ unique_users_targeted d = distinct_window_users df ip ts w
  /\ total_attempts d = len (closed_window_failures df ip ts w)
  /\ credential_stuffing_threshold cfg <= unique_users_targeted d
  /\ unique_users_targeted d <= total_attempts d
  /\ total_attempts d
     <= len (filter (fun e => String.eqb (ip_address e) ip)
                    (filter is_failure (rows df))).
Proof.
  intros Hrun Hd ip ts w.
  destruct (credential_stuffing_record cfg df ds d Hrun Hd)
    as (row & Hrow & Hrec & Hge).
  assert (Hts : ts = timestamp row) by (unfold ts; rewrite Hrec; reflexivity).
  assert (Hu : unique_users_targeted d = distinct_window_users df ip ts w).
  { rewrite Hts. unfold w, ip. rewrite <- window_users_reading.
    rewrite Hrec at 1. reflexivity. }
  assert (Ha : total_attempts d = len (closed_window_failures df ip ts w)).
  { rewrite Hts. unfold w, ip. rewrite <- stuffing_window_attempts.
    rewrite Hrec at 1. reflexivity. }
  split; [|split; [exact Hu | split; [exact Ha|]]].
  - apply failures_of_ip_in in Hrow. destruct Hrow as (H1 & H2 & H3).
    exists row. auto.
  - split; [|split].
    + rewrite Hu, Hts. unfold w, ip. rewrite <- window_users_reading.
      exact Hge.
    + rewrite Hu, Ha. unfold distinct_window_users, len.
      apply inj_le.
      rewrite <- (length_map user_id (closed_window_failures df ip ts w)).
      apply NoDup_incl_length; [apply NoDup_nodup|].
      intros u Hin. now apply nodup_In in Hin.
    + rewrite Ha. unfold len, closed_window_failures. apply inj_le.
      apply filter_length_le.
Qed.

(** Witness of X3 on the credential-stuffing sample. *)
Lemma credential_stuffing_counts_are_window_counts_witness :
  exists ds d,
    detect_credential_stuffing SECURITY Samples.stuffing_table = Ok ds
    /\ In d ds
    /\ credential_stuffing_threshold SECURITY <= unique_users_targeted d
    /\ unique_users_targeted d <= total_attempts d.
Proof.
  assert (Hrun : exists d, detect_credential_stuffing SECURITY Samples.stuffing_table
                           = Ok [d]).
  { eexists. vm_compute. reflexivity. }
  destruct Hrun as [d Hrun].
  exists [d], d. split; [exact Hrun|]. split; [left; reflexivity|].
  destruct (credential_stuffing_counts_are_window_counts
              SECURITY Samples.stuffing_table [d] d Hrun (or_introl eq_refl))
    as (_ & _ & _ & H1 & H2 & _).
  split; [exact H1 | exact H2].
Defined.

(** X4.  For an IP with fewer than forty failures the stride of the scan
    is one, so every failure is a start point: the IP gets a record exactly
    when one of its failures opens a closed window
    [event_time, event_time + window] that holds at least the threshold
    of distinct users among the failures of that IP. *)
Theorem credential_stuffing_is_exhaustive_below_forty
        (cfg : SecurityConfig) (df : DataFrame) (ip : string) :
  has_col "timestamp" df = true ->
  has_col "ip_address" df = true ->
  has_col "user_id" df = true ->
  has_col "is_failure" df = true ->
  (List.length (filter (fun e => String.eqb (ip_address e) ip)
                       (filter is_failure (rows df))) < 40)%nat ->
  exists ds,
    detect_credential_stuffing cfg df = Ok ds
    /\ ((exists d, In d ds /\ cs_ip_address d = ip)
        <-> exists e, In e (rows df) /\ is_failure e = true
                      /\ ip_address e = ip
                      /\ credential_stuffing_threshold cfg
                         <= distinct_window_users df ip (timestamp e)
                              (credential_stuffing_window_min cfg * minute)).
Proof.
  intros Ht Hi Hu Hf Hsmall.
  destruct (detect_credential_stuffing_returns cfg df Hf) as [ds Hrun].
  exists ds. split; [exact Hrun|].
  assert (Hlen : (List.length (failures_of_ip df ip) < 40)%nat).
  { unfold failures_of_ip.
    rewrite (Permutation_length (sort_rows_perm by_timestamp _)).
    exact Hsmall. }
  split.
  - intros (d & Hd & <-).
    destruct (credential_stuffing_record cfg df ds d Hrun Hd)
      as (row & Hrow & _ & Hge).
    rewrite window_users_reading in Hge.
    apply failures_of_ip_in in Hrow. destruct Hrow as (H1 & H2 & H3).
    exists row. auto.
  - intros (e & Hin & Hfail & Hip & Hge). subst ip.
    assert (He : In e (failures_of_ip df (ip_address e)))
      by (apply failures_of_ip_in; auto).
    destruct (In_nth_error _ _ He) as [i Hi'].
    assert (Hlt : (i < List.length (failures_of_ip df (ip_address e)))%nat)
      by (apply nth_error_Some; rewrite Hi'; discriminate).
    rewrite <- window_users_reading in Hge.
    destruct (credential_stuffing_emits cfg df e i e Ht Hi Hu Hf Hin Hfail)
      as (ds' & d & Hrun' & Hd & Hdip); auto.
    + rewrite start_points_small by assumption. apply in_seq. lia.
    + rewrite Hrun in Hrun'. injection Hrun' as <-. now exists d.
Qed.

(** Witness of X4 on the credential-stuffing sample. *)
Lemma credential_stuffing_is_exhaustive_below_forty_witness :
  exists ds d,
    detect_credential_stuffing SECURITY Samples.stuffing_table = Ok ds
    /\ In d ds /\ cs_ip_address d = "9.9.9.9"%string.
Proof.
  assert (Hsmall : (List.length
                      (filter (fun e => String.eqb (ip_address e) "9.9.9.9")
                              (filter is_failure (rows Samples.stuffing_table)))
                    < 40)%nat)
    by (vm_compute; lia).
  destruct (credential_stuffing_is_exhaustive_below_forty
              SECURITY Samples.stuffing_table "9.9.9.9"
              eq_refl eq_refl eq_refl eq_refl Hsmall)
    as (ds & Hrun & Hiff).
  assert (Hex : exists e, In e (rows Samples.stuffing_table)
                  /\ is_failure e = true
                  /\ ip_address e = "9.9.9.9"%string
                  /\ credential_stuffing_threshold SECURITY
                     <= distinct_window_users Samples.stuffing_table "9.9.9.9"
                          (timestamp e)
                          (credential_stuffing_window_min SECURITY * minute)).
  { eexists. split; [left; reflexivity|]. split; [reflexivity|].
    split; [reflexivity|]. vm_compute. discriminate. }
  destruct (proj2 Hiff Hex) as (d & Hd & Hip).
  exists ds, d. auto.
Defined.
End CredentialStuffingFacts.

(* ================================================================== *)
(** * More on the reputation scorer and the geo detector *)

Section ReputationFacts.
Import Security.
Local Open Scope Q_scope.

Lemma Qleb_total (a b : Q) : Qleb a b = true \/ Qleb b a = true.
Proof.
  rewrite !Qleb_le. destruct (Qlt_le_dec a b) as [H|H]; [left|right]; Lqa.lra.
Qed.

Lemma Qleb_trans (a b c : Q) :
  Qleb a b = true -> Qleb b c = true -> Qleb a c = true.
Proof. rewrite !Qleb_le. Lqa.lra. Qed.

(** The bins of [pd.cut] in the reputation scorer, read off a score in
    [0,100]. *)
Lemma reputation_tier_bins (s : Q) :
  0 <= s <= 100 ->
  (s <= 25 -> cut reputation_bins tier_labels s = Some Low)
  /\ (25 < s -> s <= 50 -> cut reputation_bins tier_labels s = Some Medium)
  /\ (50 < s -> s <= 70 -> cut reputation_bins tier_labels s = Some High)
  /\ (70 < s -> cut reputation_bins tier_labels s = Some Critical).
Proof.
  intros [H0 H100]. unfold reputation_bins, tier_labels. cbn [cut].
  assert (L : forall a b, a < b -> Qltb a b = true)
    by (intros; now apply Qltb_lt).
  assert (M : forall a b, a <= b -> Qleb a b = true)
    by (intros; now apply Qleb_le).
  assert (M' : forall a b, b < a -> Qleb a b = false).
  { intros a b Hab. destruct (Qleb a b) eqn:E; auto.
    apply Qleb_le in E. Lqa.lra. }
  repeat split; intros.
  - rewrite (L (-1) s), (M s 25); auto. Lqa.lra.
  - rewrite (M' s 25), andb_false_r, (L 25 s), (M s 50); auto.
  - rewrite (M' s 25), andb_false_r, (M' s 50), andb_false_r,
      (L 50 s), (M s 70); auto; Lqa.lra.
  - rewrite (M' s 25), andb_false_r, (M' s 50), andb_false_r,
      (M' s 70), andb_false_r, (L 70 s), (M s 100); auto; Lqa.lra.
Qed.

Lemma strongly_sorted_impl {A : Type} (R R' : A -> A -> Prop) (l : list A) :
  (forall a b, R a b -> R' a b) -> StronglySorted R l -> StronglySorted R' l.
Proof.
  intros Himp. induction 1 as [|a r Hr IH Ha]; constructor; auto.
  eapply Forall_impl; [|exact Ha]. intros b. apply Himp.
Qed.

Lemma Ok_inj {A : Type} (a b : A) : Ok a = Ok b -> a = b.
Proof. now intros [= ->]. Qed.

(** X5.  The reputation table has one row per distinct IP of the Event
    Table, sorted by descending score; every score lies in [0,100] and
    every row has a tier, cut by (-1,25] Low, (25,50] Medium, (50,70]
    High, (70,100] Critical. *)
Theorem ip_reputation_rows_are_scored_and_sorted
        (df : DataFrame) (rs : list IpReputation) :
  calculate_ip_reputation df = Ok rs ->
  has_col "ip_address" df = true ->
  Permutation (map rep_ip_address rs)
              (unique String.eqb (map ip_address (rows df)))
  /\ NoDup (map rep_ip_address rs)
  /\ StronglySorted (fun a b => reputation_score b <= reputation_score a) rs
  /\ forall r, In r rs ->
       0 <= reputation_score r <= 100
       /\ (reputation_score r <= 25 -> rep_risk_tier r = Some Low)
       /\ (25 < reputation_score r -> reputation_score r <= 50 ->
           rep_risk_tier r = Some Medium)
       /\ (50 < reputation_score r -> reputation_score r <= 70 ->
           rep_risk_tier r = Some High)
       /\ (70 < reputation_score r -> rep_risk_tier r = Some Critical).
Proof.
  unfold calculate_ip_reputation. intros Hrun Hip. rewrite Hip in Hrun.
  cbn [negb] in Hrun. unfold col_is_failure in Hrun.
  destruct (has_col "is_failure" df); cbn [bind] in Hrun; [|discriminate Hrun].
  apply Ok_inj in Hrun. subst rs.
  match goal with
  | |- context [sort_rows by_reputation_desc (map ?f ?gs)] =>
      set (stats := f); set (groups := gs)
  end.
  assert (Hperm : Permutation (sort_rows by_reputation_desc (map stats groups))
                              (map stats groups)) by apply sort_rows_perm.
  assert (Hips : map rep_ip_address (map stats groups) = map fst groups).
  { rewrite map_map. apply map_ext. intros g. reflexivity. }
  assert (Hkeys : Permutation (map fst groups)
                    (unique String.eqb (map ip_address (rows df)))).
  { unfold groups. rewrite groupby_keys. apply sort_perm. }
  split; [|split; [|split]].
  - rewrite (Permutation_map rep_ip_address Hperm), Hips. exact Hkeys.
  - apply (Permutation_NoDup
             (Permutation_sym (Permutation_map rep_ip_address Hperm))).
    rewrite Hips. apply groupby_keys_nodup, string_eqb_eq.
  - apply strongly_sorted_impl
      with (R := fun a b => by_reputation_desc a b = true).
    + intros a b. unfold by_reputation_desc. apply Qleb_le.
    + apply sort_rows_sorted.
      * intros a b. apply Qleb_total.
      * intros a b c. unfold by_reputation_desc. intros H1 H2.
        eapply Qleb_trans; eauto.
  - intros r Hr. apply (Permutation_in _ Hperm) in Hr.
    apply in_map_iff in Hr. destruct Hr as [g [<- _]].
    cbn [stats reputation_score rep_risk_tier].
    match goal with
    | |- context [round1 ?x] =>
        assert (Hrange : 0 <= round1 x <= 100)
          by (apply round1_range, clip_range)
    end.
    split; [exact Hrange|]. apply reputation_tier_bins, Hrange.
Qed.

(** Witness of X5 on the credential-stuffing sample. *)
Lemma ip_reputation_rows_are_scored_and_sorted_witness :
  exists rs,
    calculate_ip_reputation Samples.stuffing_table = Ok rs
    /\ NoDup (map rep_ip_address rs)
    /\ forall r, In r rs -> 0 <= reputation_score r <= 100.
Proof.
  assert (Hrun : exists r, calculate_ip_reputation Samples.stuffing_table = Ok [r]).
  { eexists. vm_compute. reflexivity. }
  destruct Hrun as [r Hrun]. exists [r]. split; [exact Hrun|].
  destruct (ip_reputation_rows_are_scored_and_sorted
              Samples.stuffing_table [r] Hrun eq_refl) as (_ & H1 & _ & H2).
  split; [exact H1|]. intros x Hx. exact (proj1 (H2 x Hx)).
Defined.

(** Dropping rows of a table leaves the keys of the kept rows pairwise
    distinct when the keys of all rows were. *)
Lemma kept_rows_have_distinct_keys {Row Key : Type} (key : Row -> Key)
      (keep : Row -> bool) (table : list Row) :
  NoDup (map key table) -> NoDup (map key (filter keep table)).
Proof.
  intros Hkeys. induction table as [|row rest IH]; [exact Hkeys|].
  apply NoDup_cons_iff in Hkeys. destruct Hkeys as [Hfresh Hrest].
  cbn [filter]. destruct (keep row); [|exact (IH Hrest)].
  cbn [map]. apply NoDup_cons; [|exact (IH Hrest)].
  intros Hin. apply Hfresh.
  apply in_map_iff in Hin. destruct Hin as [other [Hsame Hother]].
  apply filter_In in Hother. apply in_map_iff. exists other. tauto.
Qed.

(** X6.  The geo detector flags exactly the users seen from three or more
    distinct countries, each once; a record carries the user's number of
    distinct countries and is CRITICAL from five countries on, WARNING
    below. *)
Theorem geo_anomalies_are_users_with_three_countries (df : DataFrame) :
  has_col "user_id" df = true ->
  has_col "country" df = true ->
  let countries_of u :=
    map country (filter (fun e => String.eqb (user_id e) u) (rows df)) in
  exists gs,
    detect_geo_anomalies df = Ok gs
    /\ NoDup (map geo_user_id gs)
    /\ (forall u,
           (exists r, In r gs /\ geo_user_id r = u)
           <-> (3 <= Z.of_nat (nunique String.eqb (countries_of u)))%Z)
    /\ forall r, In r gs ->
         num_countries r
         = Z.of_nat (nunique String.eqb (countries_of (geo_user_id r)))
         /\ geo_countries r = unique String.eqb (countries_of (geo_user_id r))
         /\ (3 <= num_countries r)%Z
         /\ (geo_severity r = "CRITICAL"%string <-> (5 <= num_countries r)%Z)
         /\ (geo_severity r = "WARNING"%string <-> (num_countries r < 5)%Z).
Proof.
  intros Hu Hc countries_of. unfold detect_geo_anomalies. rewrite Hu, Hc.
  cbn [negb orb]. eexists. split; [reflexivity|].
  set (groups := groupby String.eqb String.leb user_id (rows df)).
  match goal with
  | |- context [map ?mk (filter ?p (map ?sm groups))] =>
      set (make := mk); set (flagged := p); set (summary := sm)
  end.
  assert (Hgroup : forall g, In g groups ->
             map country (snd g) = countries_of (fst g)).
  { intros g Hg. unfold countries_of.
    now rewrite (proj1 (groupby_group String.eqb String.leb string_eqb_eq
                                      user_id _ g Hg)). }
  assert (Hrec : forall r, In r (map make (filter flagged (map summary groups))) ->
             exists g, In g groups /\ geo_user_id r = fst g
               /\ num_countries r
                  = Z.of_nat (nunique String.eqb (map country (snd g)))
               /\ geo_countries r = unique String.eqb (map country (snd g))
               /\ (3 <= num_countries r)%Z
               /\ geo_severity r
                  = if (5 <=? num_countries r)%Z
                    then "CRITICAL"%string else "WARNING"%string).
  { intros r Hr. apply in_map_iff in Hr. destruct Hr as [x [<- Hx]].
    apply filter_In in Hx. destruct Hx as [Hx Hflag].
    apply in_map_iff in Hx. destruct Hx as [g [<- Hg]].
    exists g. cbn in Hflag |- *. apply Z.leb_le in Hflag. auto 10. }
  split; [|split].
  - assert (Hids : map geo_user_id (map make (filter flagged (map summary groups)))
                   = map (fun x => fst (fst (fst x)))
                         (filter flagged (map summary groups))).
    { rewrite map_map. apply map_ext. intros [[[u cs] n] p]. reflexivity. }
    rewrite Hids. apply kept_rows_have_distinct_keys. rewrite map_map.
    cbn [summary fst]. apply (groupby_keys_nodup String.eqb String.leb string_eqb_eq).
  - intros u. split.
    + intros (r & Hr & <-).
      destruct (Hrec r Hr) as (g & Hg & Hid & Hn & _ & Hge & _).
      rewrite Hid, <- (Hgroup g Hg), <- Hn. exact Hge.
    + intros Hge.
      assert (Hne : countries_of u <> []).
      { intros E. rewrite E in Hge. cbn in Hge. lia. }
      assert (Hin : In u (map user_id (rows df))).
      { unfold countries_of in Hne.
        destruct (filter (fun e => String.eqb (user_id e) u) (rows df))
          as [|e es] eqn:E; [now destruct Hne|].
        assert (He : In e (filter (fun e => String.eqb (user_id e) u) (rows df)))
          by (rewrite E; now left).
        apply filter_In in He. destruct He as [He Heq].
        apply String.eqb_eq in Heq. subst u. now apply in_map. }
      assert (Hg : In (u, filter (fun r => String.eqb (user_id r) u) (rows df))
                      groups).
      { unfold groups, groupby. apply in_map_iff. exists u. split; auto.
        eapply Permutation_in; [apply Permutation_sym, sort_perm|].
        now apply (unique_in String.eqb string_eqb_eq). }
      eexists. split.
      * apply in_map_iff. eexists. split; [reflexivity|].
        apply filter_In. split.
        -- apply in_map_iff. eexists. split; [reflexivity | exact Hg].
        -- cbn. apply Z.leb_le. exact Hge.
      * reflexivity.
  - intros r Hr.
    destruct (Hrec r Hr) as (g & Hg & Hid & Hn & Hcs & Hge & Hsev).
    rewrite Hid, <- (Hgroup g Hg). split; [exact Hn|]. split; [exact Hcs|].
    split; [exact Hge|]. rewrite Hsev.
    destruct (5 <=? num_countries r)%Z eqn:E.
    + apply Z.leb_le in E. split; split; intros; auto; try lia; discriminate.
    + apply Z.leb_gt in E. split; split; intros; auto; try lia; discriminate.
Qed.

(** Witness of X6 on the fusion sample, whose user alice is seen from
    three countries. *)
Lemma geo_anomalies_are_users_with_three_countries_witness :
  exists gs r,
    detect_geo_anomalies Samples.fusion_table = Ok gs
    /\ In r gs /\ geo_user_id r = "alice"%string.
Proof.
  destruct (geo_anomalies_are_users_with_three_countries
              Samples.fusion_table eq_refl eq_refl)
    as (gs & Hrun & _ & Hiff & _).
  assert (H3 : (3 <= Z.of_nat
                  (nunique String.eqb
                     (map country
                        (filter (fun e => String.eqb (user_id e) "alice")
                                (rows Samples.fusion_table)))))%Z)
    by (vm_compute; discriminate).
  destruct (proj2 (Hiff "alice"%string) H3) as (r & Hr & Hid).
  exists gs, r. auto.
Defined.
End ReputationFacts.

(* ================================================================== *)
(** * The security bundle *)

Section SecurityBundleFacts.
Import Security.

Lemma round2_range (x : Q) : (0 <= x <= 100 -> 0 <= round2 x <= 100)%Q.
Proof.
  intros H. unfold round2. rewrite Qred_correct.
  destruct (rint_range (x * 100) 10000) as [Ha Hb]; [lia | |].
  - change (inject_Z 10000) with 10000%Q. Lqa.lra.
  - unfold Qle. cbn [Qnum Qden]. lia.
Qed.

(** A share of a positive total, in percent. *)
Lemma percent_range (part total : Z) :
  0 <= part <= total -> 0 < total ->
  (0 <= inject_Z part / inject_Z total * 100 <= 100)%Q.
Proof.
  intros Hp Ht.
  assert (Hq : (0 < inject_Z total)%Q).
  { change 0%Q with (inject_Z 0). rewrite <- Zlt_Qlt. exact Ht. }
  assert (H0 : (0 <= inject_Z part)%Q).
  { change 0%Q with (inject_Z 0). rewrite <- Zle_Qle. lia. }
  assert (H1 : (inject_Z part <= inject_Z total)%Q)
    by (rewrite <- Zle_Qle; lia).
  assert (Hd0 : (0 <= inject_Z part / inject_Z total)%Q)
    by (apply Qle_shift_div_l; [exact Hq | Lqa.lra]).
  assert (Hd1 : (inject_Z part / inject_Z total <= 1)%Q)
    by (apply Qle_shift_div_r; [exact Hq | Lqa.lra]).
  split; Lqa.lra.
Qed.

Lemma len_filter_le {A : Type} (f : A -> bool) (l : list A) :
  0 <= len (filter f l) <= len l.
Proof. unfold len. pose proof (filter_length_le f l). lia. Qed.

(** X7.  In the security bundle the threat total is the number of
    brute-force plus credential-stuffing records, the MITRE table has one
    row per such record, the high-risk IP count is the number of
    reputation rows at or above [high_risk_score], and the overall failure
    rate is a percentage in [0,100], 0 on a table without rows. *)
Theorem security_bundle_totals_are_consistent
        (cfg : SecurityConfig) (df : DataFrame) :
  has_col "is_failure" df = true ->
  exists r,
    run_security_analysis cfg df = Ok r
    /\ total_threats r = len (brute_force r) + len (credential_stuffing r)
    /\ len (mitre_mapping r) = total_threats r
    /\ high_risk_ips r = len (filter (is_high_risk cfg) (ip_reputation r))
    /\ 0 <= high_risk_ips r <= len (ip_reputation r)
    /\ (0 <= failure_rate r <= 100)%Q
    /\ (rows df = [] -> failure_rate r = 0%Q).
Proof.
  intros H.
  destruct (detect_brute_force_returns cfg df H) as [bf Hbf].
  destruct (detect_credential_stuffing_returns cfg df H) as [cs Hcs].
  destruct (calculate_ip_reputation_returns df H) as [rep Hrep].
  destruct (detect_geo_anomalies_returns df) as [geo Hgeo].
  unfold run_security_analysis. rewrite Hbf, Hcs, Hrep, Hgeo, H.
  cbn [bind]. eexists. split; [reflexivity|].
  cbn [total_threats brute_force credential_stuffing mitre_mapping
       high_risk_ips ip_reputation failure_rate].
  split; [reflexivity|]. split; [|split; [|split; [|split]]].
  - unfold map_mitre_techniques, len.
    rewrite length_app, !length_map. lia.
  - destruct rep; reflexivity.
  - destruct rep as [|x rep']; [cbn; lia|].
    apply len_filter_le.
  - apply round2_range.
    destruct (0 <? len (rows df)) eqn:E; [|Lqa.lra].
    apply Z.ltb_lt in E. apply percent_range; [apply len_filter_le | exact E].
  - intros ->. reflexivity.
Qed.

(** Witness of X7 on the credential-stuffing sample. *)
Lemma security_bundle_totals_are_consistent_witness :
  exists r,
    run_security_analysis SECURITY Samples.stuffing_table = Ok r
    /\ total_threats r = len (brute_force r) + len (credential_stuffing r)
    /\ len (mitre_mapping r) = total_threats r.
Proof.
  destruct (security_bundle_totals_are_consistent
              SECURITY Samples.stuffing_table eq_refl)
    as (r & Hrun & H1 & H2 & _).
  exists r. auto.
Defined.
End SecurityBundleFacts.

(* ================================================================== *)
(** * More on the anomaly engine *)

Section RollingFacts.
Import Anomaly.
Local Open Scope R_scope.

Lemma Rsum_constant (c : R) (l : list R) :
  Forall (fun x => x = c) l -> Rsum l = INR (List.length l) * c.
Proof.
  induction 1 as [|x r Hx Hr IH].
  - simpl. ring.
  - cbn [Rsum fold_right List.length]. fold (Rsum r). rewrite IH, S_INR, Hx. ring.
Qed.

Lemma mean_constant (c : R) (l : list R) :
  l <> [] -> Forall (fun x => x = c) l -> mean l = Some c.
Proof.
  intros Hne Hc. unfold mean. destruct l as [|x r]; [now destruct Hne|].
  rewrite (Rsum_constant c) by assumption. f_equal.
  assert (INR (List.length (x :: r)) <> 0) by (apply not_0_INR; discriminate).
  field. assumption.
Qed.

Lemma squares_constant (c : R) (l : list R) :
  Forall (fun x => x = c) l ->
  Rsum (map (fun x => (x - c) * (x - c)) l) = 0.
Proof.
  induction 1 as [|x r Hx Hr IH]; [reflexivity|].
  cbn [map Rsum fold_right]. fold (Rsum (map (fun x => (x - c) * (x - c)) r)).
  rewrite IH, Hx. ring.
Qed.

(** On a window of equal values the divisor of the z-score is 1. *)
Lemma divisor_constant (c : R) (l : list R) :
  l <> [] -> Forall (fun x => x = c) l ->
  replace_zero (fillna 1 (std l)) = 1.
Proof.
  intros Hne Hc. unfold std. rewrite (mean_constant c) by assumption.
  destruct (2 <=? List.length l)%nat.
  - rewrite squares_constant by assumption. cbn [fillna].
    unfold Rdiv. rewrite Rmult_0_l, sqrt_0. unfold replace_zero.
    destruct (Req_dec_T 0 0) as [_|H]; [reflexivity | now destruct H].
  - cbn [fillna]. unfold replace_zero. now destruct (Req_dec_T 1 0).
Qed.

Lemma window_at_sub (w : nat) (series : list R) (i : nat) (x : R) :
  In x (window_at w series i) -> In x series.
Proof.
  unfold window_at. intros H.
  assert (H1 : In x (firstn (S i) series)).
  { rewrite <- (firstn_skipn (S i - w) (firstn (S i) series)).
    apply in_or_app. now right. }
  rewrite <- (firstn_skipn (S i) series). apply in_or_app. now left.
Qed.

Lemma window_at_nonempty (w : nat) (series : list R) (i : nat) :
  (1 <= w)%nat -> (i < List.length series)%nat -> window_at w series i <> [].
Proof.
  intros Hw Hi E. apply (f_equal (@List.length R)) in E.
  unfold window_at in E. rewrite length_skipn, length_firstn in E.
  cbn [List.length] in E. lia.
Qed.

Lemma rolling_zscore_defined (series : list R) (w : nat) :
  (1 <= w)%nat ->
  List.length (rolling_zscore series w) = List.length series
  /\ (forall i, (i < List.length series)%nat ->
        replace_zero (fillna 1 (std (window_at w series i))) <> 0)
  /\ Forall (fun z => exists v, z = Some v) (rolling_zscore series w).
Proof.
  intros Hw. split; [apply rolling_zscore_length|]. split.
  - intros i _. unfold replace_zero.
    destruct (Req_dec_T (fillna 1 (std (window_at w series i))) 0); [lra | assumption].
  - apply Forall_forall. intros z Hz. unfold rolling_zscore in Hz.
    apply in_map_iff in Hz. destruct Hz as [i [<- Hi]].
    apply in_seq in Hi. unfold zscore_at.
    destruct (nth_error series i) as [x|] eqn:Ex.
    + pose proof (window_at_nonempty w series i Hw (proj2 Hi)) as Hne.
      unfold mean. destruct (window_at w series i); [now destruct Hne|].
      eexists. reflexivity.
    + apply nth_error_None in Ex. lia.
Qed.



(** X9.  A series whose values are all equal has rolling z-score 0 at
    every position: the zero standard deviation of its windows is
    replaced by 1, so nothing is divided by zero and no position exceeds a
    non-negative threshold. *)
Theorem constant_series_has_zero_zscores (series : list R) (c : R) (w : nat) :
  (1 <= w)%nat ->
  Forall (fun x => x = c) series ->
  Forall (fun z => z = Some 0) (rolling_zscore series w)
  /\ forall t, 0 <= t ->
       Forall (fun z => nan_gt (nan_abs z) t = false) (rolling_zscore series w).
Proof.
  intros Hw Hc.
  assert (Hz : Forall (fun z => z = Some 0) (rolling_zscore series w)).
  { apply Forall_forall. intros z Hz. unfold rolling_zscore in Hz.
    apply in_map_iff in Hz. destruct Hz as [i [<- Hi]].
    apply in_seq in Hi. destruct Hi as [_ Hi]. simpl in Hi.
    unfold zscore_at.
    assert (Hwin : Forall (fun x => x = c) (window_at w series i)).
    { apply Forall_forall. intros x Hx. apply window_at_sub in Hx.
      rewrite Forall_forall in Hc. now apply Hc. }
    pose proof (window_at_nonempty w series i Hw Hi) as Hne.
    rewrite (mean_constant c), (divisor_constant c) by assumption.
    destruct (nth_error series i) as [x|] eqn:Ex.
    - assert (Hx : x = c).
      { rewrite Forall_forall in Hc. apply Hc. eapply nth_error_In; eauto. }
      rewrite Hx. f_equal. field.
    - apply nth_error_None in Ex. lia. }
  split; [exact Hz|].
  intros t Ht. eapply Forall_impl; [|exact Hz].
  intros z ->. cbn [nan_abs option_map nan_gt].
  apply Rgtb_false. rewrite Rabs_R0. exact Ht.
Qed.

(** Witness of X9: four buckets of 100 ms. *)
Lemma constant_series_has_zero_zscores_witness :
  Forall (fun z => z = Some 0) (rolling_zscore [100; 100; 100; 100] 20).
Proof.
  assert (Hw : (1 <= 20)%nat) by lia.
  assert (Hc : Forall (fun x => x = 100) [100; 100; 100; 100])
    by (repeat constructor).
  exact (proj1 (constant_series_has_zero_zscores [100; 100; 100; 100] 100 20 Hw Hc)).
Defined.
End RollingFacts.

Section SortFacts.
Context {K : Type}.
Variable leb : K -> K -> bool.
Hypothesis leb_total : forall a b, leb a b = true \/ leb b a = true.
Hypothesis leb_trans :
  forall a b c, leb a b = true -> leb b c = true -> leb a c = true.

Lemma insert_sorted_sorted (x : K) (l : list K) :
  StronglySorted (fun a b => leb a b = true) l ->
  StronglySorted (fun a b => leb a b = true) (insert_sorted leb x l).
Proof.
  induction l as [|y r IH]; intros Hs; simpl.
  - constructor; constructor.
  - apply StronglySorted_inv in Hs. destruct Hs as [Hr Hy].
    destruct (leb x y) eqn:E.
    + constructor. constructor; auto.
      constructor; auto.
      rewrite Forall_forall in *. intros z Hz. eauto.
    + constructor; auto.
      rewrite Forall_forall in *. intros z Hz.
      apply (Permutation_in _ (insert_sorted_perm leb x r)) in Hz.
      destruct Hz as [<- | Hz]; auto.
      destruct (leb_total x y) as [H|H]; congruence.
Qed.

Lemma sort_sorted (l : list K) :
  StronglySorted (fun a b => leb a b = true) (sort leb l).
Proof.
  induction l as [|x r IH]; simpl; [constructor|].
  now apply insert_sorted_sorted.
Qed.
End SortFacts.

(** The bucket keys of a [groupby] on a time column: strictly ascending. *)
Lemma time_buckets_ascending {A : Type} (key : A -> Z) (l : list A) :
  StronglySorted Z.lt (map fst (groupby Z.eqb Z.leb key l)).
Proof.
  rewrite groupby_keys.
  assert (Hs : StronglySorted (fun a b => Z.leb a b = true)
                              (sort Z.leb (unique Z.eqb (map key l)))).
  { apply sort_sorted.
    - intros a b. rewrite !Z.leb_le. lia.
    - intros a b c. rewrite !Z.leb_le. lia. }
  assert (Hn : NoDup (sort Z.leb (unique Z.eqb (map key l)))).
  { apply (Permutation_NoDup (Permutation_sym (sort_perm _ _))).
    apply unique_nodup. apply Z.eqb_eq. }
  induction Hs as [|a r Hr IH Ha]; [constructor|].
  inversion Hn as [|? ? Hnotin Hn']; subst.
  constructor; [now apply IH|].
  rewrite Forall_forall in *. intros b Hb.
  specialize (Ha b Hb). apply Z.leb_le in Ha.
  assert (a <> b) by (intros ->; contradiction). lia.
Qed.

Lemma groupby_group_nonempty {K A : Type} (eqb leb : K -> K -> bool)
      (eqb_eq : forall x y, eqb x y = true <-> x = y)
      (key : A -> K) (l : list A) (g : K * list A) :
  In g (groupby eqb leb key l) -> snd g <> [].
Proof.
  intros Hg.
  destruct (groupby_group eqb leb eqb_eq key l g Hg) as [Hsnd Hk].
  apply in_map_iff in Hk. destruct Hk as [x [Hx Hin]].
  assert (In x (snd g)).
  { rewrite Hsnd. apply filter_In. split; auto. now apply eqb_eq. }
  intros E. rewrite E in *. contradiction.
Qed.

Lemma combine_fst_map {A C : Type} (l : list A) (zs : list C) :
  List.length zs = List.length l -> map fst (combine l zs) = l.
Proof.
  revert zs. induction l as [|x r IH]; intros [|z zs] H; simpl in *;
    try discriminate; auto.
  f_equal. apply IH. lia.
Qed.

Section SpikeRowFacts.
Import Anomaly.
Local Open Scope R_scope.

(** X10.  Every row returned by [detect_spikes] has a defined z-score
    whose magnitude exceeds the threshold; it is CRITICAL when the
    magnitude exceeds one and a half times the threshold and WARNING
    otherwise, and for a non-negative threshold its direction is HIGH
    when z is above the threshold and LOW when z is below its negative,
    never NORMAL. *)
Theorem detected_spikes_exceed_threshold
        (cfg : MLConfig) (df : DataFrame) (metric_col time_col : string)
        (threshold : option R) :
  let t := effective_threshold cfg threshold in
  0 <= t ->
  forall r, In r (detect_spikes cfg df metric_col time_col threshold) ->
  exists z,
    sp_zscore r = Some z
    /\ sp_is_spike r = true
    /\ Rabs z > t
    /\ (sp_severity r = "CRITICAL"%string <-> Rabs z > t * 1.5)
    /\ (sp_severity r = "WARNING"%string <-> Rabs z <= t * 1.5)
    /\ (spike_direction r = "HIGH"%string <-> z > t)
    /\ (spike_direction r = "LOW"%string <-> z < - t)
    /\ spike_direction r <> "NORMAL"%string.
Proof.
  intros t Ht r Hr. unfold detect_spikes in Hr.
  destruct (negb (has_col metric_col df) || negb (has_col time_col df));
    [destruct Hr|].
  fold t in Hr. apply in_map_iff in Hr. destruct Hr as [r0 [<- Hr0]].
  apply filter_In in Hr0. destruct Hr0 as [Hr0 Hspike].
  unfold spike_table in Hr0. apply in_map_iff in Hr0.
  destruct Hr0 as [[g z] [<- _]].
  cbn [sp_is_spike] in Hspike.
  destruct z as [z|]; [|discriminate Hspike].
  cbn [nan_abs option_map nan_gt] in Hspike.
  pose proof (proj1 (Rgtb_true _ _) Hspike) as Habs.
  exists z.
  cbn [with_severity sp_zscore sp_is_spike sp_severity spike_direction
       nan_abs option_map nan_gt nan_lt].
  split; [reflexivity|]. split; [exact Hspike|]. split; [exact Habs|].
  assert (Hside : z > t \/ z < - t).
  { unfold Rabs in Habs. destruct (Rcase_abs z); [right | left]; lra. }
  split; [|split].
  - destruct (Rgtb (Rabs z) (t * 1.5)) eqn:E.
    + apply Rgtb_true in E. tauto.
    + apply Rgtb_false in E. split; [discriminate | lra].
  - destruct (Rgtb (Rabs z) (t * 1.5)) eqn:E.
    + apply Rgtb_true in E. split; [discriminate | lra].
    + apply Rgtb_false in E. tauto.
  - destruct (Rgtb z t) eqn:E1.
    + apply Rgtb_true in E1.
      repeat split; auto; try discriminate; intros; lra.
    + apply Rgtb_false in E1.
      destruct (Rgtb (- t) z) eqn:E2.
      * apply Rgtb_true in E2.
        repeat split; auto; try discriminate; intros; lra.
      * apply Rgtb_false in E2. lra.
Qed.

(** Witness of X10 under the shipped settings. *)
Lemma detected_spikes_exceed_threshold_witness :
  0 <= effective_threshold ML_CONFIG None
  /\ forall r,
      In r (detect_spikes ML_CONFIG Samples.error_rate_table
                          "is_failure" "hour_bucket" None) ->
      exists z, sp_zscore r = Some z
                /\ Rabs z > effective_threshold ML_CONFIG None.
Proof.
  assert (Ht : 0 <= effective_threshold ML_CONFIG None).
  { change (0 <= Q2R (5 # 2)). unfold Q2R. cbn [Qnum Qden]. lra. }
  split; [exact Ht|]. intros r Hr.
  destruct (detected_spikes_exceed_threshold
              ML_CONFIG Samples.error_rate_table "is_failure" "hour_bucket"
              None Ht r Hr) as (z & Hz & _ & Habs & _).
  exists z. split; [exact Hz | exact Habs].
Defined.

(** X11.  The error-rate table has one row per time bucket, in strictly
    ascending bucket order; every bucket holds at least one request, its
    error count is between 0 and its total, and its error rate is a
    percentage in [0,100]; the z-score of every row is defined when the
    window is at least one bucket. *)
Theorem error_rate_rows_are_percentages
        (cfg : MLConfig) (df : DataFrame) (time_col : string) :
  (1 <= zscore_window cfg)%nat ->
  StronglySorted Z.lt
    (map er_bucket (detect_error_rate_spikes cfg df time_col))
  /\ forall r, In r (detect_error_rate_spikes cfg df time_col) ->
       (1 <= er_total r)%Z
       /\ (0 <= er_errors r <= er_total r)%Z
       /\ (0 <= error_rate r <= 100)%Q
       /\ exists z, er_zscore r = Some z.
Proof.
  intros Hw. unfold detect_error_rate_spikes.
  destruct (negb (has_col "is_failure" df) || negb (has_col time_col df)).
  { split; [constructor | intros r []]. }
  set (groups := groupby Z.eqb Z.leb (time_of time_col) (rows df)).
  set (series := map (fun g => Q2R (error_rate_of g)) groups).
  split.
  - match goal with
    | |- StronglySorted _ (map er_bucket (map ?F ?l)) =>
        replace (map er_bucket (map F l)) with (map fst (map fst l))
          by (rewrite !map_map; apply map_ext; intros [g z]; reflexivity)
    end.
    rewrite combine_fst_map.
    + apply time_buckets_ascending.
    + rewrite rolling_zscore_length. unfold series. now rewrite length_map.
  - intros r Hr. apply in_map_iff in Hr. destruct Hr as [[g z] [<- Hgz]].
    assert (Hg : In g groups) by (eapply in_combine_l; eauto).
    assert (Hz : In z (rolling_zscore series (zscore_window cfg)))
      by (eapply in_combine_r; eauto).
    pose proof (groupby_group_nonempty Z.eqb Z.leb Z.eqb_eq _ _ g Hg) as Hne.
    cbn [er_total er_errors error_rate er_zscore].
    assert (Hlen : (1 <= List.length (snd g))%nat)
      by (destruct (snd g); [now destruct Hne | simpl; lia]).
    pose proof (filter_length_le is_failure (snd g)) as Hf.
    split; [lia|]. split; [lia|]. split.
    + unfold error_rate_of. apply round2_range.
      apply percent_range; lia.
    + destruct (rolling_zscore_defined series (zscore_window cfg) Hw)
        as (_ & _ & Hall).
      rewrite Forall_forall in Hall. exact (Hall z Hz).
Qed.

(** Witness of X11 on the nine-bucket sample. *)
Lemma error_rate_rows_are_percentages_witness :
  (1 <= zscore_window ML_CONFIG)%nat
  /\ StronglySorted Z.lt
       (map er_bucket
            (detect_error_rate_spikes ML_CONFIG Samples.error_rate_table
                                      "hour_bucket")).
Proof.
  assert (Hw : (1 <= zscore_window ML_CONFIG)%nat) by (cbv; lia).
  split; [exact Hw|].
  exact (proj1 (error_rate_rows_are_percentages
                  ML_CONFIG Samples.error_rate_table "hour_bucket" Hw)).
Defined.
End SpikeRowFacts.
